(** * Umazen secure data loader: manifest, shard fetch, cache and batch stream

    A shallow embedding of [SecureDataLoader]
    (federated-learning/client/py/src/utils/data_loader.py) and of the
    statements made about it.

    - Python values that a decoded manifest can hold are the inductive
      [pyval]; a [dict] is an association list in insertion order.
    - Exceptions are values of [exn] (class and message); code that may
      raise and that touches the outside world lives in the monad [M], a
      state monad over [World] whose results are [Ok] or [Err].
    - [World] holds what the loader can observe or change: the file
      system, the trace of transport calls, the trace of [time.sleep]
      arguments and the log.
    - What comes from libraries or is absent from the class is a field of
      [Env]: the JSON decoder, the SHA3-256 digest, the HTTP session of
      the manifest loaders, [requests.get], and the two shard transports
      the class calls without defining them.
    - [_validate_cached_file] calls [self._generate_hash].  The class has
      no such attribute (it has no base class, and the [_generate_hash]
      of the repository is a static method of [UmazenClient] in
      client.py), so the call raises AttributeError, and that is what is
      embedded.
    - The text of an error that the operating system reports is written
      as Python prints it for a path of printable characters without
      quotes or backslashes; the statements fix the class of such an
      error, not its text.
    - The worker pool runs whole tasks one after the other, in an order
      that the statements leave arbitrary. *)

From Stdlib Require Import ZArith String Ascii List Lia.
From stdpp Require Import base gmap strings list fin_maps pretty.

Local Open Scope string_scope.
Local Open Scope Z_scope.

#[local] Set Warnings "-register-all".

(** ** Python values and exceptions *)

Module Py.

Inductive pyval : Type :=
| PNone
| PBool (b : bool)
| PInt (z : Z)
| PFloat (literal : string)
| PStr (s : string)
| PList (items : list pyval)
| PDict (entries : list (string * pyval)).

Inductive exn_class : Type :=
| JSONDecodeError
| AssertionError
| ValueError
| TypeError
| KeyError
| IndexError
| IOError                 (* alias of OSError in Python 3 *)
| FileNotFoundError
| IsADirectoryError
| AttributeError
| ClientResponseError     (* aiohttp, raise_for_status *)
| HTTPError               (* requests, raise_for_status *)
| TransportError.         (* any other Exception raised inside a transport *)

Record exn : Type := Raise { cls : exn_class; msg : string }.

Inductive result (A : Type) : Type :=
| Ok (a : A)
| Err (e : exn).
Arguments Ok {A} a.
Arguments Err {A} e.

Definition type_name (v : pyval) : string :=
  match v with
  | PNone => "NoneType"
  | PBool _ => "bool"
  | PInt _ => "int"
  | PFloat _ => "float"
  | PStr _ => "str"
  | PList _ => "list"
  | PDict _ => "dict"
  end.

(** [needle in haystack] on [str]: substring test. *)
Fixpoint str_contains (needle s : string) : bool :=
  String.prefix needle s
  || match s with
     | EmptyString => false
     | String _ rest => str_contains needle rest
     end.

(** [s.startswith(p)] *)
Definition startswith (s p : string) : bool := String.prefix p s.

(** [d.get(k)] on a dict kept as an association list. *)
Fixpoint dict_get (k : string) (d : list (string * pyval)) : option pyval :=
  match d with
  | [] => None
  | (k', v) :: rest => if String.eqb k k' then Some v else dict_get k rest
  end.

(** [d[k] = v]: overwrite in place, or append a new key. *)
Fixpoint dict_set (k : string) (v : pyval) (d : list (string * pyval))
  : list (string * pyval) :=
  match d with
  | [] => [(k, v)]
  | (k', v') :: rest =>
      if String.eqb k k' then (k, v) :: rest else (k', v') :: dict_set k v rest
  end.

Definition is_str (s : string) (v : pyval) : bool :=
  match v with PStr t => String.eqb s t | _ => false end.

(** [key in v] for a [str] key. *)
Definition contains (key : string) (v : pyval) : result bool :=
  match v with
  | PDict d => Ok (bool_decide (is_Some (dict_get key d)))
  | PList l => Ok (existsb (is_str key) l)
  | PStr s => Ok (str_contains key s)
  | _ => Err (Raise TypeError
                ("argument of type '" ++ type_name v ++ "' is not iterable"))
  end.

(** [v[key]] for a [str] key. *)
Definition getitem (v : pyval) (key : string) : result pyval :=
  match v with
  | PDict d =>
      match dict_get key d with
      | Some x => Ok x
      | None => Err (Raise KeyError ("'" ++ key ++ "'"))
      end
  | PList _ =>
      Err (Raise TypeError "list indices must be integers or slices, not str")
  | PStr _ => Err (Raise TypeError "string indices must be integers, not 'str'")
  | _ => Err (Raise TypeError
                ("'" ++ type_name v ++ "' object is not subscriptable"))
  end.

(** [iter(v)]: the items a [for] loop visits. *)
Definition iterate (v : pyval) : result (list pyval) :=
  match v with
  | PList l => Ok l
  | PDict d => Ok (map (fun kv => PStr (fst kv)) d)
  | PStr s =>
      Ok (map (fun c => PStr (String c EmptyString)) (list_ascii_of_string s))
  | _ => Err (Raise TypeError
                ("'" ++ type_name v ++ "' object is not iterable"))
  end.

(** [s.split(sep)] for a non-empty separator. *)
Fixpoint split_aux (sep : string) (cur : string) (skip : nat) (s : string)
  : list string :=
  match s with
  | EmptyString => [cur]
  | String c rest =>
      match skip with
      | S k => split_aux sep cur k rest
      | O =>
          if String.prefix sep s
          then cur :: split_aux sep EmptyString (Nat.pred (String.length sep)) rest
          else split_aux sep (cur ++ String c EmptyString) O rest
      end
  end.

Definition split (s sep : string) : list string := split_aux sep EmptyString O s.

End Py.
Import Py.

(** ** Paths, as [pathlib.PurePosixPath] reads them *)

Module PathLib.

Definition components (s : string) : list string :=
  filter (fun c => negb (String.eqb c "") && negb (String.eqb c ".")) (split s "/").

Definition root (s : string) : string :=
  if startswith s "//" && negb (startswith s "///") then "//"
  else if startswith s "/" then "/" else "".

(** [str(Path(s))] *)
Definition Path (s : string) : string :=
  let text := root s ++ String.concat "/" (components s) in
  if String.eqb text "" then "." else text.

(** [Path(s).name]: the last component, or the empty string. *)
Definition name (s : string) : string := List.last (components s) "".

Definition ends_with_slash (s : string) : bool :=
  match List.last (list_ascii_of_string s) "a"%char with
  | "/"%char => true
  | _ => false
  end.

(** [Path(d) / n] for a single component [n] (possibly empty). *)
Definition join (d n : string) : string :=
  let d := Path d in
  if String.eqb n "" then d
  else if String.eqb d "." then n
  else if ends_with_slash d then d ++ n
  else d ++ "/" ++ n.

End PathLib.

(** ** The world the loader runs in *)

Abbreviation bytes := (list Byte.byte).

Inductive node : Type :=
| File (data : bytes)
| Dir.

Inductive level : Type := INFO | WARNING | ERROR.

Record World : Type := mkWorld {
  fs : gmap string node;          (* path ↦ file or directory *)
  net : list string;              (* URIs handed to a shard transport, oldest first *)
  slept : list Z;                 (* arguments of time.sleep, oldest first *)
  log : list (level * string)     (* logger records, oldest first *)
}.

(** Computations that read and change the world and may raise. *)
Definition M (A : Type) : Type := World -> result A * World.

Definition ret {A} (a : A) : M A := fun w => (Ok a, w).
Definition raise {A} (e : exn) : M A := fun w => (Err e, w).
Definition bind {A B} (m : M A) (k : A -> M B) : M B :=
  fun w => match m w with
           | (Ok a, w') => k a w'
           | (Err e, w') => (Err e, w')
           end.
(** [try: m except Exception as e: h e] *)
Definition try_except {A} (m : M A) (h : exn -> M A) : M A :=
  fun w => match m w with
           | (Ok a, w') => (Ok a, w')
           | (Err e, w') => h e w'
           end.
Definition lift {A} (r : result A) : M A := fun w => (r, w).

#[global] Instance M_ret : MRet M := @ret.
#[global] Instance M_bind : MBind M := fun A B k m => bind m k.

Module OS.

(** The longest file name and the longest path the system takes, in
    bytes (Linux: NAME_MAX, and PATH_MAX with its final NUL). *)
Definition NAME_MAX : Z := 255.
Definition PATH_MAX : Z := 4096.

(** A path that a system call refuses with ENAMETOOLONG, the
    directories on the way to it being there. *)
Definition too_long (p : string) : bool :=
  (PATH_MAX <=? Z.of_nat (String.length p))
  || existsb (fun c => NAME_MAX <? Z.of_nat (String.length c)) (split p "/").

(** A path with a NUL character, which Python hands to no system call:
    it raises ValueError instead. *)
Definition has_nul (p : string) : bool :=
  existsb (Ascii.eqb "000"%char) (list_ascii_of_string p).

Definition embedded_null : exn := Raise ValueError "embedded null byte".

(** [str(e)] of an [OSError] that names a path. *)
Definition error_text (errno : Z) (what p : string) : string :=
  "[Errno " ++ pretty errno ++ "] " ++ what ++ ": '" ++ p ++ "'".

Definition is_a_directory (p : string) : exn :=
  Raise IsADirectoryError (error_text 21 "Is a directory" p).

(** The error of a system call on a path at which nothing is. *)
Definition nothing_at (p : string) : exn :=
  if has_nul p then embedded_null
  else if too_long p then Raise IOError (error_text 36 "File name too long" p)
  else Raise FileNotFoundError (error_text 2 "No such file or directory" p).

(** [path.exists()]: of the errors of [stat], the missing file and the
    ValueError give [False]; a name that is too long is raised, as an
    [OSError]. *)
Definition exists_ (p : string) : M bool :=
  fun w => match fs w !! p with
           | Some _ => (Ok true, w)
           | None =>
               if negb (has_nul p) && too_long p then (Err (nothing_at p), w)
               else (Ok false, w)
           end.

(** [open(p, "rb")] *)
Definition open_ (p : string) : M unit :=
  fun w => match fs w !! p with
           | Some (File _) => (Ok tt, w)
           | Some Dir => (Err (is_a_directory p), w)
           | None => (Err (nothing_at p), w)
           end.

(** [open(p, "rb").read()] *)
Definition read (p : string) : M bytes :=
  fun w => match fs w !! p with
           | Some (File data) => (Ok data, w)
           | Some Dir => (Err (is_a_directory p), w)
           | None => (Err (nothing_at p), w)
           end.

(** [path.unlink()] *)
Definition unlink (p : string) : M unit :=
  fun w => match fs w !! p with
           | Some (File _) =>
               (Ok tt, mkWorld (delete p (fs w)) (net w) (slept w) (log w))
           | Some Dir => (Err (is_a_directory p), w)
           | None => (Err (nothing_at p), w)
           end.

(** [open(p, "wb").write(data)], the parent directory being there. *)
Definition write (p : string) (data : bytes) : M unit :=
  fun w => match fs w !! p with
           | Some Dir => (Err (is_a_directory p), w)
           | Some (File _) =>
               (Ok tt, mkWorld (<[p := File data]> (fs w)) (net w) (slept w) (log w))
           | None =>
               if has_nul p || too_long p then (Err (nothing_at p), w)
               else (Ok tt, mkWorld (<[p := File data]> (fs w)) (net w) (slept w)
                                    (log w))
           end.

(** [time.sleep(secs)] *)
Definition sleep (secs : Z) : M unit :=
  fun w => (Ok tt, mkWorld (fs w) (net w) (slept w ++ [secs]) (log w)).

(** [self.logger.<level>(text)] *)
Definition logger (l : level) (text : string) : M unit :=
  fun w => (Ok tt, mkWorld (fs w) (net w) (slept w) (log w ++ [(l, text)])).

End OS.

(** [bytes.hex()] *)
Definition hex_digit (n : N) : ascii :=
  match n with
  | 0 => "0" | 1 => "1" | 2 => "2" | 3 => "3" | 4 => "4" | 5 => "5" | 6 => "6"
  | 7 => "7" | 8 => "8" | 9 => "9" | 10 => "a" | 11 => "b" | 12 => "c"
  | 13 => "d" | 14 => "e" | _ => "f"
  end%N%char.

Fixpoint hex (data : bytes) : string :=
  match data with
  | [] => EmptyString
  | b :: rest =>
      let n := Byte.to_N b in
      String (hex_digit (n / 16)) (String (hex_digit (n mod 16)) (hex rest))
  end.

(** ** What the loader takes from libraries and from its surroundings *)

(** What [requests.get(url, stream=True)] answers. *)
Record Response : Type := mkResponse {
  status_code : Z;
  reason : string;                (* the reason phrase, as text *)
  url : string;                   (* the final URL of the response *)
  (* int(response.headers.get('content-length', 0)), or the error of int() *)
  content_length : result Z;
  (* the chunks of response.iter_content(chunk_size=8192), in order *)
  iter_content : list bytes
}.

Record Env : Type := mkEnv {
  (* json.loads; None stands for JSONDecodeError *)
  json_loads : string -> option pyval;
  (* hashes.Hash(hashes.SHA3_256()) over the whole input *)
  sha3_256 : bytes -> bytes;
  (* session.get(url): status and body text, or the error raised *)
  session_get : string -> result (Z * string);
  (* what answers a shard download; the second argument counts the
     transport calls made before this one, so that an answer may change
     from one attempt to the next.  The class defines neither
     _download_ipfs_shard nor _download_local_shard, and the module does
     not import requests. *)
  _download_ipfs_shard : string -> nat -> result bytes;
  requests_get : string -> nat -> result Response;
  _download_local_shard : string -> nat -> result bytes
}.

(** The attributes of a [SecureDataLoader] that its methods read. *)
Record SecureDataLoader : Type := mkLoader {
  manifest_uri : string;
  cache_dir : string;
  batch_size : Z;
  max_workers : Z;
  verify_chain : bool;
  manifest : pyval
}.

Definition set_manifest (self : SecureDataLoader) (m : pyval) : SecureDataLoader :=
  mkLoader (manifest_uri self) (cache_dir self) (batch_size self)
           (max_workers self) (verify_chain self) m.

(** A float32 sample, kept as the four bytes the file stores. *)
Definition float32 : Type := Byte.byte * Byte.byte * Byte.byte * Byte.byte.

Abbreviation DataBatch := (gmap string (list float32)).

(** The arguments of one [executor.submit(self._process_shard, uri, hash)]. *)
Abbreviation task := (pyval * pyval)%type.

#[global] Instance result_ret : MRet result := @Ok.
#[global] Instance result_bind : MBind result :=
  fun A B k r => match r with Ok a => k a | Err e => Err e end.

(** ** NumPy and builtins used by the batching code *)

Module Np.

Fixpoint chunk4 (data : bytes) : list float32 :=
  match data with
  | a :: b :: c :: d :: rest => (a, b, c, d) :: chunk4 rest
  | _ => []
  end.

(** [np.memmap(path, dtype=np.float32, mode="r")] *)
Definition memmap (p : string) : M (list float32) :=
  data ← OS.read p;
  if negb (Nat.eqb (length data mod 4) 0) then
    raise (Raise ValueError
             "Size of available data is not a multiple of the data-type size.")
  else if Nat.eqb (length data) 0 then
    raise (Raise ValueError "cannot mmap an empty file")
  else mret (chunk4 data).

Fixpoint range_up (fuel : nat) (i stop step : Z) : list Z :=
  match fuel with
  | O => []
  | S f => if i <? stop then i :: range_up f (i + step) stop step else []
  end.

Fixpoint range_down (fuel : nat) (i stop step : Z) : list Z :=
  match fuel with
  | O => []
  | S f => if stop <? i then i :: range_down f (i + step) stop step else []
  end.

(** [range(start, stop, step)] *)
Definition range (start stop step : Z) : result (list Z) :=
  if step =? 0 then Err (Raise ValueError "range() arg 3 must not be zero")
  else if 0 <? step then Ok (range_up (Z.to_nat (stop - start)) start stop step)
  else Ok (range_down (Z.to_nat (start - stop)) start stop step).

(** A slice bound, clamped to the array as Python does. *)
Definition clamp (len k : Z) : Z :=
  if k <? 0 then Z.max 0 (k + len) else Z.min k len.

(** [a[lo:hi]] *)
Definition slice {A} (a : list A) (lo hi : Z) : list A :=
  let len := Z.of_nat (length a) in
  let lo' := clamp len lo in
  let hi' := clamp len hi in
  take (Z.to_nat (hi' - lo')) (drop (Z.to_nat lo') a).

End Np.

(** ** The methods of [SecureDataLoader] *)

Section Loader.

Variable E : Env.

(** *** Manifest loading (data_loader.py, lines 69-134) *)

(** [all(key in d for d in items)]: stops at the first [False]; an item
    that cannot be searched raises before any later item is looked at. *)
Fixpoint all_contain (key : string) (items : list pyval) : result bool :=
  match items with
  | [] => Ok true
  | d :: rest =>
      match contains key d with
      | Err e => Err e
      | Ok false => Ok false
      | Ok true => all_contain key rest
      end
  end.

Definition py_assert (cond : bool) (text : string) : result unit :=
  if cond then Ok tt else Err (Raise AssertionError text).

Definition _parse_manifest (raw_data : string) : result pyval :=
  let body : result pyval :=
    match json_loads E raw_data with
    | None => Err (Raise JSONDecodeError "Expecting value")
    | Some manifest =>
        has ← contains "datasets" manifest;
        _ ← py_assert has "Invalid manifest structure";
        datasets ← getitem manifest "datasets";
        items ← iterate datasets;
        hashed ← all_contain "hash" items;
        _ ← py_assert hashed "Missing hashes";
        mret manifest
    end in
  match body with
  | Ok manifest => Ok manifest
  | Err e =>
      match cls e with
      | JSONDecodeError => Err (Raise ValueError "Invalid JSON in manifest")
      | AssertionError =>
          Err (Raise ValueError ("Manifest validation failed: " ++ msg e))
      | _ => Err e
      end
  end.

(** [self.manifest_uri.split("://")[1]] *)
Definition after_scheme (uri : string) : result string :=
  match split uri "://" !! 1%nat with
  | Some rest => Ok rest
  | None => Err (Raise IndexError "list index out of range")
  end.

Definition _load_ipfs_manifest (self : SecureDataLoader) : M pyval :=
  cid ← lift (after_scheme (manifest_uri self));
  response ← lift (session_get E ("https://ipfs.io/ipfs/" ++ cid));
  if negb (fst response =? 200) then
    raise (Raise IOError ("IPFS load failed: " ++ pretty (fst response)))
  else lift (_parse_manifest (snd response)).

Definition _load_http_manifest (self : SecureDataLoader) : M pyval :=
  response ← lift (session_get E (manifest_uri self));
  if 400 <=? fst response then       (* response.raise_for_status() *)
    raise (Raise ClientResponseError (pretty (fst response)))
  else lift (_parse_manifest (snd response)).

Definition _load_local_manifest (self : SecureDataLoader) : M pyval :=
  rest ← lift (after_scheme (manifest_uri self));
  let path := PathLib.Path rest in
  present ← OS.exists_ path;
  if negb present then
    raise (Raise FileNotFoundError ("Manifest not found: " ++ path))
  else
    data ← OS.read path;
    (* the text is kept as the bytes read *)
    lift (_parse_manifest (string_of_list_byte data)).

Definition _load_manifest (self : SecureDataLoader) : M pyval :=
  _ ← OS.logger INFO ("Loading manifest from " ++ manifest_uri self);
  if startswith (manifest_uri self) "ipfs://" then _load_ipfs_manifest self
  else if startswith (manifest_uri self) "http" then _load_http_manifest self
  else _load_local_manifest self.

(** The body is the single logging call; the comparison with the
    on-chain hash is commented-out pseudocode in the source. *)
Definition _verify_manifest_on_chain (self : SecureDataLoader) : M unit :=
  OS.logger INFO "Manifest blockchain verification passed".

(** [initialize] assigns [self.manifest] before it verifies, so the object
    is returned next to the result. *)
Definition initialize (self : SecureDataLoader)
  : World -> result unit * SecureDataLoader * World :=
  fun w =>
    match _load_manifest self w with
    | (Err e, w1) => (Err e, self, w1)
    | (Ok m, w1) =>
        let self := set_manifest self m in
        if verify_chain self then
          let '(r, w2) := _verify_manifest_on_chain self w1 in (r, self, w2)
        else (Ok tt, self, w1)
    end.

(** *** Shard retrieval (lines 164-226) *)

(** [Path(v)]: only a [str] is accepted among JSON values. *)
Definition as_path_arg (v : pyval) : result string :=
  match v with
  | PStr s => Ok s
  | _ => Err (Raise TypeError
                ("expected str, bytes or os.PathLike object, not " ++ type_name v))
  end.

(** [response.raise_for_status()] of requests: 4xx is a client error,
    5xx a server error, and the text names status, reason and URL. *)
Definition raise_for_status (response : Response) : result unit :=
  let text (kind : string) :=
    pretty (status_code response) ++ " " ++ kind ++ " Error: "
    ++ reason response ++ " for url: " ++ url response in
  if (400 <=? status_code response) && (status_code response <? 500)
  then Err (Raise HTTPError (text "Client"))
  else if (500 <=? status_code response) && (status_code response <? 600)
  then Err (Raise HTTPError (text "Server"))
  else Ok tt.

(** The progress bar leaves no trace in the result; the content length is
    still read, and a header that is no number ends the download. *)
Definition _download_http_shard (url : string) (calls : nat) : result bytes :=
  response ← requests_get E url calls;
  _ ← raise_for_status response;
  total_size ← content_length response;
  mret (concat (iter_content response)).

(** The transport that [_download_shard] picks for [uri], asked as call
    number [calls]. *)
Definition transport (uri : string) (calls : nat) : result bytes :=
  if startswith uri "ipfs://" then _download_ipfs_shard E uri calls
  else if startswith uri "http" then _download_http_shard uri calls
  else _download_local_shard E uri calls.

Definition _download_shard (uri : string) : M bytes :=
  fun w =>
    (transport uri (length (net w)),
     mkWorld (fs w) (net w ++ [uri]) (slept w) (log w)).

(** What the attribute lookup [self._generate_hash] raises. *)
Definition no_generate_hash : exn :=
  Raise AttributeError "'SecureDataLoader' object has no attribute '_generate_hash'".

(** The file is opened; the right-hand side of the assignment then looks
    up [self._generate_hash] before [f.read()] is evaluated, and raises.
    Neither the comparison nor the [return] is reached. *)
Definition _validate_cached_file (path : string) (expected_hash : pyval) : M bool :=
  _ ← OS.open_ path;
  raise no_generate_hash.

Definition _verify_data_hash (data : bytes) (expected_hash : pyval) : bool :=
  is_str (hex (sha3_256 E data)) expected_hash.

(** The mode bits set by [os.chmod] are not part of [World]. *)
Definition _write_to_cache (path : string) (data : bytes) : M unit :=
  OS.write path data.

(** One pass of the body of [for attempt in range(3)]: [Some path] is the
    [return] inside the loop, [None] falls through to the next attempt. *)
Definition fetch_attempt (cache_path shard_uri : string) (expected_hash : pyval)
    (attempt : Z) : M (option string) :=
  try_except
    (raw_data ← _download_shard shard_uri;
     if _verify_data_hash raw_data expected_hash then
       _ ← _write_to_cache cache_path raw_data;
       mret (Some cache_path)
     else mret None)
    (fun e =>
       _ ← OS.logger WARNING
             ("Attempt " ++ pretty (attempt + 1) ++ " failed: " ++ msg e);
       _ ← OS.sleep (2 ^ attempt);
       mret None).

Fixpoint fetch_loop (cache_path shard_uri : string) (expected_hash : pyval)
    (attempts : list Z) : M string :=
  match attempts with
  | [] =>
      raise (Raise IOError
               ("Failed to download shard after 3 attempts: " ++ shard_uri))
  | attempt :: rest =>
      r ← fetch_attempt cache_path shard_uri expected_hash attempt;
      match r with
      | Some path => mret path
      | None => fetch_loop cache_path shard_uri expected_hash rest
      end
  end.

(** The cache test that precedes the loop: [Some path] is the early
    [return cache_path]. *)
Definition cache_lookup (cache_path : string) (expected_hash : pyval)
  : M (option string) :=
  present ← OS.exists_ cache_path;
  if (present : bool) then
    valid ← _validate_cached_file cache_path expected_hash;
    if (valid : bool) then mret (Some cache_path)
    else _ ← OS.unlink cache_path; mret None
  else mret None.

Definition cache_path_of (self : SecureDataLoader) (uri : string) : string :=
  PathLib.join (cache_dir self) (PathLib.name uri).

Definition _fetch_shard (self : SecureDataLoader)
    (shard_uri expected_hash : pyval) : M string :=
  uri ← lift (as_path_arg shard_uri);
  let cache_path := cache_path_of self uri in
  hit ← cache_lookup cache_path expected_hash;
  match hit with
  | Some path => mret path
  | None => fetch_loop cache_path uri expected_hash [0; 1; 2]
  end.

(** *** Batching and the stream (lines 136-162, 228-240) *)

Definition _load_and_batch (self : SecureDataLoader) (data_path : string)
  : M (list DataBatch) :=
  mmap ← Np.memmap data_path;
  let num_samples := Z.of_nat (length mmap) in
  offsets ← lift (Np.range 0 num_samples (batch_size self));
  mret (map (fun i => ({[ "features" := Np.slice mmap i (i + batch_size self) ]}
                       : DataBatch)) offsets).

Definition _process_shard (self : SecureDataLoader)
    (shard_uri expected_hash : pyval) : M (list DataBatch) :=
  try_except
    (data_path ← _fetch_shard self shard_uri expected_hash;
     _load_and_batch self data_path)
    (fun e =>
       _ ← OS.logger ERROR ("Shard processing failed: " ++ msg e);
       mret []).

(** What [stream_batches] has done when it stops: the batches it yielded,
    in order, and the exception that ended it, if one did. *)
Record stream_result : Type := mkStream {
  yielded : list DataBatch;
  raised : option exn
}.

Definition stopped (e : exn) : stream_result := mkStream [] (Some e).

(** The submission loop: the tasks submitted, and the exception that
    [shard["uri"]] or [shard["hash"]] raised, if one did. *)
Fixpoint submit_all (shards : list pyval) : list task * option exn :=
  match shards with
  | [] => ([], None)
  | shard :: rest =>
      match getitem shard "uri" with
      | Err e => ([], Some e)
      | Ok uri =>
          match getitem shard "hash" with
          | Err e => ([], Some e)
          | Ok h =>
              let '(tasks, failure) := submit_all rest in
              ((uri, h) :: tasks, failure)
          end
      end
  end.

(** The worker pool, one task at a time: [sched] lists task numbers in the
    order in which the workers get to run them; a number that names no
    task, or a task that has run, is passed over. *)
Fixpoint run_sched (self : SecureDataLoader) (sched : list nat)
    (tasks : list task) (futures : gmap nat (result (list DataBatch)))
    (w : World) : gmap nat (result (list DataBatch)) * World :=
  match sched with
  | [] => (futures, w)
  | i :: rest =>
      match futures !! i, tasks !! i with
      | None, Some (uri, h) =>
          let '(r, w') := _process_shard self uri h w in
          run_sched self rest tasks (<[i := r]> futures) w'
      | _, _ => run_sched self rest tasks futures w
      end
  end.

(** Every submitted task runs before the executor is left: those that
    [sched] does not name run last, in submission order. *)
Definition run_pool (self : SecureDataLoader) (sched : list nat)
    (tasks : list task) (w : World)
  : gmap nat (result (list DataBatch)) * World :=
  run_sched self (sched ++ seq 0 (length tasks)) tasks ∅ w.

(** The driving loop: [for future in futures: for batch in future.result()]. *)
Fixpoint drain (results : list (result (list DataBatch))) : stream_result :=
  match results with
  | [] => mkStream [] None
  | Ok batches :: rest =>
      let r := drain rest in mkStream (batches ++ yielded r) (raised r)
  | Err e :: rest => stopped e
  end.

(** [future.result()] of task [i]; [run_pool] leaves no future unset
    (lemma [run_pool_complete]). *)
Definition future_result (futures : gmap nat (result (list DataBatch)))
    (i : nat) : result (list DataBatch) :=
  default (Ok []) (futures !! i).

Definition stream_batches (self : SecureDataLoader) (sched : list nat)
    (w : World) : stream_result * World :=
  if max_workers self <=? 0 then   (* ThreadPoolExecutor(max_workers=...) *)
    (stopped (Raise ValueError "max_workers must be greater than 0"), w)
  else
    match datasets ← getitem (manifest self) "datasets"; iterate datasets with
    | Err e => (stopped e, w)
    | Ok shards =>
        let '(tasks, failure) := submit_all shards in
        let '(futures, w') := run_pool self sched tasks w in
        match failure with
        | Some e => (stopped e, w')
        | None =>
            (drain (map (future_result futures) (seq 0 (length tasks))), w')
        end
    end.

End Loader.

(** ** Vocabulary of the statements

    Names for what the loader finds and leaves behind, in terms of which
    the properties below are stated. *)

Section Vocabulary.

Variable E : Env.
Variable self : SecureDataLoader.

(** What [_fetch_shard] finds at a cache path. *)
Inductive cache_state : Type :=
| Occupied                 (* a file, whatever it holds *)
| NotAFile                 (* a directory *)
| Absent                   (* nothing: [exists()] is [False] *)
| Unnameable.              (* nothing, and [exists()] raises: the name is too long *)

Definition cache_state_of (w : World) (path : string) : cache_state :=
  match fs w !! path with
  | Some (File _) => Occupied
  | Some Dir => NotAFile
  | None => if negb (OS.has_nul path) && OS.too_long path then Unnameable else Absent
  end.

(** Nothing is at the cache path of the shard: the loop will run. *)
Definition cache_miss (w : World) (uri : string) : Prop :=
  cache_state_of w (cache_path_of self uri) = Absent.

(** How one download attempt ends. *)
Inductive attempt_outcome : Type :=
| Raised (e : exn)          (* the transport, or the write to the cache, raised *)
| Mismatch                  (* a payload came back with another digest *)
| Verified (data : bytes).  (* a payload with the expected digest was written *)

(** The outcome of the attempt made as transport call number [calls],
    nothing being at the cache path: a verified payload is written, which
    fails for a path with a NUL character. *)
Definition outcome (uri : string) (h : pyval) (calls : nat) : attempt_outcome :=
  match transport E uri calls with
  | Err e => Raised e
  | Ok data =>
      if _verify_data_hash E data h then
        if OS.has_nul (cache_path_of self uri) then Raised OS.embedded_null
        else Verified data
      else Mismatch
  end.

(** An attempt fails when it raises or its payload has another digest. *)
Definition attempt_failed (uri : string) (h : pyval) (calls : nat) : bool :=
  match outcome uri h calls with Verified _ => false | _ => true end.

Definition attempt_raised (uri : string) (h : pyval) (calls : nat) : bool :=
  match outcome uri h calls with Raised _ => true | _ => false end.

(** The payload of the first attempt that ends [Verified], if one of the
    three does. *)
Definition first_verified (uri : string) (h : pyval) (n : nat) : option bytes :=
  match outcome uri h n with
  | Verified data => Some data
  | _ =>
      match outcome uri h (S n) with
      | Verified data => Some data
      | _ =>
          match outcome uri h (S (S n)) with
          | Verified data => Some data
          | _ => None
          end
      end
  end.

(** The number of attempts the loop makes when the first one is transport
    call number [n]. *)
Definition attempts_made (uri : string) (h : pyval) (n : nat) : nat :=
  if negb (attempt_failed uri h n) then 1
  else if negb (attempt_failed uri h (S n)) then 2
  else 3.

(** The waits of the first [made] attempts: [2 ^ k] seconds after attempt
    [k] (counted from 0) when that attempt raised, none otherwise. *)
Definition waits (uri : string) (h : pyval) (n made : nat) : list Z :=
  flat_map (fun k => if attempt_raised uri h (n + k) then [2 ^ Z.of_nat k] else [])
           (seq 0 made).

(** The error of [_fetch_shard] after the loop. *)
Definition unavailable (uri : string) : exn :=
  Raise IOError ("Failed to download shard after 3 attempts: " ++ uri).

(** The world after an attempt that raised, that mismatched, that was
    verified and written. *)
Definition after_raise (w : World) (uri : string) (attempt : Z) (e : exn) : World :=
  mkWorld (fs w) (net w ++ [uri]) (slept w ++ [2 ^ attempt])
          (log w ++ [(WARNING,
                      "Attempt " ++ pretty (attempt + 1) ++ " failed: " ++ msg e)]).

Definition after_mismatch (w : World) (uri : string) : World :=
  mkWorld (fs w) (net w ++ [uri]) (slept w) (log w).

Definition after_write (w : World) (uri path : string) (data : bytes) : World :=
  mkWorld (<[path := File data]> (fs w)) (net w ++ [uri]) (slept w) (log w).

(** The loop, told by outcomes. *)
Fixpoint loop_spec (uri : string) (h : pyval) (attempts : list Z)
    (w : World) : result string * World :=
  match attempts with
  | [] =>
      (Err (Raise IOError ("Failed to download shard after 3 attempts: " ++ uri)), w)
  | a :: rest =>
      match outcome uri h (length (net w)) with
      | Raised e => loop_spec uri h rest (after_raise w uri a e)
      | Mismatch => loop_spec uri h rest (after_mismatch w uri)
      | Verified data =>
          (Ok (cache_path_of self uri),
           after_write w uri (cache_path_of self uri) data)
      end
  end.

(** The number of offsets [range(0, n, b)] visits: n / b rounded up. *)
Definition ceil_div (n b : Z) : Z := (n + b - 1) / b.

(** The batches [_load_and_batch] builds from a file of [n > 0] samples. *)
Definition batches_of (b : Z) (samples : list float32) : list DataBatch :=
  map (fun k => ({[ "features" :=
                     take (Z.to_nat b) (drop (k * Z.to_nat b) samples) ]} : DataBatch))
      (seq 0 (Z.to_nat (ceil_div (Z.of_nat (length samples)) b))).

(** The world after the handler of [_process_shard] has logged [e]. *)
Definition logged_failure (w : World) (e : exn) : World :=
  mkWorld (fs w) (net w) (slept w)
          (log w ++ [(ERROR, "Shard processing failed: " ++ msg e)]).

(** The batches one run of [_process_shard] hands to its future. *)
Definition shard_batches (u h : pyval) (w : World) : list DataBatch :=
  match _fetch_shard E self u h w with
  | (Err _, _) => []
  | (Ok p, w1) =>
      match _load_and_batch self p w1 with
      | (Ok bs, _) => bs
      | (Err _, _) => []
      end
  end.

(** Every future that is set holds what [_process_shard] returned for the
    task of that number, in the world in which the task ran. *)
Definition from_tasks (tasks : list task)
    (futures : gmap nat (result (list DataBatch))) : Prop :=
  forall i r, futures !! i = Some r ->
    exists u h w0, tasks !! i = Some (u, h) /\ r = Ok (shard_batches u h w0).

(** The exception that ends the stream before any future is read: from
    the executor's constructor, from [self.manifest["datasets"]], or from
    [shard["uri"]] and [shard["hash"]] in the submission loop.  It is a
    function of the loader and its manifest alone. *)
Definition submission_error : option exn :=
  if max_workers self <=? 0 then
    Some (Raise ValueError "max_workers must be greater than 0")
  else
    match datasets ← getitem (manifest self) "datasets"; iterate datasets with
    | Err e => Some e
    | Ok shards => snd (submit_all shards)
    end.

(** Shapes of manifest entries. *)
Definition is_dict (v : pyval) : Prop := exists d, v = PDict d.

Definition has_key (key : string) (v : pyval) : Prop :=
  exists d, v = PDict d /\ is_Some (dict_get key d).

Definition lacks_key (key : string) (v : pyval) : Prop :=
  exists d, v = PDict d /\ dict_get key d = None.

End Vocabulary.

(** ** A JSON decoder for concrete manifests

    The statements below hold for whatever decoder [json_loads] is.  To
    run the loader on a written-out document, [Json.loads] decodes the
    JSON fragment that manifests are written in: objects, arrays, strings
    with the one-letter escapes, numbers, [true], [false] and [null].  A
    repeated key keeps its first position and its last value, as in a
    Python [dict].  It is narrower than [json.loads], which also takes
    [NaN], [Infinity], [-Infinity] and the [\u] escapes; the documents
    below use none of them. *)

Module Json.

Definition is_ws (c : ascii) : bool :=
  match c with
  | " "%char | "009"%char | "010"%char | "013"%char => true
  | _ => false
  end.

Fixpoint skip_ws (s : list ascii) : list ascii :=
  match s with
  | c :: r => if is_ws c then skip_ws r else s
  | [] => []
  end.

Definition is_digit (c : ascii) : bool :=
  let n := nat_of_ascii c in (Nat.leb 48 n && Nat.leb n 57)%bool.

Fixpoint span_digits (s : list ascii) : list ascii * list ascii :=
  match s with
  | c :: r =>
      if is_digit c then let '(ds, r') := span_digits r in (c :: ds, r')
      else ([], s)
  | [] => ([], [])
  end.

Definition digits_value (ds : list ascii) : Z :=
  fold_left (fun acc c => 10 * acc + (Z.of_nat (nat_of_ascii c) - 48)) ds 0.

(** [.digits], if at least one digit follows the point. *)
Definition fraction (s : list ascii) : list ascii * list ascii :=
  match s with
  | "."%char :: r =>
      match span_digits r with
      | ([], _) => ([], s)
      | (ds, r') => ("."%char :: ds, r')
      end
  | _ => ([], s)
  end.

Definition exponent (s : list ascii) : list ascii * list ascii :=
  match s with
  | e :: r =>
      if (Ascii.eqb e "e" || Ascii.eqb e "E")%bool then
        let '(sign, r1) :=
          match r with
          | c :: r' =>
              if (Ascii.eqb c "+" || Ascii.eqb c "-")%bool then ([c], r') else ([], r)
          | [] => ([], r)
          end in
        match span_digits r1 with
        | ([], _) => ([], s)
        | (ds, r2) => (e :: sign ++ ds, r2)
        end
      else ([], s)
  | [] => ([], s)
  end.

Definition number (s : list ascii) : option (pyval * list ascii) :=
  let '(neg, s1) :=
    match s with "-"%char :: r => (true, r) | _ => (false, s) end in
  let '(int_part, s2) :=
    match s1 with
    | "0"%char :: r => (["0"%char], r)
    | _ => span_digits s1
    end in
  match int_part with
  | [] => None
  | _ =>
      let '(frac, s3) := fraction s2 in
      let '(ex, s4) := exponent s3 in
      match frac, ex with
      | [], [] =>
          let v := digits_value int_part in
          Some (PInt (if neg then - v else v), s4)
      | _, _ =>
          Some (PFloat (string_of_list_ascii
                          ((if neg then ["-"%char] else []) ++ int_part ++ frac ++ ex)),
                s4)
      end
  end.

(** The text of a string after its opening quote, up to the closing one. *)
Fixpoint str_body (s : list ascii) : option (string * list ascii) :=
  match s with
  | [] => None
  | "034"%char :: r => Some (EmptyString, r)
  | "\"%char :: e :: r =>
      let unescaped : option ascii :=
        match e with
        | "034"%char => Some "034"%char
        | "\"%char => Some "\"%char
        | "/"%char => Some "/"%char
        | "b"%char => Some "008"%char
        | "f"%char => Some "012"%char
        | "n"%char => Some "010"%char
        | "r"%char => Some "013"%char
        | "t"%char => Some "009"%char
        | _ => None
        end in
      match unescaped, str_body r with
      | Some c, Some (t, r') => Some (String c t, r')
      | _, _ => None
      end
  | c :: r =>
      if Nat.ltb (nat_of_ascii c) 32 then None
      else match str_body r with
           | Some (t, r') => Some (String c t, r')
           | None => None
           end
  end.

Fixpoint value (n : nat) (s : list ascii) : option (pyval * list ascii) :=
  match n with
  | O => None
  | S n =>
      match skip_ws s with
      | "{"%char :: r =>
          match skip_ws r with
          | "}"%char :: r' => Some (PDict [], r')
          | r' => members n r' []
          end
      | "["%char :: r =>
          match skip_ws r with
          | "]"%char :: r' => Some (PList [], r')
          | r' => elements n r' []
          end
      | "034"%char :: r =>
          match str_body r with
          | Some (t, r') => Some (PStr t, r')
          | None => None
          end
      | "t"%char :: "r"%char :: "u"%char :: "e"%char :: r => Some (PBool true, r)
      | "f"%char :: "a"%char :: "l"%char :: "s"%char :: "e"%char :: r =>
          Some (PBool false, r)
      | "n"%char :: "u"%char :: "l"%char :: "l"%char :: r => Some (PNone, r)
      | s' => number s'
      end
  end
with elements (n : nat) (s : list ascii) (acc : list pyval)
  : option (pyval * list ascii) :=
  match n with
  | O => None
  | S n =>
      match value n s with
      | None => None
      | Some (v, r) =>
          match skip_ws r with
          | ","%char :: r' => elements n r' (acc ++ [v])
          | "]"%char :: r' => Some (PList (acc ++ [v]), r')
          | _ => None
          end
      end
  end
with members (n : nat) (s : list ascii) (acc : list (string * pyval))
  : option (pyval * list ascii) :=
  match n with
  | O => None
  | S n =>
      match skip_ws s with
      | "034"%char :: r =>
          match str_body r with
          | None => None
          | Some (k, r1) =>
              match skip_ws r1 with
              | ":"%char :: r2 =>
                  match value n r2 with
                  | None => None
                  | Some (v, r3) =>
                      match skip_ws r3 with
                      | ","%char :: r4 => members n r4 (dict_set k v acc)
                      | "}"%char :: r4 => Some (PDict (dict_set k v acc), r4)
                      | _ => None
                      end
                  end
              | _ => None
              end
          end
      | _ => None
      end
  end.

Definition loads (s : string) : option pyval :=
  let cs := list_ascii_of_string s in
  match value (2 * length cs + 2) cs with
  | Some (v, r) => match skip_ws r with [] => Some v | _ => None end
  | None => None
  end.

(** The double quote, and a quoted JSON string. *)
Definition dq : string := String "034"%char EmptyString.
Definition q (s : string) : string := dq ++ s ++ dq.

End Json.

(** ** Concrete surroundings on which the statements are run *)

Module Demo.

Import Json.

(** A stand-in for the digest: the input itself, so that the expected
    hash of a payload is its own hex text. *)
Definition digest (data : bytes) : bytes := data.

(** Three float32 samples and five float32 samples. *)
Definition three : bytes :=
  [Byte.x00; Byte.x00; Byte.x80; Byte.x3f;
   Byte.x00; Byte.x00; Byte.x00; Byte.x40;
   Byte.x00; Byte.x00; Byte.x40; Byte.x40].
Definition five : bytes :=
  three ++ [Byte.x00; Byte.x00; Byte.x80; Byte.x40;
            Byte.x00; Byte.x00; Byte.xa0; Byte.x40].
Definition corrupt : bytes := [Byte.xde; Byte.xad; Byte.xbe; Byte.xef].

Definition refused : result bytes := Err (Raise TransportError "connection refused").

(** An HTTP server that answers 200 with what [t] gives, in one chunk. *)
Definition http (t : string -> nat -> result bytes) (url : string) (calls : nat)
  : result Response :=
  match t url calls with
  | Ok data => Ok (mkResponse 200 "OK" url (Ok (Z.of_nat (length data))) [data])
  | Err e => Err e
  end.

Definition env (t : string -> nat -> result bytes) : Env :=
  mkEnv Json.loads digest (fun _ => Err (Raise TransportError "offline"))
        t (http t) t.

(** Transports, by the number of calls made before. *)
Definition always_refused (uri : string) (calls : nat) : result bytes := refused.
Definition refused_twice (uri : string) (calls : nat) : result bytes :=
  match calls with
  | O | S O => refused
  | _ => Ok three
  end.
Definition corrupt_twice (uri : string) (calls : nat) : result bytes :=
  match calls with
  | O | S O => Ok corrupt
  | _ => Ok three
  end.
(** A transport that serves [five] for one URI and refuses every other. *)
Definition serves (good : string) (uri : string) (calls : nat) : result bytes :=
  if String.eqb uri good then Ok five else refused.

Definition loader (m : pyval) : SecureDataLoader :=
  mkLoader "file:///srv/manifest.json" "./data_cache" 2 8 true m.

Definition empty_world : World := mkWorld ∅ [] [] [].
Definition cached_world : World :=
  mkWorld {[ "data_cache/a.bin" := File three ]} [] [] [].

Definition shard (uri h : string) : pyval := PDict [("uri", PStr uri); ("hash", PStr h)].

(** Manifest documents, written out. *)
Definition entry (uri h : string) : string :=
  "{" ++ q "uri" ++ ": " ++ q uri ++ ", " ++ q "hash" ++ ": " ++ q h ++ "}".
Definition hash_only (h : string) : string := "{" ++ q "hash" ++ ": " ++ q h ++ "}".
Definition doc (entries : string) : string :=
  "{" ++ q "datasets" ++ ": [" ++ entries ++ "]}".

(** One well-formed entry. *)
Definition good_text : string := doc (entry "file://a.bin" (hex three)).
(** "datasets" is an object, not an array. *)
Definition no_array_text : string := "{" ++ q "datasets" ++ ": {}}".
(** No entries. *)
Definition empty_text : string := doc "".
(** One entry with an empty hash and no uri. *)
Definition bare_hash_text : string := doc (hash_only "").
(** A good entry, then one with no uri. *)
Definition no_uri_text : string :=
  doc (entry "file://b.bin" (hex five) ++ ", " ++ hash_only "00").
(** An entry with no hash. *)
Definition no_hash_text : string :=
  doc ("{" ++ q "uri" ++ ": " ++ q "file://a.bin" ++ "}").

(** A world whose only file is the manifest. *)
Definition manifest_world (text : string) : World :=
  mkWorld {[ "/srv/manifest.json" := File (list_byte_of_string text) ]} [] [] [].

Definition offline : Env := env always_refused.
Definition served_b : Env := env (serves "file://b.bin").

Definition uri_a : string := "https://h/a.bin".
Definition path_a : string := "data_cache/a.bin".

(** Two shards: the transport refuses the first, serves the second. *)
Definition two_shards : pyval :=
  PDict [("datasets",
          PList [shard "file://a.bin" (hex three); shard "file://b.bin" (hex five)])].

End Demo.

(** ** Vocabulary of the further properties *)

Section FurtherVocabulary.

Variable E : Env.
Variable self : SecureDataLoader.

(** The sum of a list of waits, and the seconds a world has slept. *)
Definition total (l : list Z) : Z := fold_right Z.add 0 l.
Definition total_sleep (w : World) : Z := total (slept w).

(** The log records of the first [made] attempts: one WARNING, with the
    attempt's number counted from 1, for each attempt that raised. *)
Definition warnings (uri : string) (h : pyval) (n made : nat)
  : list (level * string) :=
  flat_map (fun k => match outcome E self uri h (n + k) with
                     | Raised e =>
                         [(WARNING,
                           "Attempt " ++ pretty (Z.of_nat k + 1) ++ " failed: " ++ msg e)]
                     | _ => []
                     end)
           (seq 0 made).

(** The file system after a cache miss: the verified payload at the cache
    path, or the files as they were. *)
Definition fs_after_miss (w : World) (uri : string) (h : pyval) : gmap string node :=
  match first_verified E self uri h (length (net w)) with
  | Some data => <[cache_path_of self uri := File data]> (fs w)
  | None => fs w
  end.

End FurtherVocabulary.

Section BatchVocabulary.

(** The samples of a batch, and the bytes of a sample. *)
Definition features (b : DataBatch) : list float32 := default [] (b !! "features").

Definition sample_bytes (s : float32) : bytes :=
  let '(a, b, c, d) := s in [a; b; c; d].

(** The bytes of a list of batches, put end to end. *)
Definition batch_bytes (bs : list DataBatch) : bytes :=
  flat_map (fun b => flat_map sample_bytes (features b)) bs.

End BatchVocabulary.

(** Bytes that reading in text mode hands on as they are: ASCII, and no
    carriage return (which universal newlines would rewrite). *)
Definition plain_text (data : bytes) : bool :=
  forallb (fun b => (Byte.to_N b <? 128)%N && negb (Byte.to_N b =? 13)%N) data.

Section StreamVocabulary.

Variable E : Env.
Variable self : SecureDataLoader.

(** The entries the submission loop walks through: the items of
    [self.manifest["datasets"]], or none when that cannot be read. *)
Definition manifest_shards : list pyval :=
  match datasets ← getitem (manifest self) "datasets"; iterate datasets with
  | Ok shards => shards
  | Err _ => []
  end.

(** The world after [_load_manifest] has logged where it loads from. *)
Definition load_logged (w : World) : World :=
  mkWorld (fs w) (net w) (slept w)
          (log w ++ [(INFO, "Loading manifest from " ++ manifest_uri self)]).

(** An entry for whose shard a file sits in the cache of world [w]. *)
Definition cached (w : World) (shard : pyval) : Prop :=
  exists uri h data,
    getitem shard "uri" = Ok (PStr uri)
    /\ getitem shard "hash" = Ok h
    /\ fs w !! cache_path_of self uri = Some (File data).

(** The record that [_process_shard] logs for a shard found in the cache. *)
Definition cache_failure : level * string :=
  (ERROR, "Shard processing failed: " ++ msg no_generate_hash).

(** The tasks that the submission loop hands to the executor. *)
Definition submitted : list task := fst (submit_all manifest_shards).

(** The worlds in which the tasks start: the pool of [run_sched], keeping
    for each task that runs the world it found instead of its result. *)
Fixpoint run_starts (sched : list nat) (tasks : list task)
    (started : gmap nat World) (w : World) : gmap nat World :=
  match sched with
  | [] => started
  | i :: rest =>
      match started !! i, tasks !! i with
      | None, Some (uri, h) =>
          run_starts rest tasks (<[i := w]> started)
                     (snd (_process_shard E self uri h w))
      | _, _ => run_starts rest tasks started w
      end
  end.

(** The world in which the task of entry [i] starts, when the stream is
    started in [w] and the pool follows [sched]. *)
Definition task_world (sched : list nat) (w : World) (i : nat) : World :=
  default w (run_starts (sched ++ seq 0 (length submitted)) submitted ∅ w !! i).

(** The batches that the task of entry [i] hands to its future in that
    run, and these lists for all entries, in manifest order. *)
Definition shard_list (sched : list nat) (w : World) (i : nat) : list DataBatch :=
  match submitted !! i with
  | Some (u, h) => shard_batches E self u h (task_world sched w i)
  | None => []
  end.

Definition stream_lists (sched : list nat) (w : World) : list (list DataBatch) :=
  map (shard_list sched w) (seq 0 (length submitted)).

End StreamVocabulary.

(** ** Further concrete surroundings *)

Module Cases.

Import Json Demo.

(** Five bytes: one float32 sample and a byte too many. *)
Definition ragged : bytes := [Byte.x00; Byte.x00; Byte.x80; Byte.x3f; Byte.x01].

Definition serves_ragged (uri : string) (calls : nat) : result bytes := Ok ragged.

(** A cache that holds another payload under the name of shard a. *)
Definition stale_world : World :=
  mkWorld {[ "data_cache/a.bin" := File corrupt ]} [] [] [].

(** The cache directory itself. *)
Definition dir_world : World := mkWorld {[ "data_cache" := Dir ]} [] [] [].

(** A cache that holds both shards of [two_shards], verified. *)
Definition warm_world : World :=
  mkWorld (<[ "data_cache/b.bin" := File five ]>
             {[ "data_cache/a.bin" := File three ]}) [] [] [].

Definition loader_sized (b : Z) (m : pyval) : SecureDataLoader :=
  mkLoader "file:///srv/manifest.json" "./data_cache" b 8 true m.

Definition loader_at (uri : string) : SecureDataLoader :=
  mkLoader uri "./data_cache" 2 8 true PNone.

Definition empty_manifest : pyval := PDict [("datasets", PList [])].

(** An IPFS gateway that answers 204 with no body. *)
Definition gateway_204 : Env :=
  mkEnv Json.loads digest (fun _ => Ok (204, "")) always_refused
        (http always_refused) always_refused.

(** An HTTP server that answers 404 to every request. *)
Definition server_404 : Env :=
  mkEnv Json.loads digest (fun _ => Err (Raise TransportError "offline"))
        always_refused
        (fun url _ => Ok (mkResponse 404 "Not Found" url (Ok 0) []))
        always_refused.

End Cases.

(** * Properties *)

(** ** The cache test *)

Ltac munfold :=
  cbv [mbind mret M_bind M_ret bind ret raise lift try_except
       result_bind result_ret
       OS.exists_ OS.open_ OS.read OS.unlink OS.write OS.sleep OS.logger].

Section CacheFacts.

Variable E : Env.

Lemma cache_lookup_occupied w path h data :
  fs w !! path = Some (File data) ->
  cache_lookup path h w = (Err no_generate_hash, w).
Proof.
  intros Hfs. unfold cache_lookup, _validate_cached_file. munfold.
  rewrite Hfs. cbv beta iota. rewrite Hfs. reflexivity.
Qed.

Lemma cache_lookup_not_a_file w path h :
  fs w !! path = Some Dir ->
  cache_lookup path h w = (Err (OS.is_a_directory path), w).
Proof.
  intros Hfs. unfold cache_lookup, _validate_cached_file. munfold.
  rewrite Hfs. cbv beta iota. rewrite Hfs. reflexivity.
Qed.

Lemma cache_state_absent w path :
  cache_state_of w path = Absent <->
  fs w !! path = None /\ negb (OS.has_nul path) && OS.too_long path = false.
Proof.
  unfold cache_state_of.
  destruct (fs w !! path) as [[data|]|]; [split; [discriminate|now intros []]..|].
  destruct (negb (OS.has_nul path) && OS.too_long path);
    split; try discriminate; auto.
  now intros [_ H].
Qed.

Lemma cache_lookup_absent w path h :
  cache_state_of w path = Absent ->
  cache_lookup path h w = (Ok None, w).
Proof.
  intros [Hfs Hlen]%cache_state_absent. unfold cache_lookup. munfold.
  now rewrite Hfs, Hlen.
Qed.

Lemma cache_lookup_unnameable w path h :
  cache_state_of w path = Unnameable ->
  cache_lookup path h w = (Err (OS.nothing_at path), w)
  /\ cls (OS.nothing_at path) = IOError.
Proof.
  unfold cache_state_of, cache_lookup. munfold. unfold OS.nothing_at.
  destruct (fs w !! path) as [[data|]|]; try discriminate.
  destruct (OS.has_nul path); [discriminate|].
  destruct (OS.too_long path); [|discriminate]. intros _. split; reflexivity.
Qed.

End CacheFacts.

(** ** The retry loop *)

Section RetryFacts.

Variable E : Env.

Lemma fetch_attempt_spec self uri h a w :
  cache_miss self w uri ->
  fetch_attempt E (cache_path_of self uri) uri h a w =
    match outcome E self uri h (length (net w)) with
    | Raised e => (Ok None, after_raise w uri a e)
    | Mismatch => (Ok None, after_mismatch w uri)
    | Verified data =>
        (Ok (Some (cache_path_of self uri)),
         after_write w uri (cache_path_of self uri) data)
    end.
Proof.
  intros [Hfs Hlen]%cache_state_absent.
  unfold fetch_attempt, _download_shard, _write_to_cache, outcome.
  munfold. unfold OS.nothing_at.
  destruct (transport E uri (length (net w))) as [data|e]; [|reflexivity].
  destruct (_verify_data_hash E data h); [|reflexivity].
  cbn [fs]. rewrite Hfs.
  destruct (OS.has_nul (cache_path_of self uri)); [reflexivity|].
  cbn [negb andb orb] in *. rewrite Hlen. reflexivity.
Qed.

Lemma fetch_loop_spec self uri h attempts : forall w,
  cache_miss self w uri ->
  fetch_loop E (cache_path_of self uri) uri h attempts w
  = loop_spec E self uri h attempts w.
Proof.
  induction attempts as [|a rest IH]; intros w Hc; [reflexivity|].
  cbn [fetch_loop loop_spec]. unfold mbind, M_bind, bind.
  rewrite fetch_attempt_spec by assumption.
  destruct (outcome E self uri h (length (net w))); try reflexivity.
  - apply IH. exact Hc.
  - apply IH. exact Hc.
Qed.

Lemma fetch_shard_miss self uri h w :
  cache_miss self w uri ->
  _fetch_shard E self (PStr uri) h w = loop_spec E self uri h [0; 1; 2] w.
Proof.
  intros Hm. unfold _fetch_shard, as_path_arg.
  unfold mbind at 1 2, M_bind, bind, lift.
  rewrite cache_lookup_absent by exact Hm. now apply fetch_loop_spec.
Qed.

Lemma fetch_shard_occupied self uri h w data :
  fs w !! cache_path_of self uri = Some (File data) ->
  _fetch_shard E self (PStr uri) h w = (Err no_generate_hash, w).
Proof.
  intros H. unfold _fetch_shard, as_path_arg. unfold mbind at 1 2, M_bind, bind, lift.
  now rewrite (cache_lookup_occupied _ _ _ data).
Qed.

Lemma fetch_shard_not_a_file self uri h w :
  fs w !! cache_path_of self uri = Some Dir ->
  _fetch_shard E self (PStr uri) h w =
    (Err (OS.is_a_directory (cache_path_of self uri)), w).
Proof.
  intros H. unfold _fetch_shard, as_path_arg. unfold mbind at 1 2, M_bind, bind, lift.
  now rewrite cache_lookup_not_a_file.
Qed.

Lemma fetch_shard_unnameable self uri h w :
  cache_state_of w (cache_path_of self uri) = Unnameable ->
  _fetch_shard E self (PStr uri) h w =
    (Err (OS.nothing_at (cache_path_of self uri)), w).
Proof.
  intros H. unfold _fetch_shard, as_path_arg. unfold mbind at 1 2, M_bind, bind, lift.
  now rewrite (proj1 (cache_lookup_unnameable _ _ h H)).
Qed.

(** When the cache does not miss, [_fetch_shard] raises and leaves the
    world as it is. *)
Lemma fetch_shard_no_miss self uri h w :
  ~ cache_miss self w uri ->
  exists e, _fetch_shard E self (PStr uri) h w = (Err e, w)
            /\ e <> unavailable uri.
Proof.
  intros Hm. unfold cache_miss in Hm.
  destruct (cache_state_of w (cache_path_of self uri)) eqn:Hc;
    [| | now destruct Hm |].
  - unfold cache_state_of in Hc.
    destruct (fs w !! cache_path_of self uri) as [[data|]|] eqn:Hfs;
      try discriminate; [|destruct (negb _ && _); discriminate].
    exists no_generate_hash. split; [now apply (fetch_shard_occupied _ _ _ _ data)|].
    discriminate.
  - unfold cache_state_of in Hc.
    destruct (fs w !! cache_path_of self uri) as [[data|]|] eqn:Hfs;
      try discriminate; [|destruct (negb _ && _); discriminate].
    eexists. split; [now apply fetch_shard_not_a_file|]. discriminate.
  - eexists. split; [now apply fetch_shard_unnameable|].
    destruct (cache_lookup_unnameable w _ h Hc) as [_ Hcls].
    intros Heq. rewrite Heq in Hcls. cbn in Hcls.
    unfold cache_state_of in Hc.
    destruct (fs w !! cache_path_of self uri) as [[data|]|]; try discriminate.
    unfold OS.nothing_at in Heq.
    destruct (OS.has_nul _); [discriminate|].
    destruct (OS.too_long _); discriminate.
Qed.

End RetryFacts.

Section FetchFacts.

Variable E : Env.
Variable self : SecureDataLoader.

Lemma length_snoc {A} (l : list A) (x : A) : length (l ++ [x]) = S (length l).
Proof. rewrite length_app. cbn. lia. Qed.

(** After a cache miss: the result, the cache file, the transport calls
    and the waits of [_fetch_shard], in terms of the three outcomes. *)
Lemma fetch_miss_summary (uri : string) (h : pyval) (w : World) :
  cache_miss self w uri ->
  let p := cache_path_of self uri in
  let n := length (net w) in
  let r := _fetch_shard E self (PStr uri) h w in
  fst r = match first_verified E self uri h n with
          | Some _ => Ok p
          | None => Err (unavailable uri)
          end
  /\ fs (snd r) !! p = File <$> first_verified E self uri h n
  /\ net (snd r) = (net w ++ replicate (attempts_made E self uri h n) uri)%list
  /\ slept (snd r) = (slept w ++ waits E self uri h n (attempts_made E self uri h n))%list.
Proof.
  intros Hm p n r. subst r n.
  rewrite (fetch_shard_miss E self uri h w Hm). fold p.
  pose proof (proj1 (proj1 (cache_state_absent w p) Hm)) as Hno.
  unfold first_verified, attempts_made, waits, attempt_failed.
  cbn [loop_spec].
  destruct (outcome E self uri h (length (net w))) as [e1| |d1] eqn:O1;
    cbn [net after_raise after_mismatch after_write slept fs fst snd negb];
    rewrite ?length_snoc.
  3: { unfold attempt_raised. cbn [seq flat_map]. rewrite Nat.add_0_r, O1.
       rewrite lookup_insert_eq. cbn. now rewrite app_nil_r. }
  all: destruct (outcome E self uri h (S (length (net w)))) as [e2| |d2] eqn:O2;
    cbn [loop_spec net after_raise after_mismatch after_write slept fs fst snd negb];
    rewrite ?length_snoc, ?O2.
  all: try (destruct (outcome E self uri h (S (S (length (net w))))) as [e3| |d3] eqn:O3;
    cbn [loop_spec net after_raise after_mismatch after_write slept fs fst snd negb]).
  all: unfold attempt_raised; cbn [seq flat_map];
    rewrite ?Nat.add_0_r, ?Nat.add_1_r;
    replace (length (net w) + 2)%nat with (S (S (length (net w)))) by lia;
    rewrite ?O1, ?O2, ?O3, ?lookup_insert_eq, ?Hno;
    cbn [app fmap option_fmap option_map replicate];
    rewrite <- ?app_assoc, ?app_nil_r; cbn [app Z.of_nat]; auto.
Qed.

Lemma process_shard_cases (u h : pyval) (w : World) :
  _process_shard E self u h w =
    match _fetch_shard E self u h w with
    | (Err e, w1) => (Ok [], logged_failure w1 e)
    | (Ok p, w1) =>
        match _load_and_batch self p w1 with
        | (Ok bs, w2) => (Ok bs, w2)
        | (Err e, w2) => (Ok [], logged_failure w2 e)
        end
    end.
Proof.
  unfold _process_shard, try_except. unfold mbind at 1, M_bind, bind.
  destruct (_fetch_shard E self u h w) as [[p|e] w1]; [|reflexivity].
  destruct (_load_and_batch self p w1) as [[bs|e] w2]; reflexivity.
Qed.

(** C2, on the code. A shard whose cache file exists is never returned
    from the cache, whatever the file holds and so also when it rehashes
    to the expected hash: [_validate_cached_file] opens the file and then
    looks up [self._generate_hash], which the class does not have, so
    [_fetch_shard] raises AttributeError instead of returning the cache
    path.  The world stays as it was (no transport call, no wait, no file
    removed), and [_process_shard] logs the error and hands no batch on. *)
Theorem cache_hit_raises_attribute_error
    (uri : string) (expected_hash : pyval) (data : bytes) (w : World) :
  fs w !! cache_path_of self uri = Some (File data) ->
  expected_hash = PStr (hex (sha3_256 E data)) ->
  _fetch_shard E self (PStr uri) expected_hash w
    = (Err (Raise AttributeError
              "'SecureDataLoader' object has no attribute '_generate_hash'"), w)
  /\ _process_shard E self (PStr uri) expected_hash w
     = (Ok [], mkWorld (fs w) (net w) (slept w) (log w ++ [cache_failure])).
Proof.
  intros Hfs _.
  pose proof (fetch_shard_occupied E self uri expected_hash w data Hfs) as Hf.
  split; [exact Hf|]. now rewrite process_shard_cases, Hf.
Qed.

(** C3. [_fetch_shard] raises the error "Failed to download shard after 3
    attempts: <uri>" exactly when the three attempts are made (nothing is
    at the cache path) and each of them fails, where an attempt fails
    when it raises (in the transport, or in the write to the cache) or
    when its payload has another digest; and when attempt [k] is the
    first to bring a payload with the expected digest and to write it,
    after [k] failed ones, the result is the cache path, the cache file
    holds that payload and exactly [k + 1] transport calls were made. *)
Theorem fetch_unavailable_iff_three_failed_attempts
    (uri : string) (h : pyval) (w : World) :
  let p := cache_path_of self uri in
  let n := length (net w) in
  let r := _fetch_shard E self (PStr uri) h w in
  (fst r = Err (Raise IOError ("Failed to download shard after 3 attempts: " ++ uri))
   <-> cache_miss self w uri
       /\ attempt_failed E self uri h n = true
       /\ attempt_failed E self uri h (S n) = true
       /\ attempt_failed E self uri h (S (S n)) = true)
  /\ (forall (k : nat) (data : bytes),
        cache_miss self w uri ->
        (k < 3)%nat ->
        (forall j, (j < k)%nat -> attempt_failed E self uri h (n + j) = true) ->
        outcome E self uri h (n + k) = Verified data ->
        fst r = Ok p
        /\ fs (snd r) !! p = Some (File data)
        /\ net (snd r) = (net w ++ replicate (S k) uri)%list).
Proof.
  intros p n r. split.
  - assert (cache_state_of w p = Absent \/ cache_state_of w p <> Absent)
      as [Hm|Hm] by (destruct (cache_state_of w p); auto; right; discriminate).
    + destruct (fetch_miss_summary uri h w Hm) as (Hr & _).
      fold r in Hr. rewrite Hr. unfold first_verified, attempt_failed. fold n.
      destruct (outcome E self uri h n); destruct (outcome E self uri h (S n));
        destruct (outcome E self uri h (S (S n)));
        (split; [intros Hx; try discriminate Hx; auto
                | intros (_ & H1 & H2 & H3); try discriminate; reflexivity]).
    + destruct (fetch_shard_no_miss E self uri h w Hm) as (e & He & Hne).
      subst r. rewrite He. cbn [fst]. split.
      * intros [= ->]. now destruct Hne.
      * intros (H & _). now destruct Hm.
  - intros k data Hm Hk Hj Hv.
    destruct (fetch_miss_summary uri h w Hm) as (Hr & Hf & Hn & _).
    fold r p n in Hr, Hf, Hn. rewrite Hr, Hf, Hn.
    unfold first_verified, attempts_made.
    destruct k as [|[|[|k]]]; [| | |lia].
    + rewrite Nat.add_0_r in Hv. unfold attempt_failed. rewrite Hv. auto.
    + pose proof (Hj 0%nat ltac:(lia)) as H0. rewrite Nat.add_0_r in H0.
      rewrite Nat.add_1_r in Hv. rewrite H0.
      unfold attempt_failed in *. rewrite Hv.
      destruct (outcome E self uri h n); try discriminate; auto.
    + pose proof (Hj 0%nat ltac:(lia)) as H0. rewrite Nat.add_0_r in H0.
      pose proof (Hj 1%nat ltac:(lia)) as H1. rewrite Nat.add_1_r in H1.
      replace (n + 2)%nat with (S (S n)) in Hv by lia. rewrite H0, H1.
      unfold attempt_failed in *. rewrite Hv.
      destruct (outcome E self uri h n); try discriminate;
        destruct (outcome E self uri h (S n)); try discriminate; auto.
Qed.

(** C5, as the code has it. When nothing is at the cache path, the loop
    makes one transport call per attempt and sleeps [2 ^ attempt] seconds
    (attempt counted from 0) after each attempt that raised, the last one
    included, and after no other: an attempt whose payload fails the
    digest test is followed by the next attempt at once, and a verified
    attempt ends the loop. In particular, when attempts 1 and 2 raise and
    attempt 3 is verified, the result is the cache path after exactly
    three transport calls and the two waits of 1 and 2. *)
Theorem backoff_after_each_raising_attempt
    (uri : string) (h : pyval) (w : World) :
  cache_miss self w uri ->
  let p := cache_path_of self uri in
  let n := length (net w) in
  let r := _fetch_shard E self (PStr uri) h w in
  net (snd r) = (net w ++ replicate (attempts_made E self uri h n) uri)%list
  /\ slept (snd r) = (slept w ++ waits E self uri h n (attempts_made E self uri h n))%list
  /\ (forall e1 e2 data,
        outcome E self uri h n = Raised e1 ->
        outcome E self uri h (S n) = Raised e2 ->
        outcome E self uri h (S (S n)) = Verified data ->
        fst r = Ok p
        /\ net (snd r) = (net w ++ [uri; uri; uri])%list
        /\ slept (snd r) = (slept w ++ [1; 2])%list).
Proof.
  intros Hm p n r.
  destruct (fetch_miss_summary uri h w Hm) as (Hr & _ & Hn & Hs).
  fold r p n in Hr, Hn, Hs. split; [exact Hn|]. split; [exact Hs|].
  intros e1 e2 data O1 O2 O3. rewrite Hr, Hn, Hs.
  unfold first_verified, attempts_made, waits, attempt_failed, attempt_raised.
  cbn [seq flat_map]. rewrite ?Nat.add_0_r, ?Nat.add_1_r.
  replace (n + 2)%nat with (S (S n)) by lia.
  rewrite O1, O2, O3. cbn [negb seq flat_map].
  rewrite ?Nat.add_0_r, ?Nat.add_1_r.
  replace (n + 2)%nat with (S (S n)) by lia.
  rewrite O1, O2, O3. auto.
Qed.

End FetchFacts.

(** ** Slicing a shard into batches *)

Section BatchFacts.

Lemma chunk4_length (n : nat) : forall data : bytes,
  length data = (4 * n)%nat -> length (Np.chunk4 data) = n.
Proof.
  induction n as [|n IH]; intros data Hlen.
  - destruct data; [reflexivity|discriminate].
  - destruct data as [|a [|b [|c [|d rest]]]]; cbn in Hlen; try lia.
    cbn [Np.chunk4 length]. f_equal. apply IH. lia.
Qed.

Lemma ceil_div_step (n b : Z) : 0 < b -> ceil_div (n + b) b = ceil_div n b + 1.
Proof.
  intros Hb. unfold ceil_div.
  replace (n + b + b - 1) with (n + b - 1 + 1 * b) by lia.
  now rewrite Z.div_add by lia.
Qed.

Lemma ceil_div_nonpos (n b : Z) : 0 < b -> n <= 0 -> ceil_div n b <= 0.
Proof.
  intros Hb Hn. unfold ceil_div.
  assert ((n + b - 1) / b < 1); [|lia].
  apply Z.div_lt_upper_bound; lia.
Qed.

Lemma range_up_spec (step : Z) (Hstep : 0 < step) (fuel : nat) :
  forall i stop, stop - i <= Z.of_nat fuel ->
  Np.range_up fuel i stop step
  = map (fun k => i + Z.of_nat k * step)
        (seq 0 (Z.to_nat (ceil_div (stop - i) step))).
Proof.
  induction fuel as [|fuel IH]; intros i stop Hfuel.
  - cbn [Np.range_up].
    pose proof (ceil_div_nonpos (stop - i) step Hstep ltac:(lia)).
    replace (Z.to_nat (ceil_div (stop - i) step)) with 0%nat by lia.
    reflexivity.
  - cbn [Np.range_up]. destruct (i <? stop) eqn:Hlt.
    + apply Z.ltb_lt in Hlt.
      rewrite IH by lia.
      assert (ceil_div (stop - i) step = ceil_div (stop - (i + step)) step + 1)
        as ->.
      { rewrite <- ceil_div_step by lia. f_equal. lia. }
      assert (0 <= ceil_div (stop - (i + step)) step) as Hnn.
      { unfold ceil_div. apply Z.div_pos; lia. }
      rewrite Z2Nat.inj_add by lia.
      change (Z.to_nat 1) with 1%nat. rewrite Nat.add_1_r.
      cbn [seq map]. f_equal; [lia|].
      rewrite <- seq_shift, map_map.
      apply map_ext. intros k. lia.
    + apply Z.ltb_ge in Hlt.
      pose proof (ceil_div_nonpos (stop - i) step Hstep ltac:(lia)).
      replace (Z.to_nat (ceil_div (stop - i) step)) with 0%nat by lia.
      reflexivity.
Qed.

Lemma range_spec (n b : Z) :
  0 < b ->
  Np.range 0 n b
  = Ok (map (fun k => Z.of_nat k * b) (seq 0 (Z.to_nat (ceil_div n b)))).
Proof.
  intros Hb. unfold Np.range.
  replace (b =? 0) with false by (symmetry; apply Z.eqb_neq; lia).
  replace (0 <? b) with true by (symmetry; apply Z.ltb_lt; lia).
  rewrite range_up_spec by lia. rewrite Z.sub_0_r. reflexivity.
Qed.

Lemma slice_take_drop {A} (a : list A) (i b : Z) :
  0 <= i -> 0 < b -> i < Z.of_nat (length a) ->
  Np.slice a i (i + b) = take (Z.to_nat b) (drop (Z.to_nat i) a).
Proof.
  intros Hi Hb Hlt. unfold Np.slice, Np.clamp.
  replace (i <? 0) with false by (symmetry; apply Z.ltb_ge; lia).
  replace (i + b <? 0) with false by (symmetry; apply Z.ltb_ge; lia).
  replace (Z.to_nat (Z.min i (Z.of_nat (length a)))) with (Z.to_nat i) by lia.
  destruct (Z.le_gt_cases (i + b) (Z.of_nat (length a))) as [Hle|Hgt].
  - f_equal. lia.
  - rewrite (take_ge _ (Z.to_nat b)) by (rewrite length_drop; lia).
    apply take_ge. rewrite length_drop. lia.
Qed.

Lemma ceil_div_bounds (n b : Z) :
  0 < b -> (ceil_div n b - 1) * b < n <= ceil_div n b * b.
Proof.
  intros Hb. unfold ceil_div.
  pose proof (Z.mul_div_le (n + b - 1) b Hb).
  pose proof (Z.mul_succ_div_gt (n + b - 1) b Hb).
  lia.
Qed.

Lemma last_batch_size (n b : Z) :
  0 < b -> 0 < n ->
  n - (ceil_div n b - 1) * b = if n mod b =? 0 then b else n mod b.
Proof.
  intros Hb Hn.
  pose proof (ceil_div_bounds n b Hb) as Hc.
  pose proof (Z.div_mod n b ltac:(lia)) as Hdm.
  pose proof (Z.mod_pos_bound n b Hb) as Hm.
  set (c := ceil_div n b) in *. set (q := n / b) in *. set (r := n mod b) in *.
  assert (q - c + 1 = 0 \/ q - c + 1 = 1) as [H|H] by nia.
  - assert (c = q + 1) as -> by lia.
    destruct (r =? 0) eqn:Hr; [apply Z.eqb_eq in Hr|]; nia.
  - assert (c = q) as -> by lia.
    destruct (r =? 0) eqn:Hr; [apply Z.eqb_eq in Hr|apply Z.eqb_neq in Hr]; nia.
Qed.

Lemma load_and_batch_spec (self : SecureDataLoader) (path : string)
    (data : bytes) (n : nat) (w : World) :
  fs w !! path = Some (File data) ->
  length data = (4 * n)%nat ->
  0 < batch_size self ->
  _load_and_batch self path w =
    if Nat.eqb n 0 then (Err (Raise ValueError "cannot mmap an empty file"), w)
    else (Ok (batches_of (batch_size self) (Np.chunk4 data)), w).
Proof.
  intros Hfs Hlen Hb. unfold _load_and_batch, Np.memmap. munfold.
  rewrite Hfs. rewrite Hlen.
  replace ((4 * n) `mod` 4)%nat with 0%nat
    by (symmetry; rewrite (Nat.mul_comm 4 n); apply Nat.Div0.mod_mul).
  cbn [Nat.eqb negb].
  destruct n as [|n]; [reflexivity|].
  replace (4 * S n =? 0)%nat with false by (symmetry; apply Nat.eqb_neq; lia).
  cbn [Nat.eqb]. rewrite range_spec by assumption.
  unfold batches_of. cbv beta iota. rewrite map_map. do 2 f_equal.
  apply map_ext_in. intros k Hk.
  apply in_seq in Hk.
  pose proof (ceil_div_bounds (Z.of_nat (length (Np.chunk4 data)))
                (batch_size self) Hb) as Hc.
  rewrite slice_take_drop by nia.
  do 3 f_equal. nia.
Qed.

End BatchFacts.

Section ProcessFacts.

Variable E : Env.
Variable self : SecureDataLoader.

Lemma lookup_map {A B} (f : A -> B) (l : list A) (k : nat) :
  map f l !! k = f <$> (l !! k).
Proof. change (map f l) with (f <$> l). apply list_lookup_fmap. Qed.

Lemma batches_of_length (b : Z) (samples : list float32) :
  0 < b ->
  Z.of_nat (length (batches_of b samples))
  = ceil_div (Z.of_nat (length samples)) b.
Proof.
  intros Hb. unfold batches_of. rewrite length_map, length_seq.
  apply Z2Nat.id. unfold ceil_div. apply Z.div_pos; lia.
Qed.

(** What one task returns for a shard that was fetched and whose file
    holds [N] float32 samples: the number and the sizes of its batches. *)
Lemma fetched_shard_batches
    (u h : pyval) (w w1 : World) (p : string) (data : bytes) (N : nat) :
  _fetch_shard E self u h w = (Ok p, w1) ->
  fs w1 !! p = Some (File data) ->
  length data = (4 * N)%nat ->
  0 < batch_size self ->
  let B := batch_size self in
  exists bs : list DataBatch,
    fst (_process_shard E self u h w) = Ok bs
    /\ Z.of_nat (length bs) = ceil_div (Z.of_nat N) B
    /\ (Z.of_nat (length bs) - 1) * B < Z.of_nat N <= Z.of_nat (length bs) * B
    /\ forall (k : nat) (b : DataBatch),
         bs !! k = Some b ->
         exists s : list float32,
           b = {[ "features" := s ]}
           /\ dom b = ({[ "features" ]} : gset string)
           /\ s = take (Z.to_nat B) (drop (k * Z.to_nat B) (Np.chunk4 data))
           /\ Z.of_nat (length s) <= B
           /\ ((S k < length bs)%nat -> Z.of_nat (length s) = B)
           /\ (S k = length bs ->
               Z.of_nat (length s)
               = if Z.of_nat N mod B =? 0 then B else Z.of_nat N mod B).
Proof.
  intros Hfetch Hfs Hlen HB B.
  unfold _process_shard, try_except. unfold mbind, M_bind, bind.
  rewrite Hfetch.
  rewrite (load_and_batch_spec self p data N w1 Hfs Hlen HB).
  pose proof (chunk4_length N data Hlen) as Hn.
  destruct N as [|N'] eqn:HN.
  - cbn [Nat.eqb]. exists []. cbn.
    repeat split; try (unfold ceil_div; fold B; rewrite ?Z.add_0_l;
                       try (rewrite Z.div_small by lia); lia).
    intros k b Hk. destruct k; discriminate.
  - rewrite <- HN in *. replace (Nat.eqb N 0) with false
      by (symmetry; apply Nat.eqb_neq; lia).
    exists (batches_of B (Np.chunk4 data)). cbn [fst].
    pose proof (batches_of_length B (Np.chunk4 data) HB) as Hc.
    rewrite Hn in Hc.
    pose proof (ceil_div_bounds (Z.of_nat N) B HB) as Hbd.
    split; [reflexivity|]. split; [exact Hc|]. split; [lia|].
    intros k b Hk. unfold batches_of in Hk.
    rewrite lookup_map in Hk.
    destruct (seq 0 _ !! k) as [k'|] eqn:Hseq; [|discriminate].
    apply lookup_seq in Hseq as [-> Hlt]. cbn in Hk. injection Hk as <-.
    rewrite Hn in Hlt.
    eexists. split; [reflexivity|]. split; [apply dom_singleton_L|].
    split; [reflexivity|].
    assert (Z.of_nat k < ceil_div (Z.of_nat N) B) as Hk' by lia.
    assert (Z.of_nat
              (length (take (Z.to_nat B) (drop (k * Z.to_nat B) (Np.chunk4 data))))
            = Z.min B (Z.of_nat N - Z.of_nat k * B)) as Hsz.
    { rewrite length_take, length_drop, Hn. nia. }
    rewrite Hsz. split; [lia|]. split.
    + intros Hlast. nia.
    + intros Hlast.
      rewrite <- (last_batch_size (Z.of_nat N) B HB ltac:(lia)).
      replace (Z.of_nat k) with (ceil_div (Z.of_nat N) B - 1) by lia.
      nia.
Qed.

End ProcessFacts.

(** ** The worker pool and the stream *)

Section StreamFacts.

Variable E : Env.
Variable self : SecureDataLoader.

Lemma process_shard_ok (u h : pyval) (w : World) :
  fst (_process_shard E self u h w) = Ok (shard_batches E self u h w).
Proof.
  rewrite process_shard_cases. unfold shard_batches.
  destruct (_fetch_shard E self u h w) as [[p|e] w1]; [|reflexivity].
  destruct (_load_and_batch self p w1) as [[bs|e] w2]; reflexivity.
Qed.

Lemma run_sched_from_tasks (tasks : list task) (sched : list nat) :
  forall futures w,
    from_tasks E self tasks futures ->
    from_tasks E self tasks (fst (run_sched E self sched tasks futures w)).
Proof.
  induction sched as [|i rest IH]; intros futures w Hinv; [exact Hinv|].
  cbn [run_sched].
  destruct (futures !! i) as [r|] eqn:Hf; [now apply IH|].
  destruct (tasks !! i) as [[u h]|] eqn:Ht; [|now apply IH].
  destruct (_process_shard E self u h w) as [r w'] eqn:Hp.
  apply IH. intros j r' Hj.
  destruct (decide (i = j)) as [<-|Hne].
  - rewrite lookup_insert_eq in Hj. injection Hj as <-.
    exists u, h, w. split; [exact Ht|].
    pose proof (process_shard_ok u h w) as Hok. now rewrite Hp in Hok.
  - rewrite lookup_insert_ne in Hj by exact Hne. now apply Hinv.
Qed.

Lemma run_sched_keeps (tasks : list task) (sched : list nat) :
  forall futures w i,
    is_Some (futures !! i) ->
    is_Some (fst (run_sched E self sched tasks futures w) !! i).
Proof.
  induction sched as [|j rest IH]; intros futures w i Hi; [exact Hi|].
  cbn [run_sched].
  destruct (futures !! j) as [r|] eqn:Hf; [now apply IH|].
  destruct (tasks !! j) as [[u h]|] eqn:Ht; [|now apply IH].
  destruct (_process_shard E self u h w) as [r w'].
  apply IH. destruct (decide (j = i)) as [->|Hne].
  - rewrite lookup_insert_eq. eauto.
  - now rewrite lookup_insert_ne.
Qed.

Lemma run_sched_covers (tasks : list task) (sched : list nat) :
  forall futures w i,
    i ∈ sched -> (i < length tasks)%nat ->
    is_Some (fst (run_sched E self sched tasks futures w) !! i).
Proof.
  induction sched as [|j rest IH]; intros futures w i Hin Hlt.
  - now apply elem_of_nil in Hin.
  - cbn [run_sched]. apply elem_of_cons in Hin as [->|Hin].
    + destruct (futures !! j) as [r|] eqn:Hf.
      { apply run_sched_keeps. rewrite Hf. eauto. }
      destruct (tasks !! j) as [[u h]|] eqn:Ht.
      2: { apply lookup_ge_None in Ht. lia. }
      destruct (_process_shard E self u h w) as [r w'].
      apply run_sched_keeps. rewrite lookup_insert_eq. eauto.
    + destruct (futures !! j) as [r|] eqn:Hf; [now apply IH|].
      destruct (tasks !! j) as [[u h]|] eqn:Ht; [|now apply IH].
      destruct (_process_shard E self u h w) as [r w'].
      now apply IH.
Qed.

Lemma run_pool_complete (tasks : list task) (sched : list nat) (w : World) (i : nat) :
  (i < length tasks)%nat ->
  is_Some (fst (run_pool E self sched tasks w) !! i).
Proof.
  intros Hlt. unfold run_pool. apply run_sched_covers; [|exact Hlt].
  apply elem_of_app. right. apply list_elem_of_In, in_seq. lia.
Qed.

Lemma run_pool_from_tasks (tasks : list task) (sched : list nat) (w : World) :
  from_tasks E self tasks (fst (run_pool E self sched tasks w)).
Proof.
  unfold run_pool. apply run_sched_from_tasks.
  intros i r Hi. now rewrite lookup_empty in Hi.
Qed.

Lemma drain_all_ok (rs : list (list DataBatch)) :
  drain (map Ok rs) = mkStream (concat rs) None.
Proof.
  induction rs as [|r rs IH]; [reflexivity|].
  cbn [map drain]. rewrite IH. reflexivity.
Qed.

(** What the futures hold when the driving loop reads them: one list of
    batches per task, each the outcome of that task's run. *)
Lemma pool_results (tasks : list task) (sched : list nat) (w : World) :
  exists rs : list (list DataBatch),
    map (future_result (fst (run_pool E self sched tasks w)))
        (seq 0 (length tasks)) = map Ok rs
    /\ length rs = length tasks
    /\ forall i r, rs !! i = Some r ->
         exists u h w0, tasks !! i = Some (u, h) /\ r = shard_batches E self u h w0.
Proof.
  set (futures := fst (run_pool E self sched tasks w)).
  exists (map (fun i => match future_result futures i with
                        | Ok bs => bs
                        | Err _ => []
                        end) (seq 0 (length tasks))).
  split; [|split].
  - rewrite map_map. apply map_ext_in. intros i Hi. apply in_seq in Hi.
    destruct (run_pool_complete tasks sched w i ltac:(lia)) as [r Hr].
    fold futures in Hr. unfold future_result. rewrite Hr. cbn.
    destruct (run_pool_from_tasks tasks sched w i r Hr) as (u & h & w0 & _ & ->).
    reflexivity.
  - now rewrite length_map, length_seq.
  - intros i r Hi. rewrite lookup_map in Hi.
    destruct (seq 0 (length tasks) !! i) as [i'|] eqn:Hs; [|discriminate].
    apply lookup_seq in Hs as [-> Hlt]. cbn in Hi. injection Hi as <-.
    destruct (run_pool_complete tasks sched w i Hlt) as [r Hr].
    fold futures in Hr. unfold future_result. rewrite Hr. cbn.
    destruct (run_pool_from_tasks tasks sched w i r Hr) as (u & h & w0 & Ht & ->).
    exists u, h, w0. split; [exact Ht|reflexivity].
Qed.

(** The tasks that the submission loop hands to the executor are the
    leading shards of the manifest, in manifest order. *)
Lemma submit_all_tasks (shards : list pyval) :
  forall tasks failure, submit_all shards = (tasks, failure) ->
  (forall i u h, tasks !! i = Some (u, h) ->
     exists shard, shards !! i = Some shard
                   /\ getitem shard "uri" = Ok u
                   /\ getitem shard "hash" = Ok h)
  /\ (failure = None -> length tasks = length shards).
Proof.
  induction shards as [|shard rest IH]; intros tasks failure Hs.
  - injection Hs as <- <-. split; [|reflexivity].
    intros i u h Hi. now rewrite lookup_nil in Hi.
  - cbn [submit_all] in Hs.
    destruct (getitem shard "uri") as [u0|e] eqn:Hu.
    2: { injection Hs as <- <-. split; [|discriminate].
         intros i u h Hi. now rewrite lookup_nil in Hi. }
    destruct (getitem shard "hash") as [h0|e] eqn:Hh.
    2: { injection Hs as <- <-. split; [|discriminate].
         intros i u h Hi. now rewrite lookup_nil in Hi. }
    destruct (submit_all rest) as [tasks' failure'] eqn:Hr.
    injection Hs as <- <-.
    destruct (IH tasks' failure' eq_refl) as [IH1 IH2]. split.
    + intros [|i] u h Hi.
      * injection Hi as <- <-. exists shard. auto.
      * cbn in Hi. destruct (IH1 i u h Hi) as (s & Hs & Hus & Hhs).
        exists s. auto.
    + intros Hf. cbn [length]. f_equal. now apply IH2.
Qed.

(** What a successful [_load_and_batch] returns: nothing, or the slices of
    the file's samples, batch [k] starting at sample [k * batch_size]. *)
Lemma load_and_batch_shape (path : string) (w1 w2 : World) (bs : list DataBatch) :
  _load_and_batch self path w1 = (Ok bs, w2) ->
  bs = []
  \/ exists data, fs w1 !! path = Some (File data)
       /\ forall k b, bs !! k = Some b ->
            b = {[ "features" :=
                    take (Z.to_nat (batch_size self))
                         (drop (k * Z.to_nat (batch_size self)) (Np.chunk4 data)) ]}.
Proof.
  intros Hload.
  destruct (fs w1 !! path) as [[data|]|] eqn:Hfs.
  2,3: (unfold _load_and_batch, Np.memmap in Hload; revert Hload; munfold;
        rewrite Hfs; discriminate).
  destruct (Z.ltb_spec 0 (batch_size self)) as [Hpos|Hle].
  - destruct (Nat.eqb (length data mod 4) 0) eqn:Hmod.
    + apply Nat.eqb_eq in Hmod.
      apply Nat.Div0.div_exact in Hmod.
      rewrite (load_and_batch_spec self path data (length data / 4) w1 Hfs Hmod Hpos)
        in Hload.
      destruct (Nat.eqb (length data / 4) 0); [discriminate|].
      injection Hload as <- _. right. exists data. split; [reflexivity|].
      intros k b Hk. unfold batches_of in Hk. rewrite lookup_map in Hk.
      destruct (seq 0 _ !! k) as [k'|] eqn:Hseq; [|discriminate].
      apply lookup_seq in Hseq as [-> _]. cbn in Hk. now injection Hk as <-.
    + unfold _load_and_batch, Np.memmap in Hload. revert Hload. munfold.
      rewrite Hfs, Hmod. discriminate.
  - left. unfold _load_and_batch, Np.memmap, Np.range in Hload.
    revert Hload. munfold. rewrite Hfs.
    destruct (negb _); [discriminate|].
    destruct (Nat.eqb (length data) 0); [discriminate|].
    destruct (batch_size self =? 0); [discriminate|].
    replace (0 <? batch_size self) with false by (symmetry; apply Z.ltb_ge; lia).
    replace (Z.to_nat (0 - Z.of_nat (length (Np.chunk4 data)))) with 0%nat by lia.
    cbn. intros H. now injection H as <- _.
Qed.

(** The pool of [run_sched] and the record of [run_starts] go together:
    a future holds what its task returned in the world it started in. *)
Lemma run_sched_starts (tasks : list task) (sched : list nat) :
  forall futures started w,
    (forall i, futures !! i
               = (fun w0 => match tasks !! i with
                            | Some (u, h) => fst (_process_shard E self u h w0)
                            | None => Ok []
                            end) <$> started !! i) ->
    forall i, fst (run_sched E self sched tasks futures w) !! i
              = (fun w0 => match tasks !! i with
                           | Some (u, h) => fst (_process_shard E self u h w0)
                           | None => Ok []
                           end) <$> run_starts E self sched tasks started w !! i.
Proof.
  induction sched as [|j rest IH]; intros futures started w Hinv; [exact Hinv|].
  cbn [run_sched run_starts]. pose proof (Hinv j) as Hj.
  destruct (started !! j) as [wj|] eqn:Hs; cbn in Hj; rewrite Hj;
    [now apply IH|].
  destruct (tasks !! j) as [[u h]|] eqn:Ht; [|now apply IH].
  destruct (_process_shard E self u h w) as [r w'] eqn:Hp. cbn [snd].
  apply IH. intros i. destruct (decide (j = i)) as [<-|Hne].
  - rewrite !lookup_insert_eq. cbn. now rewrite Ht, Hp.
  - rewrite !lookup_insert_ne by exact Hne. apply Hinv.
Qed.

(** The future of entry [i], as the driving loop reads it. *)
Lemma future_of_task (sched : list nat) (w : World) (i : nat) :
  (i < length (submitted self))%nat ->
  future_result (fst (run_pool E self sched (submitted self) w)) i
  = Ok (shard_list E self sched w i).
Proof.
  intros Hlt.
  destruct (run_pool_complete (submitted self) sched w i Hlt) as [r Hr].
  unfold future_result. rewrite Hr. cbv [default id].
  unfold run_pool in Hr.
  rewrite (run_sched_starts (submitted self) _ ∅ ∅ w) in Hr
    by (intros k; now rewrite !lookup_empty).
  unfold shard_list, task_world.
  destruct (run_starts E self _ (submitted self) ∅ w !! i) as [w0|];
    [|discriminate].
  cbn in Hr. injection Hr as <-. cbv [default id].
  destruct (lookup_lt_is_Some_2 _ _ Hlt) as [[u h] Ht]. rewrite Ht.
  apply process_shard_ok.
Qed.

Lemma submission_error_none :
  submission_error self = None ->
  0 < max_workers self
  /\ exists ds, getitem (manifest self) "datasets" = Ok ds
                /\ iterate ds = Ok (manifest_shards self)
                /\ submit_all (manifest_shards self) = (submitted self, None).
Proof.
  unfold submission_error, submitted, manifest_shards.
  destruct (max_workers self <=? 0) eqn:Hw; [discriminate|].
  apply Z.leb_gt in Hw. intros Hs. split; [lia|].
  destruct (getitem (manifest self) "datasets") as [ds|e]; [|discriminate].
  cbn [mbind result_bind] in *.
  destruct (iterate ds) as [shards|e] eqn:Hit; [|discriminate].
  exists ds. split; [reflexivity|]. rewrite Hit. split; [reflexivity|].
  destruct (submit_all shards) as [tasks failure]. cbn [fst snd] in *.
  now subst failure.
Qed.

(** The tasks are the entries of the manifest, one for one, when the
    submission loop raises nothing. *)
Lemma submitted_entry (i : nat) (shard : pyval) :
  submission_error self = None ->
  manifest_shards self !! i = Some shard ->
  exists u h, getitem shard "uri" = Ok u
              /\ getitem shard "hash" = Ok h
              /\ submitted self !! i = Some (u, h).
Proof.
  intros (_ & ds & _ & _ & Hsub)%submission_error_none Hs.
  destruct (submit_all_tasks _ _ _ Hsub) as [Htasks Hlen].
  specialize (Hlen eq_refl).
  assert (i < length (submitted self))%nat as Hlt
    by (rewrite Hlen; now apply lookup_lt_Some in Hs).
  destruct (lookup_lt_is_Some_2 _ _ Hlt) as [[u h] Ht].
  destruct (Htasks i u h Ht) as (shard' & Hs' & Hu & Hh).
  exists u, h. replace shard with shard' by congruence. auto.
Qed.

Lemma stream_lists_length (sched : list nat) (w : World) :
  submission_error self = None ->
  length (stream_lists E self sched w) = length (manifest_shards self).
Proof.
  intros (_ & ds & _ & _ & Hsub)%submission_error_none.
  destruct (submit_all_tasks _ _ _ Hsub) as [_ Hlen].
  unfold stream_lists. rewrite length_map, length_seq. now apply Hlen.
Qed.

Lemma stream_lists_lookup (sched : list nat) (w : World) (i : nat) (u h : pyval) :
  submitted self !! i = Some (u, h) ->
  stream_lists E self sched w !! i
  = Some (shard_batches E self u h (task_world E self sched w i)).
Proof.
  intros Ht. unfold stream_lists. rewrite lookup_map.
  rewrite lookup_seq_lt by now apply lookup_lt_Some in Ht.
  cbn. unfold shard_list. now rewrite Ht.
Qed.

(** What the stream yields when the submission loop raises nothing: the
    lists of its tasks, in manifest order. *)
Lemma stream_yield (sched : list nat) (w : World) :
  submission_error self = None ->
  fst (stream_batches E self sched w)
  = mkStream (concat (stream_lists E self sched w)) None.
Proof.
  intros Hnone.
  destruct (submission_error_none Hnone) as (Hw & ds & Hds & Hit & Hsub).
  unfold stream_batches.
  replace (max_workers self <=? 0) with false by (symmetry; apply Z.leb_gt; lia).
  rewrite Hds. cbn [mbind result_bind]. rewrite Hit, Hsub.
  destruct (run_pool E self sched (submitted self) w) as [futures w'] eqn:Hpool.
  cbn [fst]. rewrite <- drain_all_ok. f_equal.
  unfold stream_lists. rewrite map_map. apply map_ext_in.
  intros i Hi. apply in_seq in Hi.
  pose proof (future_of_task sched w i ltac:(lia)) as Hf.
  now rewrite Hpool in Hf.
Qed.

(** C4. The stream ends with an exception only when one is raised before
    any shard is processed (by the executor's constructor or while the
    entries of the manifest are read for submission): whether it does is
    fixed by the manifest, not by the transports, the world or the
    schedule, so no failure while a shard is fetched or sliced ends the
    stream. When none is raised, the stream yields one list per entry of
    the manifest, in manifest order, and the list of entry [i] is what
    its task made of the world it started in, in this run: nothing when
    [_fetch_shard] raised there (its error after three failed attempts,
    or any other exception) or when [_load_and_batch] raised, and every
    batch of [_load_and_batch] otherwise, whatever became of the other
    entries. *)
Theorem failed_shard_yields_nothing_others_proceed
    (sched : list nat) (w : World) :
  let out := fst (stream_batches E self sched w) in
  let lists := stream_lists E self sched w in
  raised out = submission_error self
  /\ (submission_error self = None ->
      yielded out = concat lists
      /\ length lists = length (manifest_shards self)
      /\ forall i shard,
           manifest_shards self !! i = Some shard ->
           exists u h,
             getitem shard "uri" = Ok u
             /\ getitem shard "hash" = Ok h
             /\ lists !! i
                = Some (match _fetch_shard E self u h (task_world E self sched w i) with
                        | (Err _, _) => []
                        | (Ok p, w1) =>
                            match _load_and_batch self p w1 with
                            | (Ok bs, _) => bs
                            | (Err _, _) => []
                            end
                        end)).
Proof.
  intros out lists. subst out lists. split.
  - destruct (submission_error self) as [e|] eqn:Hs.
    + unfold stream_batches, submission_error in *.
      destruct (max_workers self <=? 0); [now injection Hs as <-|].
      destruct (getitem (manifest self) "datasets") as [ds|e'];
        [|now injection Hs as <-].
      cbn [mbind result_bind] in *.
      destruct (iterate ds) as [shards|e']; [|now injection Hs as <-].
      destruct (submit_all shards) as [tasks failure]. cbn [snd] in Hs.
      subst failure. now destruct (run_pool E self sched tasks w).
    + now rewrite stream_yield.
  - intros Hnone. rewrite (stream_yield sched w Hnone). cbn [yielded].
    split; [reflexivity|]. split; [now apply stream_lists_length|].
    intros i shard Hs.
    destruct (submitted_entry i shard Hnone Hs) as (u & h & Hu & Hh & Ht).
    exists u, h. split; [exact Hu|]. split; [exact Hh|].
    now apply stream_lists_lookup.
Qed.

(** C6. For an entry whose shard was fetched, in the world in which its
    task started, and whose file holds [N] float32 samples, the stream
    yields for a batch size [B > 0] exactly ceil(N / B) batches, after
    the batches of the entries before it and before those of the entries
    after it: their number [c] is the one with [(c - 1) * B < N <= c * B].
    Batch [k] maps the single key "features" to the samples from offset
    [k * B] on, at most [B] of them: exactly [B] for every batch but the
    last, and [N mod B] for the last, or [B] when [B] divides [N]. *)
Theorem fetched_shard_yields_ceil_batches
    (sched : list nat) (w : World) (i : nat) (shard u h : pyval)
    (w1 : World) (p : string) (data : bytes) (N : nat) :
  submission_error self = None ->
  manifest_shards self !! i = Some shard ->
  getitem shard "uri" = Ok u ->
  getitem shard "hash" = Ok h ->
  _fetch_shard E self u h (task_world E self sched w i) = (Ok p, w1) ->
  fs w1 !! p = Some (File data) ->
  length data = (4 * N)%nat ->
  0 < batch_size self ->
  let B := batch_size self in
  let lists := stream_lists E self sched w in
  exists bs : list DataBatch,
    yielded (fst (stream_batches E self sched w))
    = (concat (take i lists) ++ bs ++ concat (drop (S i) lists))%list
    /\ lists !! i = Some bs
    /\ Z.of_nat (length bs) = ceil_div (Z.of_nat N) B
    /\ (Z.of_nat (length bs) - 1) * B < Z.of_nat N <= Z.of_nat (length bs) * B
    /\ forall (k : nat) (b : DataBatch),
         bs !! k = Some b ->
         exists s : list float32,
           b = {[ "features" := s ]}
           /\ dom b = ({[ "features" ]} : gset string)
           /\ s = take (Z.to_nat B) (drop (k * Z.to_nat B) (Np.chunk4 data))
           /\ Z.of_nat (length s) <= B
           /\ ((S k < length bs)%nat -> Z.of_nat (length s) = B)
           /\ (S k = length bs ->
               Z.of_nat (length s)
               = if Z.of_nat N mod B =? 0 then B else Z.of_nat N mod B).
Proof.
  intros Hnone Hs Hu Hh Hfetch Hfs Hlen HB B lists.
  destruct (submitted_entry i shard Hnone Hs) as (u' & h' & Hu' & Hh' & Ht).
  replace u' with u in Ht by congruence. replace h' with h in Ht by congruence.
  destruct (fetched_shard_batches E self u h _ w1 p data N Hfetch Hfs Hlen HB)
    as (bs & Hbs & Hrest).
  exists bs.
  assert (lists !! i = Some bs) as Hi.
  { subst lists. rewrite (stream_lists_lookup sched w i u h Ht). f_equal.
    rewrite process_shard_ok in Hbs. now injection Hbs. }
  split; [|split; [exact Hi|exact Hrest]].
  rewrite (stream_yield sched w Hnone). cbn [yielded]. fold lists.
  rewrite <- (take_drop_middle lists i bs Hi) at 1.
  rewrite concat_app. reflexivity.
Qed.

(** C7. Whatever the order in which the workers run the tasks, what the
    stream yields is the concatenation, in manifest order, of one list of
    batches per shard: list [i] belongs to entry [i] of the manifest, and
    within it batch [k] is the slice of the shard's samples that starts
    at sample [k * batch_size], so that offsets increase along the list. *)
Theorem batches_in_manifest_order (sched : list nat) (w : World) :
  let out := fst (stream_batches E self sched w) in
  exists rs : list (list DataBatch),
    yielded out = concat rs
    /\ forall i r, rs !! i = Some r ->
         exists ds shards shard u h w0,
           getitem (manifest self) "datasets" = Ok ds
           /\ iterate ds = Ok shards
           /\ shards !! i = Some shard
           /\ getitem shard "uri" = Ok u
           /\ getitem shard "hash" = Ok h
           /\ (r = []
               \/ exists p w1 data,
                    _fetch_shard E self u h w0 = (Ok p, w1)
                    /\ fs w1 !! p = Some (File data)
                    /\ forall k b, r !! k = Some b ->
                         b = {[ "features" :=
                                 take (Z.to_nat (batch_size self))
                                      (drop (k * Z.to_nat (batch_size self))
                                            (Np.chunk4 data)) ]}).
Proof.
  intros out. subst out. unfold stream_batches.
  assert (forall st : stream_result * World, yielded (fst st) = [] ->
            exists rs : list (list DataBatch),
              yielded (fst st) = concat rs
              /\ forall i r, rs !! i = Some r -> False) as Hnil.
  { intros st Hst. exists []. split; [exact Hst|].
    intros i r Hi. now rewrite lookup_nil in Hi. }
  destruct (max_workers self <=? 0).
  { destruct (Hnil (stopped (Raise ValueError "max_workers must be greater than 0"), w)
                eq_refl) as (rs & Hy & Hf).
    exists rs. split; [exact Hy|]. intros i r Hi. destruct (Hf i r Hi). }
  destruct (getitem (manifest self) "datasets") as [ds|e] eqn:Hds.
  2: { exists []. split; [reflexivity|]. intros i r Hi. now rewrite lookup_nil in Hi. }
  cbn [mbind result_bind].
  destruct (iterate ds) as [shards|e] eqn:Hit.
  2: { exists []. split; [reflexivity|]. intros i r Hi. now rewrite lookup_nil in Hi. }
  destruct (submit_all shards) as [tasks failure] eqn:Hsub.
  destruct (submit_all_tasks shards tasks failure Hsub) as [Htasks _].
  destruct (pool_results tasks sched w) as (rs & Hmap & Hrs & Hr).
  destruct (run_pool E self sched tasks w) as [futures w'] eqn:Hpool.
  destruct failure as [e|].
  { exists []. split; [reflexivity|]. intros i r Hi. now rewrite lookup_nil in Hi. }
  cbn [fst] in Hmap |- *. rewrite Hmap, drain_all_ok. cbn [yielded].
  exists rs. split; [reflexivity|].
  intros i r Hi. destruct (Hr i r Hi) as (u & h & w0 & Ht & ->).
  destruct (Htasks i u h Ht) as (shard & Hs & Hu & Hh).
  exists ds, shards, shard, u, h, w0.
  repeat (split; [first [assumption|reflexivity]|]).
  unfold shard_batches.
  destruct (_fetch_shard E self u h w0) as [[p|e] w1] eqn:Hfetch; [|now left].
  destruct (_load_and_batch self p w1) as [[bs|e] w2] eqn:Hload; [|now left].
  destruct (load_and_batch_shape p w1 w2 bs Hload) as [->|(data & Hfs & Hk)];
    [now left|].
  right. exists p, w1, data. auto.
Qed.

End StreamFacts.

(** ** Manifest parsing and initialization *)

Section ManifestFacts.

Variable E : Env.

Lemma all_contain_true (key : string) (items : list pyval) :
  all_contain key items = Ok true <->
  Forall (fun item => contains key item = Ok true) items.
Proof.
  induction items as [|item rest IH]; cbn [all_contain].
  - split; [constructor|reflexivity].
  - destruct (contains key item) as [[|]|e] eqn:Hc.
    + rewrite IH. split.
      * intros H. constructor; assumption.
      * intros H. now inversion H.
    + split; [discriminate|]. intros H. inversion H. congruence.
    + split; [discriminate|]. intros H. inversion H. congruence.
Qed.

Lemma contains_dict (key : string) (d : list (string * pyval)) :
  contains key (PDict d) = Ok true <-> is_Some (dict_get key d).
Proof.
  cbn [contains]. split.
  - intros H. injection H as H. now apply bool_decide_eq_true in H.
  - intros H. f_equal. now apply bool_decide_eq_true.
Qed.

Lemma all_contain_missing (key : string) (items : list pyval) :
  Forall is_dict items ->
  Exists (lacks_key key) items ->
  all_contain key items = Ok false.
Proof.
  induction 1 as [|item rest [d ->] _ IH]; intros Hex.
  - inversion Hex.
  - cbn [all_contain contains].
    destruct (dict_get key d) as [v|] eqn:Hg.
    + rewrite bool_decide_eq_true_2 by eauto. apply IH.
      inversion Hex as [? ? (d' & Heq & Hnone)|]; [|assumption].
      injection Heq as <-. congruence.
    + rewrite bool_decide_eq_false_2; [reflexivity|].
      intros [x Hx]. discriminate.
Qed.

(** A successful parse went through every check of the [try] block. *)
Lemma parse_ok_inv (raw : string) (m : pyval) :
  _parse_manifest E raw = Ok m ->
  json_loads E raw = Some m
  /\ contains "datasets" m = Ok true
  /\ exists ds items,
       getitem m "datasets" = Ok ds
       /\ iterate ds = Ok items
       /\ all_contain "hash" items = Ok true.
Proof.
  unfold _parse_manifest, py_assert. unfold mbind, mret, result_bind, result_ret.
  destruct (json_loads E raw) as [m'|]; [|discriminate].
  destruct (contains "datasets" m') as [[|]|e] eqn:Hc;
    [|discriminate|destruct (cls e); discriminate].
  destruct (getitem m' "datasets") as [ds|e] eqn:Hg;
    [|destruct (cls e); discriminate].
  destruct (iterate ds) as [items|e] eqn:Hi;
    [|destruct (cls e); discriminate].
  destruct (all_contain "hash" items) as [[|]|e] eqn:Ha;
    [|discriminate|destruct (cls e); discriminate].
  intros H. injection H as <-. eauto 10.
Qed.

Lemma parse_accepts (raw : string) (d : list (string * pyval)) (shards : list pyval) :
  json_loads E raw = Some (PDict d) ->
  dict_get "datasets" d = Some (PList shards) ->
  Forall (has_key "hash") shards ->
  _parse_manifest E raw = Ok (PDict d).
Proof.
  intros Hj Hd Hall. unfold _parse_manifest, py_assert.
  unfold mbind, mret, result_bind, result_ret. rewrite Hj.
  cbn [contains getitem]. rewrite Hd.
  rewrite bool_decide_eq_true_2 by eauto. cbn [iterate].
  assert (all_contain "hash" shards = Ok true) as ->; [|reflexivity].
  apply all_contain_true. eapply Forall_impl; [exact Hall|].
  intros item (ed & -> & Hk). now apply contains_dict.
Qed.

(** C1, on the code. With chain verification enabled, [initialize]
    succeeds for every manifest that loads: [_verify_manifest_on_chain]
    computes no digest and asks no authority, it appends one log line and
    returns, and the loaded manifest stays on the object. *)
Theorem initialize_accepts_every_loaded_manifest
    (self : SecureDataLoader) (w w1 : World) (m : pyval) :
  verify_chain self = true ->
  _load_manifest E self w = (Ok m, w1) ->
  initialize E self w
  = (Ok tt, set_manifest self m,
     mkWorld (fs w1) (net w1) (slept w1)
             (log w1 ++ [(INFO, "Manifest blockchain verification passed")])).
Proof.
  intros Hv Hl. unfold initialize. rewrite Hl.
  cbn [verify_chain set_manifest]. rewrite Hv. reflexivity.
Qed.

(** C8, as the code has it. [_parse_manifest] raises ValueError("Invalid
    JSON in manifest") for every document that is not valid JSON,
    ValueError("Manifest validation failed: Invalid manifest structure")
    for every JSON object without a "datasets" member, and
    ValueError("Manifest validation failed: Missing hashes") for every
    JSON object whose "datasets" member is an array of objects one of
    which has no "hash" member; none of these returns a manifest. *)
Theorem parse_rejects_malformed_and_hashless (raw : string) :
  (json_loads E raw = None ->
   _parse_manifest E raw = Err (Raise ValueError "Invalid JSON in manifest"))
  /\ (forall d,
        json_loads E raw = Some (PDict d) ->
        dict_get "datasets" d = None ->
        _parse_manifest E raw
        = Err (Raise ValueError
                 "Manifest validation failed: Invalid manifest structure"))
  /\ (forall d shards,
        json_loads E raw = Some (PDict d) ->
        dict_get "datasets" d = Some (PList shards) ->
        Forall is_dict shards ->
        Exists (lacks_key "hash") shards ->
        _parse_manifest E raw
        = Err (Raise ValueError "Manifest validation failed: Missing hashes")).
Proof.
  unfold _parse_manifest, py_assert. unfold mbind, mret, result_bind, result_ret.
  split; [|split].
  - intros ->. reflexivity.
  - intros d -> Hd. cbn [contains]. rewrite Hd.
    rewrite bool_decide_eq_false_2; [reflexivity|].
    intros [x Hx]. discriminate.
  - intros d shards -> Hd Hall Hex. cbn [contains getitem]. rewrite Hd.
    rewrite bool_decide_eq_true_2 by eauto. cbn [iterate].
    now rewrite (all_contain_missing "hash" shards Hall Hex).
Qed.

(** C9, as the code has it. A manifest that [_parse_manifest] returns is
    the decoded document, a JSON object with a "datasets" member; every
    item met when iterating that member contains "hash", so that every
    entry that is an object has a "hash" member. Nothing is checked about
    the number of entries, about "uri", or about the values. *)
Theorem loaded_manifest_has_hashed_entries (raw : string) (m : pyval) :
  _parse_manifest E raw = Ok m ->
  json_loads E raw = Some m
  /\ exists d ds items,
       m = PDict d
       /\ dict_get "datasets" d = Some ds
       /\ iterate ds = Ok items
       /\ Forall (fun item => contains "hash" item = Ok true) items
       /\ forall ed, PDict ed ∈ items -> is_Some (dict_get "hash" ed).
Proof.
  intros Hp. destruct (parse_ok_inv raw m Hp) as (Hj & Hc & ds & items & Hg & Hi & Ha).
  split; [exact Hj|].
  apply all_contain_true in Ha.
  destruct m as [| | | | s | l | d]; try discriminate.
  exists d, ds, items. cbn [getitem] in Hg.
  destruct (dict_get "datasets" d) as [x|] eqn:Hd; [|discriminate].
  injection Hg as ->.
  repeat (split; [first [assumption|reflexivity]|]).
  intros ed Hin. rewrite Forall_forall in Ha.
  apply contains_dict. apply Ha. exact Hin.
Qed.

End ManifestFacts.

Section SubmissionFacts.

Variable E : Env.
Variable self : SecureDataLoader.

Lemma submit_all_key_error (shards : list pyval) :
  Forall (has_key "hash") shards ->
  Exists (lacks_key "uri") shards ->
  snd (submit_all shards) = Some (Raise KeyError "'uri'").
Proof.
  induction 1 as [|shard rest (d & -> & [hv Hh]) _ IH]; intros Hex.
  - inversion Hex.
  - cbn [submit_all getitem]. rewrite Hh.
    destruct (dict_get "uri" d) as [u|] eqn:Hu; [|reflexivity].
    destruct (submit_all rest) as [tasks failure]. cbn [snd] in *.
    apply IH. inversion Hex as [? ? (d' & Heq & Hnone)|]; [|assumption].
    injection Heq as <-. congruence.
Qed.

(** C10. A manifest whose entries all have a "hash" member, one of them
    having no "uri" member, is accepted by [_parse_manifest]; the stream
    over it then ends with KeyError('uri'), raised by the submission loop,
    and has yielded no batch at all, whatever the other shards hold. *)
Theorem missing_uri_aborts_stream
    (raw : string) (d : list (string * pyval)) (shards : list pyval)
    (sched : list nat) (w : World) :
  json_loads E raw = Some (PDict d) ->
  dict_get "datasets" d = Some (PList shards) ->
  Forall (has_key "hash") shards ->
  Exists (lacks_key "uri") shards ->
  manifest self = PDict d ->
  0 < max_workers self ->
  _parse_manifest E raw = Ok (PDict d)
  /\ fst (stream_batches E self sched w) = mkStream [] (Some (Raise KeyError "'uri'")).
Proof.
  intros Hj Hd Hall Hex Hm Hw. split; [now apply (parse_accepts E raw d shards)|].
  unfold stream_batches.
  replace (max_workers self <=? 0) with false by (symmetry; apply Z.leb_gt; lia).
  rewrite Hm. cbn [getitem]. rewrite Hd. cbn [mbind result_bind iterate].
  pose proof (submit_all_key_error shards Hall Hex) as Hs.
  destruct (submit_all shards) as [tasks failure]. cbn [snd] in Hs. subst failure.
  destruct (run_pool E self sched tasks w) as [futures w']. reflexivity.
Qed.

End SubmissionFacts.

(** ** The statements, run on concrete surroundings *)

Section Runs.

Import Demo.

(** C2 at a concrete input: the cache holds the three samples of shard a
    under its name, the expected hash is their digest, and the fetch
    raises instead of returning the path. *)
Lemma cache_hit_raises_attribute_error_run :
  fs cached_world !! path_a = Some (File three)
  /\ PStr (hex three) = PStr (hex (sha3_256 offline three))
  /\ _fetch_shard offline (loader PNone) (PStr uri_a) (PStr (hex three)) cached_world
     = (Err (Raise AttributeError
               "'SecureDataLoader' object has no attribute '_generate_hash'"),
        cached_world)
  /\ fst (_process_shard offline (loader PNone) (PStr uri_a) (PStr (hex three))
                         cached_world) = Ok [].
Proof.
  split; [reflexivity|]. split; [reflexivity|].
  destruct (cache_hit_raises_attribute_error offline (loader PNone)
              uri_a (PStr (hex three)) three cached_world eq_refl eq_refl)
    as [Hfetch Hprocess].
  split; [exact Hfetch|]. now rewrite Hprocess.
Defined.

Lemma fetch_unavailable_iff_three_failed_attempts_run :
  let r := _fetch_shard (env corrupt_twice) (loader PNone) (PStr uri_a)
                        (PStr (hex three)) empty_world in
  outcome (env corrupt_twice) (loader PNone) uri_a (PStr (hex three)) 2 = Verified three
  /\ fst r = Ok path_a
  /\ fs (snd r) !! path_a = Some (File three)
  /\ net (snd r) = [uri_a; uri_a; uri_a].
Proof.
  split; [reflexivity|].
  apply (proj2 (fetch_unavailable_iff_three_failed_attempts
                  (env corrupt_twice) (loader PNone) uri_a (PStr (hex three))
                  empty_world) 2%nat three).
  - reflexivity.
  - lia.
  - intros [|[|j]] Hj; [reflexivity|reflexivity|lia].
  - reflexivity.
Defined.

(** C5 fails as stated, twice over. With two corrupted payloads and then
    a good one, the first two attempts fail and the third succeeds after
    exactly three transport calls, and nothing was slept: the waits of 1s
    and 2s are not there. With a transport that always refuses, the waits
    are 1, 2 and 4: the last one follows the final failed attempt. *)
Lemma backoff_only_between_failed_attempts_fails :
  let h := PStr (hex three) in
  let r1 := _fetch_shard (env corrupt_twice) (loader PNone) (PStr uri_a) h
                         empty_world in
  let r2 := _fetch_shard offline (loader PNone) (PStr uri_a) h empty_world in
  attempt_failed (env corrupt_twice) (loader PNone) uri_a h 0 = true
  /\ attempt_failed (env corrupt_twice) (loader PNone) uri_a h 1 = true
  /\ attempt_failed (env corrupt_twice) (loader PNone) uri_a h 2 = false
  /\ fst r1 = Ok path_a
  /\ net (snd r1) = [uri_a; uri_a; uri_a]
  /\ slept (snd r1) = []
  /\ fst r2 = Err (Raise IOError
                     "Failed to download shard after 3 attempts: https://h/a.bin")
  /\ net (snd r2) = [uri_a; uri_a; uri_a]
  /\ slept (snd r2) = [1; 2; 4].
Proof. repeat split; reflexivity. Qed.

Lemma backoff_after_each_raising_attempt_run :
  let h := PStr (hex three) in
  let r := _fetch_shard (env refused_twice) (loader PNone) (PStr uri_a) h
                        empty_world in
  cache_state_of empty_world path_a = Absent
  /\ fst r = Ok path_a
  /\ net (snd r) = [uri_a; uri_a; uri_a]
  /\ slept (snd r) = [1; 2].
Proof.
  split; [reflexivity|].
  exact (proj2 (proj2 (backoff_after_each_raising_attempt
                         (env refused_twice) (loader PNone) uri_a
                         (PStr (hex three)) empty_world eq_refl))
               (Raise TransportError "connection refused")
               (Raise TransportError "connection refused")
               three eq_refl eq_refl eq_refl).
Defined.

(** C4 at a concrete input: of two shards the transport refuses the
    first in all three attempts and serves the second; the pool runs the
    second task first. The first shard yields nothing, and the stream
    yields the three batches of the second. *)
Lemma failed_shard_yields_nothing_others_proceed_run :
  let self := loader two_shards in
  let out := fst (stream_batches served_b self [1; 0]%nat empty_world) in
  let lists := stream_lists served_b self [1; 0]%nat empty_world in
  submission_error self = None
  /\ task_world served_b self [1; 0]%nat empty_world 1 = empty_world
  /\ task_world served_b self [1; 0]%nat empty_world 0
     = snd (_process_shard served_b self (PStr "file://b.bin") (PStr (hex five))
                           empty_world)
  /\ fst (_fetch_shard served_b self (PStr "file://a.bin") (PStr (hex three))
                       (task_world served_b self [1; 0]%nat empty_world 0))
     = Err (unavailable "file://a.bin")
  /\ raised out = None
  /\ lists = [[]; batches_of 2 (Np.chunk4 five)]
  /\ yielded out = batches_of 2 (Np.chunk4 five)
  /\ length (yielded out) = 3%nat.
Proof.
  intros self out lists. split; [reflexivity|]. split; [reflexivity|].
  split; [reflexivity|]. split; [reflexivity|].
  destruct (failed_shard_yields_nothing_others_proceed
              served_b self [1; 0]%nat empty_world) as (Hraised & Hrest).
  destruct (Hrest eq_refl) as (Hy & _ & _).
  split; [exact Hraised|]. split; [reflexivity|].
  fold out in Hy. rewrite Hy. split; reflexivity.
Defined.

(** C6 at a concrete input: the second of two shards holds five samples,
    the batch size is 2, and the stream yields three batches for it. *)
Lemma fetched_shard_yields_ceil_batches_run :
  let self := loader two_shards in
  let w0 := task_world served_b self [1; 0]%nat empty_world 1 in
  let r := _fetch_shard served_b self (PStr "file://b.bin") (PStr (hex five)) w0 in
  let lists := stream_lists served_b self [1; 0]%nat empty_world in
  submission_error self = None
  /\ r = (Ok "data_cache/b.bin", snd r)
  /\ fs (snd r) !! "data_cache/b.bin" = Some (File five)
  /\ length five = (4 * 5)%nat
  /\ 0 < batch_size self
  /\ exists bs : list DataBatch,
       yielded (fst (stream_batches served_b self [1; 0]%nat empty_world))
       = (concat (take 1 lists) ++ bs ++ concat (drop 2 lists))%list
       /\ lists !! 1%nat = Some bs
       /\ Z.of_nat (length bs) = 3.
Proof.
  intros self w0 r lists. split; [reflexivity|]. split; [reflexivity|].
  split; [reflexivity|]. split; [reflexivity|]. split; [reflexivity|].
  destruct (fetched_shard_yields_ceil_batches
              served_b self [1; 0]%nat empty_world 1%nat
              (shard "file://b.bin" (hex five))
              (PStr "file://b.bin") (PStr (hex five))
              (snd r) "data_cache/b.bin" five 5%nat
              eq_refl eq_refl eq_refl eq_refl eq_refl eq_refl eq_refl eq_refl)
    as (bs & Hy & Hi & Hlen & _).
  exists bs. split; [exact Hy|]. split; [exact Hi|exact Hlen].
Defined.

Lemma batches_in_manifest_order_run :
  exists rs : list (list DataBatch),
    yielded (fst (stream_batches served_b (loader two_shards) [1; 0]%nat
                                 empty_world)) = concat rs.
Proof.
  destruct (batches_in_manifest_order served_b (loader two_shards) [1; 0]%nat
                                      empty_world) as (rs & Hy & _).
  exists rs. exact Hy.
Defined.

(** C1 at a concrete input: the authority has registered nothing, chain
    verification is on, and [initialize] returns normally. *)
Lemma initialize_accepts_every_loaded_manifest_run :
  let self := loader PNone in
  let w := manifest_world good_text in
  verify_chain self = true
  /\ fst (_load_manifest offline self w)
     = Ok (PDict [("datasets", PList [shard "file://a.bin" (hex three)])])
  /\ fst (fst (initialize offline self w)) = Ok tt
  /\ manifest (snd (fst (initialize offline self w)))
     = PDict [("datasets", PList [shard "file://a.bin" (hex three)])].
Proof.
  intros self w. split; [reflexivity|]. split; [reflexivity|].
  rewrite (initialize_accepts_every_loaded_manifest offline self w
             (snd (_load_manifest offline self w))
             (PDict [("datasets", PList [shard "file://a.bin" (hex three)])])
             eq_refl eq_refl).
  split; reflexivity.
Defined.

(** C8 fails as stated: a document whose "datasets" member is an object,
    not an array, is returned as a manifest with nothing in it, and the
    document [5] ends in a TypeError, not in a ValueError. *)
Lemma parse_accepts_datasets_that_is_no_array :
  _parse_manifest offline no_array_text = Ok (PDict [("datasets", PDict [])])
  /\ cls <$> (match _parse_manifest offline "5" with
              | Err e => Some e
              | Ok _ => None
              end) = Some TypeError.
Proof. split; reflexivity. Qed.

Lemma parse_rejects_malformed_and_hashless_run :
  _parse_manifest offline "{not json"
  = Err (Raise ValueError "Invalid JSON in manifest")
  /\ _parse_manifest offline "{}"
     = Err (Raise ValueError "Manifest validation failed: Invalid manifest structure")
  /\ _parse_manifest offline no_hash_text
     = Err (Raise ValueError "Manifest validation failed: Missing hashes").
Proof.
  split; [|split].
  - exact (proj1 (parse_rejects_malformed_and_hashless offline "{not json") eq_refl).
  - exact (proj1 (proj2 (parse_rejects_malformed_and_hashless offline "{}"))
                 [] eq_refl eq_refl).
  - refine (proj2 (proj2 (parse_rejects_malformed_and_hashless offline no_hash_text))
                  [("datasets", PList [PDict [("uri", PStr "file://a.bin")]])]
                  [PDict [("uri", PStr "file://a.bin")]]
                  eq_refl eq_refl _ _).
    + constructor; [eexists; reflexivity|constructor].
    + constructor. eexists. split; reflexivity.
Defined.

(** C9 fails as stated: the document with an empty "datasets" array loads,
    and so does one whose only entry has an empty hash and no uri. *)
Lemma parse_accepts_empty_and_uriless_manifests :
  _parse_manifest offline empty_text = Ok (PDict [("datasets", PList [])])
  /\ _parse_manifest offline bare_hash_text
     = Ok (PDict [("datasets", PList [PDict [("hash", PStr "")]])]).
Proof. split; reflexivity. Qed.

Lemma loaded_manifest_has_hashed_entries_run :
  let m := PDict [("datasets", PList [shard "file://a.bin" (hex three)])] in
  _parse_manifest offline good_text = Ok m
  /\ json_loads offline good_text = Some m.
Proof.
  intros m. split; [reflexivity|].
  exact (proj1 (loaded_manifest_has_hashed_entries offline good_text m eq_refl)).
Defined.

Lemma missing_uri_aborts_stream_run :
  let d := [("datasets",
             PList [shard "file://b.bin" (hex five); PDict [("hash", PStr "00")]])] in
  json_loads served_b no_uri_text = Some (PDict d)
  /\ _parse_manifest served_b no_uri_text = Ok (PDict d)
  /\ fst (stream_batches served_b (loader (PDict d)) [] empty_world)
     = mkStream [] (Some (Raise KeyError "'uri'")).
Proof.
  intros d. split; [reflexivity|].
  refine (missing_uri_aborts_stream served_b (loader (PDict d)) no_uri_text d
            [shard "file://b.bin" (hex five); PDict [("hash", PStr "00")]]
            [] empty_world eq_refl eq_refl _ _ eq_refl eq_refl).
  - constructor; [|constructor; [|constructor]].
    + eexists. split; [reflexivity|]. eexists. reflexivity.
    + eexists. split; [reflexivity|]. eexists. reflexivity.
  - apply Exists_cons_tl. constructor. eexists. split; reflexivity.
Defined.

End Runs.

(** * Further properties of the loader *)

(** ** What a fetch leaves behind *)

Section FetchWorld.

Variable E : Env.
Variable self : SecureDataLoader.

Lemma is_str_true (s : string) (v : pyval) : is_str s v = true <-> v = PStr s.
Proof.
  destruct v; cbn [is_str]; try (split; [discriminate|intros H; discriminate H]).
  rewrite String.eqb_eq. split; [now intros ->|now intros [= ->]].
Qed.

Lemma fetch_shard_not_str (u h : pyval) (w : World) :
  (forall uri, u <> PStr uri) ->
  _fetch_shard E self u h w
  = (Err (Raise TypeError
            ("expected str, bytes or os.PathLike object, not " ++ type_name u)), w).
Proof.
  intros Hu. unfold _fetch_shard. unfold mbind at 1, M_bind, bind, lift.
  destruct u; try reflexivity. now destruct (Hu s).
Qed.

Lemma first_verified_verified (uri : string) (h : pyval) (n : nat) (data : bytes) :
  first_verified E self uri h n = Some data -> _verify_data_hash E data h = true.
Proof.
  assert (forall k d, outcome E self uri h k = Verified d ->
                      _verify_data_hash E d h = true) as Hv.
  { intros k d. unfold outcome.
    destruct (transport E uri k) as [x|e]; [|discriminate].
    destruct (_verify_data_hash E x h) eqn:Hx; [|discriminate].
    destruct (OS.has_nul _); [discriminate|]. now intros [= <-]. }
  unfold first_verified.
  destruct (outcome E self uri h n) eqn:O1; try (intros [= <-]; eauto);
    destruct (outcome E self uri h (S n)) eqn:O2; try (intros [= <-]; eauto);
    destruct (outcome E self uri h (S (S n))) eqn:O3; try (intros [= <-]; eauto);
    discriminate.
Qed.

(** After a cache miss: the files and the log that [_fetch_shard] leaves. *)
Lemma fetch_miss_world (uri : string) (h : pyval) (w : World) :
  cache_miss self w uri ->
  let n := length (net w) in
  let r := _fetch_shard E self (PStr uri) h w in
  fs (snd r) = fs_after_miss E self w uri h
  /\ log (snd r) = (log w ++ warnings E self uri h n (attempts_made E self uri h n))%list.
Proof.
  intros Hm n r. subst r n. unfold fs_after_miss.
  rewrite (fetch_shard_miss E self uri h w Hm).
  set (p := cache_path_of self uri) in *.
  unfold first_verified, attempts_made, warnings, attempt_failed.
  cbn [loop_spec].
  destruct (outcome E self uri h (length (net w))) as [e1| |d1] eqn:O1;
    cbn [net after_raise after_mismatch after_write slept fs log fst snd negb];
    rewrite ?length_snoc.
  3: { cbn [seq flat_map]. rewrite Nat.add_0_r, O1. cbn. now rewrite app_nil_r. }
  all: destruct (outcome E self uri h (S (length (net w)))) as [e2| |d2] eqn:O2;
    cbn [loop_spec net after_raise after_mismatch after_write slept fs log fst snd negb];
    rewrite ?length_snoc, ?O2.
  all: try (destruct (outcome E self uri h (S (S (length (net w))))) as [e3| |d3] eqn:O3;
    cbn [loop_spec net after_raise after_mismatch after_write slept fs log fst snd negb]).
  all: cbn [seq flat_map];
    rewrite ?Nat.add_0_r, ?Nat.add_1_r;
    replace (length (net w) + 2)%nat with (S (S (length (net w)))) by lia;
    rewrite ?O1, ?O2, ?O3;
    cbn [app]; rewrite <- ?app_assoc, ?app_nil_r; cbn [app]; auto.
Qed.

Lemma cache_miss_cases (w : World) (uri : string) :
  cache_miss self w uri \/ ~ cache_miss self w uri.
Proof.
  unfold cache_miss.
  destruct (cache_state_of w (cache_path_of self uri)); auto; right; discriminate.
Qed.

(** What a successful fetch returns, for any arguments. *)
Lemma fetch_ok_inv (u h : pyval) (w w' : World) (p : string) :
  _fetch_shard E self u h w = (Ok p, w') ->
  exists uri data,
    u = PStr uri
    /\ p = cache_path_of self uri
    /\ fs w' !! p = Some (File data)
    /\ h = PStr (hex (sha3_256 E data))
    /\ cache_miss self w uri.
Proof.
  intros Hf.
  assert (exists uri, u = PStr uri) as [uri ->].
  { destruct u; try (rewrite fetch_shard_not_str in Hf by discriminate;
                     discriminate Hf). eauto. }
  exists uri.
  destruct (cache_miss_cases w uri) as [Hm|Hm].
  - destruct (fetch_miss_summary E self uri h w Hm) as (Hr & Hfs & _).
    rewrite Hf in Hr, Hfs. cbn [fst snd] in Hr, Hfs.
    destruct (first_verified E self uri h (length (net w))) as [data|] eqn:Hv;
      [|discriminate].
    injection Hr as ->. exists data.
    apply first_verified_verified in Hv. apply is_str_true in Hv. auto.
  - destruct (fetch_shard_no_miss E self uri h w Hm) as (e & He & _).
    rewrite He in Hf. discriminate.
Qed.

(** X1. Whenever [_fetch_shard] returns a path, the uri was a string, the
    path is the cache path of that uri, and the file at that path holds
    bytes whose SHA3-256 hex digest is the expected hash: no unverified
    payload is ever handed on. *)
Theorem fetch_returns_verified_file (u h : pyval) (w w' : World) (p : string) :
  _fetch_shard E self u h w = (Ok p, w') ->
  exists uri data,
    u = PStr uri
    /\ p = cache_path_of self uri
    /\ fs w' !! p = Some (File data)
    /\ h = PStr (hex (sha3_256 E data)).
Proof.
  intros Hf.
  destruct (fetch_ok_inv u h w w' p Hf) as (uri & data & H1 & H2 & H3 & H4 & _).
  eauto 6.
Qed.

(** X2. A shard is fetched at most once. The cache is keyed by the last
    component of the uri, and once a fetch has returned, the file it
    wrote stands in the way of every later fetch for a uri with that last
    component, the same uri and the same expected hash among them: the
    later fetch raises AttributeError from the cache test, calls no
    transport and changes nothing, and its task logs the error and hands
    no batch on. *)
Theorem fetched_shard_is_never_fetched_again
    (uri1 uri2 : string) (h1 h2 : pyval) (w w' : World) (p : string) :
  _fetch_shard E self (PStr uri1) h1 w = (Ok p, w') ->
  PathLib.name uri2 = PathLib.name uri1 ->
  _fetch_shard E self (PStr uri2) h2 w'
  = (Err (Raise AttributeError
            "'SecureDataLoader' object has no attribute '_generate_hash'"), w')
  /\ _process_shard E self (PStr uri2) h2 w'
     = (Ok [], mkWorld (fs w') (net w') (slept w') (log w' ++ [cache_failure])).
Proof.
  intros Hf Hname.
  destruct (fetch_ok_inv _ _ _ _ _ Hf) as (uri & data & [= <-] & -> & Hfs & _).
  assert (cache_path_of self uri2 = cache_path_of self uri1) as Hp
    by (unfold cache_path_of; now rewrite Hname).
  rewrite <- Hp in Hfs.
  pose proof (fetch_shard_occupied E self uri2 h2 w' data Hfs) as H2.
  split; [exact H2|]. now rewrite process_shard_cases, H2.
Qed.

(** One fetch leaves every file and directory that was there as it was. *)
Lemma fetch_keeps_nodes (u h : pyval) (w : World) (q : string) (n : node) :
  fs w !! q = Some n ->
  fs (snd (_fetch_shard E self u h w)) !! q = Some n.
Proof.
  intros Hq.
  destruct u;
    try (rewrite fetch_shard_not_str by discriminate; exact Hq).
  rename s into uri.
  destruct (cache_miss_cases w uri) as [Hm|Hm].
  - destruct (fetch_miss_world uri h w Hm) as (Hw & _). rewrite Hw.
    unfold fs_after_miss.
    destruct (first_verified E self uri h (length (net w))); [|exact Hq].
    rewrite lookup_insert_ne; [exact Hq|].
    intros <-. apply cache_state_absent in Hm as [Hm _]. congruence.
  - destruct (fetch_shard_no_miss E self uri h w Hm) as (e & -> & _). exact Hq.
Qed.

Lemma fetch_touches_only_the_cache_path_helper
    (u h : pyval) (w : World) (q : string) :
  (forall uri, u = PStr uri -> q <> cache_path_of self uri) ->
  fs (snd (_fetch_shard E self u h w)) !! q = fs w !! q.
Proof.
  intros Hq.
  destruct u;
    try (rewrite fetch_shard_not_str by discriminate; reflexivity).
  rename s into uri. specialize (Hq uri eq_refl).
  destruct (cache_miss_cases w uri) as [Hm|Hm].
  - destruct (fetch_miss_world uri h w Hm) as (Hw & _). rewrite Hw.
    unfold fs_after_miss.
    destruct (first_verified E self uri h (length (net w))); [|reflexivity].
    now rewrite lookup_insert_ne.
  - now destruct (fetch_shard_no_miss E self uri h w Hm) as (e & -> & _).
Qed.

(** X4. [_fetch_shard] creates, changes or deletes no file but the one at
    the cache path of its uri; with a uri that is no string it changes
    nothing at all. *)
Theorem fetch_touches_only_the_cache_path (u h : pyval) (w : World) (q : string) :
  (forall uri, u = PStr uri -> q <> cache_path_of self uri) ->
  fs (snd (_fetch_shard E self u h w)) !! q = fs w !! q.
Proof. exact (fetch_touches_only_the_cache_path_helper u h w q). Qed.

Lemma waits_bound (uri : string) (h : pyval) (n made : nat) :
  (made <= 3)%nat ->
  (length (waits E self uri h n made) <= made)%nat
  /\ 0 <= total (waits E self uri h n made) <= 7.
Proof.
  intros Hm. unfold waits.
  destruct made as [|[|[|[|made]]]]; try lia; cbn [seq flat_map];
    repeat (destruct (attempt_raised E self uri h _)); cbn; lia.
Qed.

Lemma attempts_made_bounds (uri : string) (h : pyval) (n : nat) :
  (1 <= attempts_made E self uri h n <= 3)%nat.
Proof.
  unfold attempts_made.
  destruct (attempt_failed E self uri h n), (attempt_failed E self uri h (S n)); cbn; lia.
Qed.

(** What one fetch adds to the transport and sleep traces, for any
    arguments. *)
Lemma fetch_traces (u h : pyval) (w : World) :
  exists (k : nat) (ss : list Z),
    (forall uri, u = PStr uri ->
       net (snd (_fetch_shard E self u h w)) = (net w ++ replicate k uri)%list
       /\ (k = 0%nat <-> ~ cache_miss self w uri))
    /\ length (net (snd (_fetch_shard E self u h w))) = (length (net w) + k)%nat
    /\ slept (snd (_fetch_shard E self u h w)) = (slept w ++ ss)%list
    /\ (k <= 3)%nat
    /\ (length ss <= k)%nat
    /\ 0 <= total ss <= 7.
Proof.
  destruct u;
    try (exists 0%nat, []; rewrite fetch_shard_not_str by discriminate;
         cbn [snd replicate total fold_right length];
         rewrite ?app_nil_r, ?Nat.add_0_r;
         repeat split; try discriminate; try lia).
  rename s into uri.
  destruct (cache_miss_cases w uri) as [Hm|Hm].
  - destruct (fetch_miss_summary E self uri h w Hm) as (_ & _ & Hn & Hs).
    pose proof (attempts_made_bounds uri h (length (net w))) as Hb.
    destruct (waits_bound uri h (length (net w))
                (attempts_made E self uri h (length (net w))) ltac:(lia)) as [Hl Ht].
    exists (attempts_made E self uri h (length (net w))),
           (waits E self uri h (length (net w)) (attempts_made E self uri h (length (net w)))).
    split; [|split; [|split; [exact Hs|split; [lia|split; [exact Hl|exact Ht]]]]].
    + intros uri' [= <-]. split; [exact Hn|]. split; [lia|]. intros H. now destruct H.
    + rewrite Hn, length_app, length_replicate. reflexivity.
  - exists 0%nat, [].
    destruct (fetch_shard_no_miss E self uri h w Hm) as (e & -> & _).
    cbn [snd replicate total fold_right length]. rewrite ?app_nil_r, ?Nat.add_0_r.
    repeat split; try lia; intros; try injection H as <-; auto.
Qed.

(** X5. One fetch calls a transport at most three times, each time with
    the shard's own uri, and not at all unless nothing is at the cache
    path (under a name that the system takes); it sleeps at most once
    per call and at most 7 seconds in all. *)
Theorem fetch_makes_at_most_three_calls (uri : string) (h : pyval) (w : World) :
  let w' := snd (_fetch_shard E self (PStr uri) h w) in
  exists (k : nat) (ss : list Z),
    net w' = (net w ++ replicate k uri)%list
    /\ slept w' = (slept w ++ ss)%list
    /\ (k <= 3)%nat
    /\ (k = 0%nat <-> ~ cache_miss self w uri)
    /\ (length ss <= k)%nat
    /\ total_sleep w' <= total_sleep w + 7.
Proof.
  intros w'. subst w'.
  destruct (fetch_traces (PStr uri) h w) as (k & ss & Hn & _ & Hs & Hk & Hl & Ht).
  destruct (Hn uri eq_refl) as [Hnet Hz].
  exists k, ss. repeat split; try assumption; try apply Hz.
  unfold total_sleep. rewrite Hs. unfold total. rewrite fold_right_app.
  fold (total ss).
  assert (forall l a, fold_right Z.add a l = fold_right Z.add 0 l + a) as Hadd.
  { induction l as [|x l IH]; intros a; cbn; [lia|]. rewrite IH. lia. }
  rewrite Hadd. lia.
Qed.

End FetchWorld.

(** ** Shards that fail, and what the log shows *)

Section ProcessWorld.

Variable E : Env.
Variable self : SecureDataLoader.

(** X6. A shard whose uri is no string, or whose cache path is a
    directory, is dropped at once: [_fetch_shard] raises a TypeError or
    an IsADirectoryError and leaves the world as it is (no download is
    tried, no file is removed), and [_process_shard] returns no batch
    after logging that exception. *)
Theorem unfetchable_shard_is_dropped_without_download
    (u h : pyval) (w : World) :
  (forall uri, u = PStr uri -> fs w !! cache_path_of self uri = Some Dir) ->
  exists e,
    _fetch_shard E self u h w = (Err e, w)
    /\ (cls e = TypeError \/ cls e = IsADirectoryError)
    /\ _process_shard E self u h w = (Ok [], logged_failure w e).
Proof.
  intros Hu.
  assert (exists e, _fetch_shard E self u h w = (Err e, w)
                    /\ (cls e = TypeError \/ cls e = IsADirectoryError))
    as (e & Hf & Hc).
  { destruct u;
      try (eexists; split;
           [apply (fetch_shard_not_str E self); discriminate|left; reflexivity]);
      [].
    exists (OS.is_a_directory (cache_path_of self s)).
    split; [|right; reflexivity].
    apply fetch_shard_not_a_file. exact (Hu s eq_refl). }
  exists e. split; [exact Hf|]. split; [exact Hc|].
  rewrite process_shard_cases, Hf. reflexivity.
Qed.

Lemma all_failed_no_verified (uri : string) (h : pyval) (n : nat) :
  first_verified E self uri h n = None ->
  attempts_made E self uri h n = 3%nat.
Proof.
  unfold first_verified, attempts_made, attempt_failed.
  destruct (outcome E self uri h n); try discriminate;
    destruct (outcome E self uri h (S n)); try discriminate;
    destruct (outcome E self uri h (S (S n))); try discriminate; reflexivity.
Qed.

(** X7. When nothing is at the cache path, the log gains one WARNING per
    attempt that raised, "Attempt <k> failed: <text of the exception>"
    with k counted from 1, in order, and nothing for an attempt whose
    payload had another digest; when no attempt is verified,
    [_process_shard] adds after them the single ERROR record that names
    the uri. *)
Theorem raising_attempts_are_logged (uri : string) (h : pyval) (w : World) :
  cache_miss self w uri ->
  let n := length (net w) in
  log (snd (_fetch_shard E self (PStr uri) h w))
  = (log w ++ warnings E self uri h n (attempts_made E self uri h n))%list
  /\ (first_verified E self uri h n = None ->
      log (snd (_process_shard E self (PStr uri) h w))
      = (log w ++ warnings E self uri h n 3
         ++ [(ERROR,
              ("Shard processing failed: Failed to download shard after 3 attempts: "
               ++ uri)%string)])%list).
Proof.
  intros Hm n.
  destruct (fetch_miss_world E self uri h w Hm) as (_ & Hl).
  destruct (fetch_miss_summary E self uri h w Hm) as (Hr & _).
  fold n in Hl, Hr. split; [exact Hl|].
  intros Hv. rewrite Hv in Hr. rewrite (all_failed_no_verified uri h n Hv) in Hl.
  rewrite process_shard_cases.
  destruct (_fetch_shard E self (PStr uri) h w) as [[p|e] w1];
    cbn [fst snd] in *; [discriminate|].
  injection Hr as ->. cbn [logged_failure log unavailable msg].
  rewrite Hl, <- app_assoc. reflexivity.
Qed.

End ProcessWorld.

(** ** What batching keeps and what it drops *)

Section BatchWorld.

Variable E : Env.
Variable self : SecureDataLoader.

Lemma load_and_batch_world (path : string) (w : World) :
  snd (_load_and_batch self path w) = w.
Proof.
  unfold _load_and_batch, Np.memmap. munfold.
  destruct (fs w !! path) as [[data|]|]; try reflexivity.
  destruct (negb _); [reflexivity|].
  destruct (Nat.eqb (length data) 0); [reflexivity|].
  destruct (Np.range _ _ _); reflexivity.
Qed.

Lemma load_and_batch_reads_fs (path : string) (w1 w2 : World) :
  fs w1 = fs w2 ->
  fst (_load_and_batch self path w1) = fst (_load_and_batch self path w2).
Proof.
  intros Hfs. unfold _load_and_batch, Np.memmap. munfold. rewrite Hfs.
  destruct (fs w2 !! path) as [[data|]|]; try reflexivity.
  destruct (negb _); [reflexivity|].
  destruct (Nat.eqb (length data) 0); [reflexivity|].
  destruct (Np.range _ _ _); reflexivity.
Qed.

Lemma chunk4_bytes (n : nat) : forall data : bytes,
  length data = (4 * n)%nat -> flat_map sample_bytes (Np.chunk4 data) = data.
Proof.
  induction n as [|n IH]; intros data Hlen.
  - destruct data; [reflexivity|discriminate].
  - destruct data as [|a [|b [|c [|d rest]]]]; cbn in Hlen; try lia.
    cbn [Np.chunk4 flat_map sample_bytes app]. do 4 f_equal. apply IH. lia.
Qed.

Lemma concat_slices {A} (l : list A) (b c : nat) :
  concat (map (fun k => take b (drop (k * b) l)) (seq 0 c)) = take (c * b) l.
Proof.
  induction c as [|c IH]; [reflexivity|].
  rewrite seq_S, map_app, concat_app, IH. cbn [map concat Nat.add].
  rewrite app_nil_r, take_take_drop. f_equal. lia.
Qed.

Lemma batches_of_features (b : Z) (samples : list float32) :
  0 < b ->
  flat_map features (batches_of b samples) = samples.
Proof.
  intros Hb. unfold batches_of. rewrite flat_map_concat_map, map_map.
  erewrite map_ext.
  2: { intros k. unfold features. rewrite lookup_singleton_eq. reflexivity. }
  cbv [default id]. rewrite concat_slices. apply take_ge.
  pose proof (ceil_div_bounds (Z.of_nat (length samples)) b Hb) as Hc.
  assert (0 <= ceil_div (Z.of_nat (length samples)) b)
    by (unfold ceil_div; apply Z.div_pos; lia).
  nia.
Qed.

Lemma flat_map_flat_map {A B C} (f : A -> list B) (g : B -> list C) (l : list A) :
  flat_map g (flat_map f l) = flat_map (fun x => flat_map g (f x)) l.
Proof.
  induction l as [|x l IH]; [reflexivity|].
  cbn [flat_map]. now rewrite flat_map_app, IH.
Qed.

(** What a successful [_load_and_batch] read, for a positive batch size. *)
Lemma load_and_batch_ok_inv (path : string) (w w' : World) (bs : list DataBatch) :
  0 < batch_size self ->
  _load_and_batch self path w = (Ok bs, w') ->
  exists data n,
    fs w !! path = Some (File data)
    /\ length data = (4 * S n)%nat
    /\ bs = batches_of (batch_size self) (Np.chunk4 data).
Proof.
  intros Hb Hload.
  destruct (fs w !! path) as [[data|]|] eqn:Hfs.
  2,3: (unfold _load_and_batch, Np.memmap in Hload; revert Hload; munfold;
        rewrite Hfs; discriminate).
  destruct (Nat.eqb (length data mod 4) 0) eqn:Hmod.
  - apply Nat.eqb_eq in Hmod. apply Nat.Div0.div_exact in Hmod.
    rewrite (load_and_batch_spec self path data (length data / 4) w Hfs Hmod Hb)
      in Hload.
    destruct (length data / 4)%nat as [|n] eqn:Hn; [discriminate|].
    cbn [Nat.eqb] in Hload. injection Hload as <- _.
    exists data, n. auto.
  - unfold _load_and_batch, Np.memmap in Hload. revert Hload. munfold.
    rewrite Hfs, Hmod. discriminate.
Qed.

(** X9. Batching loses nothing and repeats nothing: when [_load_and_batch]
    succeeds with a positive batch size, every batch has the single key
    "features", and the samples of the batches put end to end are the
    bytes of the file, from the first to the last. *)
Theorem batches_put_together_are_the_file
    (path : string) (w w' : World) (bs : list DataBatch) (data : bytes) :
  0 < batch_size self ->
  fs w !! path = Some (File data) ->
  _load_and_batch self path w = (Ok bs, w') ->
  batch_bytes bs = data
  /\ flat_map features bs = Np.chunk4 data
  /\ Forall (fun b => dom b = ({[ "features" ]} : gset string)) bs.
Proof.
  intros Hb Hfs Hload.
  destruct (load_and_batch_ok_inv path w w' bs Hb Hload)
    as (data' & n & Hfs' & Hlen & ->).
  rewrite Hfs in Hfs'. injection Hfs' as <-.
  assert (flat_map features (batches_of (batch_size self) (Np.chunk4 data))
          = Np.chunk4 data) as Hf by now apply batches_of_features.
  split; [|split; [exact Hf|]].
  - unfold batch_bytes. rewrite <- flat_map_flat_map, Hf.
    exact (chunk4_bytes (S n) data Hlen).
  - unfold batches_of. apply Forall_forall. intros b Hin.
    apply list_elem_of_In, in_map_iff in Hin as (k & <- & _).
    apply dom_singleton_L.
Qed.

(** X10. A shard that was fetched and verified but whose file is empty, or
    whose length is no multiple of four bytes, gives no batch at all: the
    whole shard is dropped with a ValueError in the log, not cut down to
    the samples that are complete. *)
Theorem ragged_shard_is_dropped_whole
    (u h : pyval) (w w1 : World) (p : string) (data : bytes) :
  _fetch_shard E self u h w = (Ok p, w1) ->
  fs w1 !! p = Some (File data) ->
  (length data mod 4 <> 0)%nat \/ data = [] ->
  exists e,
    cls e = ValueError
    /\ _process_shard E self u h w = (Ok [], logged_failure w1 e).
Proof.
  intros Hf Hfs Hbad. rewrite process_shard_cases, Hf.
  unfold _load_and_batch, Np.memmap. munfold. rewrite Hfs.
  destruct (Nat.eqb (length data mod 4) 0) eqn:Hmod; cbn [negb].
  - apply Nat.eqb_eq in Hmod. destruct Hbad as [Hbad| ->]; [contradiction|].
    cbn [length Nat.eqb]. eexists. split; [|reflexivity]. reflexivity.
  - eexists. split; [|reflexivity]. reflexivity.
Qed.

Lemma load_and_batch_nonpositive (path : string) (w w' : World) (bs : list DataBatch) :
  batch_size self <= 0 ->
  _load_and_batch self path w = (Ok bs, w') ->
  bs = [].
Proof.
  intros Hb. unfold _load_and_batch, Np.memmap, Np.range. munfold.
  destruct (fs w !! path) as [[data|]|]; try discriminate.
  destruct (negb _); [discriminate|].
  destruct (Nat.eqb (length data) 0); [discriminate|].
  destruct (batch_size self =? 0); [discriminate|].
  replace (0 <? batch_size self) with false by (symmetry; apply Z.ltb_ge; lia).
  replace (Z.to_nat (0 - Z.of_nat (length (Np.chunk4 data)))) with 0%nat by lia.
  cbn. now intros [= <- _].
Qed.

End BatchWorld.

(** ** The stream as a whole *)

Section StreamWorld.

Variable E : Env.
Variable self : SecureDataLoader.

(** What one task leaves of the world is what its fetch left, but for the
    log. *)
Lemma process_shard_world (u h : pyval) (w : World) :
  let w1 := snd (_fetch_shard E self u h w) in
  let w2 := snd (_process_shard E self u h w) in
  fs w2 = fs w1 /\ net w2 = net w1 /\ slept w2 = slept w1.
Proof.
  cbv zeta. rewrite process_shard_cases.
  destruct (_fetch_shard E self u h w) as [[p|e] w1]; cbn [snd]; [|auto].
  pose proof (load_and_batch_world self p w1) as Hw.
  destruct (_load_and_batch self p w1) as [[bs|e] w2]; cbn [snd] in *; subst;
    auto.
Qed.

(** The stream, once the manifest has been walked. *)
Lemma stream_batches_eq (sched : list nat) (w : World)
    (tasks : list task) (failure : option exn) :
  0 < max_workers self ->
  submit_all (manifest_shards self) = (tasks, failure) ->
  submission_error self = None ->
  stream_batches E self sched w
  = (drain (map (future_result (fst (run_pool E self sched tasks w)))
                (seq 0 (length tasks))),
     snd (run_pool E self sched tasks w)).
Proof.
  intros Hw Hsub Hnone.
  unfold stream_batches, manifest_shards, submission_error in *.
  replace (max_workers self <=? 0) with false in *
    by (symmetry; apply Z.leb_gt; lia).
  destruct (datasets ← getitem (manifest self) "datasets"; iterate datasets)
    as [shards|e]; [|discriminate].
  rewrite Hsub in *. cbn [snd] in Hnone. subst failure.
  now destruct (run_pool E self sched tasks w).
Qed.

(** The world the stream leaves: that of the pool run over the submitted
    tasks (none when the manifest could not be read). *)
Lemma stream_batches_world (sched : list nat) (w : World) :
  snd (stream_batches E self sched w)
  = if max_workers self <=? 0 then w
    else snd (run_pool E self sched (fst (submit_all (manifest_shards self))) w).
Proof.
  unfold stream_batches, manifest_shards.
  destruct (max_workers self <=? 0); [reflexivity|].
  destruct (datasets ← getitem (manifest self) "datasets"; iterate datasets)
    as [shards|e].
  - destruct (submit_all shards) as [tasks failure]. cbn [fst].
    destruct (run_pool E self sched tasks w) as [futures w'].
    now destruct failure.
  - cbn [submit_all fst]. unfold run_pool. cbn [length seq].
    rewrite app_nil_r. clear. induction sched as [|i rest IH]; [reflexivity|].
    cbn [run_sched]. rewrite lookup_empty, lookup_nil. exact IH.
Qed.

(** An invariant of the world that every task keeps is kept by the pool. *)
Lemma run_sched_keeps_invariant (I : World -> Prop) (tasks : list task) :
  (forall i u h w0, tasks !! i = Some (u, h) -> I w0 ->
                    I (snd (_process_shard E self u h w0))) ->
  forall sched futures w0, I w0 ->
    I (snd (run_sched E self sched tasks futures w0)).
Proof.
  intros Hstep. induction sched as [|i rest IH]; intros futures w0 Hw0;
    [exact Hw0|].
  cbn [run_sched].
  destruct (futures !! i) as [r|]; [now apply IH|].
  destruct (tasks !! i) as [[u h]|] eqn:Ht; [|now apply IH].
  pose proof (Hstep i u h w0 Ht Hw0) as Hw1.
  destruct (_process_shard E self u h w0) as [r w1]. now apply IH.
Qed.

(** The tasks are the leading entries of the manifest. *)
Lemma submitted_tasks (i : nat) (u h : pyval) :
  fst (submit_all (manifest_shards self)) !! i = Some (u, h) ->
  exists shard,
    manifest_shards self !! i = Some shard
    /\ getitem shard "uri" = Ok u
    /\ getitem shard "hash" = Ok h.
Proof.
  destruct (submit_all (manifest_shards self)) as [tasks failure] eqn:Hsub.
  destruct (submit_all_tasks (manifest_shards self) tasks failure Hsub) as [H _].
  apply H.
Qed.

Lemma submitted_tasks_length :
  (length (fst (submit_all (manifest_shards self)))
   <= length (manifest_shards self))%nat.
Proof.
  destruct (Nat.le_gt_cases (length (fst (submit_all (manifest_shards self))))
                            (length (manifest_shards self))) as [H|H]; [exact H|].
  destruct (lookup_lt_is_Some_2 (fst (submit_all (manifest_shards self)))
              (length (manifest_shards self)) H) as [[u h] Ht].
  destruct (submitted_tasks _ u h Ht) as (shard & Hs & _).
  apply lookup_lt_Some in Hs. lia.
Qed.

(** X11. The stream creates, changes or deletes no file other than the
    cache files of the shards its manifest names: a path that is the
    cache path of no entry's uri holds after the stream what it held
    before, whatever the transports answer. *)
Theorem stream_touches_only_cache_files (sched : list nat) (w : World) (q : string) :
  (forall shard uri, shard ∈ manifest_shards self ->
                     getitem shard "uri" = Ok (PStr uri) ->
                     q <> cache_path_of self uri) ->
  fs (snd (stream_batches E self sched w)) !! q = fs w !! q.
Proof.
  intros Hq. rewrite stream_batches_world.
  destruct (max_workers self <=? 0); [reflexivity|].
  unfold run_pool.
  apply (run_sched_keeps_invariant (fun w' => fs w' !! q = fs w !! q));
    [|reflexivity].
  intros i u h w0 Ht Hw0.
  destruct (process_shard_world u h w0) as (-> & _).
  rewrite fetch_touches_only_the_cache_path_helper; [exact Hw0|].
  intros uri ->. destruct (submitted_tasks i _ h Ht) as (shard & Hs & Hu & _).
  apply (Hq shard uri); [|exact Hu].
  apply list_elem_of_lookup. eauto.
Qed.

End StreamWorld.

Section StreamBounds.

Variable E : Env.
Variable self : SecureDataLoader.

(** How the stream ends: with the exception of the submission, having
    yielded nothing, or normally, having yielded what the tasks returned,
    task after task. *)
Lemma stream_result_cases (sched : list nat) (w : World) :
  match submission_error self with
  | Some e => fst (stream_batches E self sched w) = stopped e
  | None =>
      exists rs : list (list DataBatch),
        fst (stream_batches E self sched w) = mkStream (concat rs) None
        /\ length rs = length (manifest_shards self)
        /\ forall i r, rs !! i = Some r ->
             exists u h w0,
               fst (submit_all (manifest_shards self)) !! i = Some (u, h)
               /\ r = shard_batches E self u h w0
  end.
Proof.
  unfold stream_batches, submission_error, manifest_shards.
  destruct (max_workers self <=? 0); [reflexivity|].
  destruct (datasets ← getitem (manifest self) "datasets"; iterate datasets)
    as [shards|e]; [|reflexivity].
  destruct (submit_all shards) as [tasks failure] eqn:Hsub.
  destruct (submit_all_tasks shards tasks failure Hsub) as [_ Hlen].
  destruct (pool_results E self tasks sched w) as (rs & Hmap & Hrs & Hr).
  destruct (run_pool E self sched tasks w) as [futures w'].
  cbn [fst snd] in *. destruct failure as [e|]; [reflexivity|].
  exists rs. rewrite Hmap, drain_all_ok.
  split; [reflexivity|]. split; [rewrite Hrs; now apply Hlen|exact Hr].
Qed.

(** X12. The stream can end with only these exceptions, each raised
    before the first batch is yielded: the ValueError of an executor with
    no worker, a TypeError (a manifest, a "datasets" member or an entry of
    the wrong type), or a KeyError for 'datasets', 'uri' or 'hash'. The
    error of a failed download never leaves the stream. *)
Theorem stream_raises_only_submission_errors
    (sched : list nat) (w : World) (e : exn) :
  raised (fst (stream_batches E self sched w)) = Some e ->
  yielded (fst (stream_batches E self sched w)) = []
  /\ (e = Raise ValueError "max_workers must be greater than 0"
      \/ cls e = TypeError
      \/ e = Raise KeyError "'datasets'"
      \/ e = Raise KeyError "'uri'"
      \/ e = Raise KeyError "'hash'").
Proof.
  intros Hr. pose proof (stream_result_cases sched w) as Hc.
  destruct (submission_error self) as [e'|] eqn:Hs.
  2: { destruct Hc as (rs & Heq & _). rewrite Heq in Hr. discriminate. }
  rewrite Hc in *. cbn [stopped raised yielded] in *. injection Hr as ->.
  split; [reflexivity|].
  assert (forall v key x, getitem v key = Err x ->
            cls x = TypeError \/ x = Raise KeyError ("'" ++ key ++ "'")) as Hget.
  { intros v key x. destruct v; cbn [getitem]; try (intros [= <-]; now left).
    destruct (dict_get key entries); [discriminate|]. intros [= <-]. now right. }
  unfold submission_error in Hs.
  destruct (max_workers self <=? 0); [injection Hs as <-; auto|].
  destruct (getitem (manifest self) "datasets") as [ds|x] eqn:Hds.
  2: { cbn in Hs. injection Hs as <-.
       destruct (Hget _ _ _ Hds) as [H|H]; auto. }
  cbn [mbind result_bind] in Hs.
  destruct (iterate ds) as [shards|x] eqn:Hit.
  2: { injection Hs as <-. right. left.
       destruct ds; cbn [iterate] in Hit; try discriminate;
         now injection Hit as <-. }
  clear Hc Hds Hit. revert Hs.
  induction shards as [|shard rest IH]; cbn [submit_all snd]; [discriminate|].
  destruct (getitem shard "uri") as [u|x] eqn:Hu.
  2: { cbn [snd]. intros [= <-]. destruct (Hget _ _ _ Hu) as [H|H]; auto. }
  destruct (getitem shard "hash") as [h|x] eqn:Hh.
  2: { cbn [snd]. intros [= <-]. destruct (Hget _ _ _ Hh) as [H|H]; auto 6. }
  destruct (submit_all rest) as [tasks failure]. cbn [snd] in *. exact IH.
Qed.

(** X13. A manifest whose "datasets" member has no entry (an empty array,
    an empty object, the empty string) gives an empty stream that ends
    normally and leaves the world as it was. *)
Theorem empty_manifest_streams_nothing
    (sched : list nat) (w : World) (ds : pyval) :
  0 < max_workers self ->
  getitem (manifest self) "datasets" = Ok ds ->
  iterate ds = Ok [] ->
  stream_batches E self sched w = (mkStream [] None, w).
Proof.
  intros Hw Hds Hit. unfold stream_batches.
  replace (max_workers self <=? 0) with false by (symmetry; apply Z.leb_gt; lia).
  rewrite Hds. cbn [mbind result_bind]. rewrite Hit.
  cbn [submit_all length seq map drain]. unfold run_pool. cbn [length seq].
  rewrite app_nil_r.
  assert (forall futures, run_sched E self sched [] futures w = (futures, w)) as ->;
    [|reflexivity].
  induction sched as [|i rest IH]; intros futures; [reflexivity|].
  cbn [run_sched]. rewrite lookup_nil. rewrite IH. now destruct (futures !! i).
Qed.

Lemma shard_batches_nonpositive (u h : pyval) (w0 : World) :
  batch_size self <= 0 -> shard_batches E self u h w0 = [].
Proof.
  intros Hb. unfold shard_batches.
  destruct (_fetch_shard E self u h w0) as [[p|e] w1]; [|reflexivity].
  destruct (_load_and_batch self p w1) as [[bs|e] w2] eqn:Hl; [|reflexivity].
  exact (load_and_batch_nonpositive self p w1 w2 bs Hb Hl).
Qed.

(** X14. With a batch size of zero or less the stream yields no batch,
    whatever the manifest, the cache and the transports hold: a size of
    zero makes every shard fail in [range], a negative one makes every
    shard an empty list without any error. *)
Theorem nonpositive_batch_size_streams_nothing (sched : list nat) (w : World) :
  batch_size self <= 0 ->
  yielded (fst (stream_batches E self sched w)) = [].
Proof.
  intros Hb. pose proof (stream_result_cases sched w) as Hc.
  destruct (submission_error self) as [e|]; [now rewrite Hc|].
  destruct Hc as (rs & -> & _ & Hr). cbn [yielded].
  assert (Forall (fun r => r = []) rs) as Hall.
  { apply Forall_lookup. intros i r Hi.
    destruct (Hr i r Hi) as (u & h & w0 & _ & ->).
    now apply shard_batches_nonpositive. }
  clear Hr. induction Hall as [|r rs -> _ IH]; [reflexivity|exact IH].
Qed.

(** A measure of the world that one task raises by at most [c] is raised
    by the pool by at most [c] for each task it runs. *)
Lemma run_sched_measure (mu : World -> Z) (c : Z) (tasks : list task) :
  (forall i u h w0, tasks !! i = Some (u, h) ->
                    mu (snd (_process_shard E self u h w0)) <= mu w0 + c) ->
  forall sched futures w0,
    mu (snd (run_sched E self sched tasks futures w0))
      + c * Z.of_nat (size futures)
    <= mu w0 + c * Z.of_nat (size (fst (run_sched E self sched tasks futures w0))).
Proof.
  intros Hstep. induction sched as [|i rest IH]; intros futures w0;
    [cbn; lia|].
  cbn [run_sched].
  destruct (futures !! i) as [r|] eqn:Hf; [apply IH|].
  destruct (tasks !! i) as [[u h]|] eqn:Ht; [|apply IH].
  pose proof (Hstep i u h w0 Ht) as Hw1.
  destruct (_process_shard E self u h w0) as [r w1]. cbn [snd] in Hw1.
  specialize (IH (<[i:=r]> futures) w1).
  rewrite map_size_insert_None in IH by exact Hf. lia.
Qed.

Lemma run_pool_size (tasks : list task) (sched : list nat) (w : World) :
  (size (fst (run_pool E self sched tasks w)) <= length tasks)%nat.
Proof.
  pose proof (run_pool_from_tasks E self tasks sched w) as Hft.
  set (m := fst (run_pool E self sched tasks w)) in *.
  rewrite <- (size_dom (D := gset nat)).
  rewrite <- (size_set_seq (C := gset nat) 0 (length tasks)).
  apply subseteq_size. intros i Hi.
  apply elem_of_dom in Hi as [r Hr].
  destruct (Hft i r Hr) as (u & h & w0 & Ht & _).
  apply lookup_lt_Some in Ht. apply elem_of_set_seq. lia.
Qed.

Lemma run_pool_measure (mu : World -> Z) (c : Z) (tasks : list task)
    (sched : list nat) (w : World) :
  0 <= c ->
  (forall i u h w0, tasks !! i = Some (u, h) ->
                    mu (snd (_process_shard E self u h w0)) <= mu w0 + c) ->
  mu (snd (run_pool E self sched tasks w)) <= mu w + c * Z.of_nat (length tasks).
Proof.
  intros Hc Hstep.
  pose proof (run_sched_measure mu c tasks Hstep
                (sched ++ seq 0 (length tasks)) ∅ w) as H.
  pose proof (run_pool_size tasks sched w) as Hs.
  unfold run_pool in *. rewrite map_size_empty in H. nia.
Qed.

Lemma total_app (l1 l2 : list Z) : total (l1 ++ l2) = total l1 + total l2.
Proof.
  unfold total. induction l1 as [|x l1 IH]; cbn; [lia|]. rewrite IH. lia.
Qed.

(** X15. A stream makes at most three transport calls and sleeps at most
    seven seconds for each entry of its manifest, whatever the order in
    which the tasks run. *)
Theorem stream_effort_is_bounded_per_shard (sched : list nat) (w : World) :
  let w' := snd (stream_batches E self sched w) in
  let shards := Z.of_nat (length (manifest_shards self)) in
  Z.of_nat (length (net w')) <= Z.of_nat (length (net w)) + 3 * shards
  /\ total_sleep w' <= total_sleep w + 7 * shards.
Proof.
  cbv zeta. rewrite stream_batches_world.
  destruct (max_workers self <=? 0); [lia|].
  pose proof (submitted_tasks_length self) as Hlen.
  set (tasks := fst (submit_all (manifest_shards self))) in *.
  split.
  - pose proof (run_pool_measure (fun w0 => Z.of_nat (length (net w0))) 3
                  tasks sched w ltac:(lia)) as H.
    cbv beta in H. etransitivity; [apply H|nia].
    intros i u h w0 _.
    destruct (process_shard_world E self u h w0) as (_ & -> & _).
    destruct (fetch_traces E self u h w0) as (k & ss & _ & -> & _ & Hk & _).
    lia.
  - pose proof (run_pool_measure total_sleep 7 tasks sched w ltac:(lia)) as H.
    etransitivity; [apply H|nia].
    intros i u h w0 _. unfold total_sleep.
    destruct (process_shard_world E self u h w0) as (_ & _ & ->).
    destruct (fetch_traces E self u h w0) as (k & ss & _ & _ & -> & _ & _ & Ht).
    rewrite total_app. lia.
Qed.

End StreamBounds.

(** ** Files that are in the cache when the stream starts *)

Section CacheInTheStream.

Variable E : Env.
Variable self : SecureDataLoader.

(** X3. The stream never deletes and never overwrites: whatever file or
    directory is at a path when the stream starts is there, unchanged,
    when it ends, whatever the manifest, the transports and the order of
    the tasks. The [unlink] of the cache test is never reached, and a
    payload is only ever written to a path at which nothing was. *)
Theorem stream_never_deletes_or_overwrites
    (sched : list nat) (w : World) (q : string) (n : node) :
  fs w !! q = Some n ->
  fs (snd (stream_batches E self sched w)) !! q = Some n.
Proof.
  intros Hq. rewrite stream_batches_world.
  destruct (max_workers self <=? 0); [exact Hq|].
  unfold run_pool.
  apply (run_sched_keeps_invariant E self (fun w' => fs w' !! q = Some n));
    [|exact Hq].
  intros i u h w0 _ Hw0.
  destruct (process_shard_world E self u h w0) as (-> & _).
  now apply fetch_keeps_nodes.
Qed.

(** One task over an entry whose cache path holds a file. *)
Lemma process_cached_shard (w w0 : World) (shard u h : pyval) :
  cached self w shard ->
  getitem shard "uri" = Ok u ->
  getitem shard "hash" = Ok h ->
  fs w0 = fs w ->
  _process_shard E self u h w0
  = (Ok [], mkWorld (fs w0) (net w0) (slept w0) (log w0 ++ [cache_failure])).
Proof.
  intros (uri & h' & data & Hu & _ & Hfs) Hu' _ Hw.
  rewrite Hu in Hu'. injection Hu' as <-. rewrite <- Hw in Hfs.
  now rewrite process_shard_cases, (fetch_shard_occupied E self uri h w0 data Hfs).
Qed.

(** The pool over tasks that each end in the cache test: every future it
    sets holds no batch, and the log gains one record per task it runs. *)
Lemma run_sched_cached (w : World) (tasks : list task) :
  (forall i u h w0, tasks !! i = Some (u, h) -> fs w0 = fs w ->
     _process_shard E self u h w0
     = (Ok [], mkWorld (fs w0) (net w0) (slept w0) (log w0 ++ [cache_failure]))) ->
  forall sched futures w0,
    fs w0 = fs w ->
    exists k : nat,
      size (fst (run_sched E self sched tasks futures w0)) = (size futures + k)%nat
      /\ fs (snd (run_sched E self sched tasks futures w0)) = fs w
      /\ net (snd (run_sched E self sched tasks futures w0)) = net w0
      /\ slept (snd (run_sched E self sched tasks futures w0)) = slept w0
      /\ log (snd (run_sched E self sched tasks futures w0))
         = (log w0 ++ replicate k cache_failure)%list
      /\ forall i x, fst (run_sched E self sched tasks futures w0) !! i = Some x ->
                     futures !! i = Some x \/ x = Ok [].
Proof.
  intros Hstep. induction sched as [|i rest IH]; intros futures w0 Hw0.
  { exists 0%nat. cbn. rewrite app_nil_r. repeat split; auto. }
  cbn [run_sched].
  destruct (futures !! i) as [r|] eqn:Hf; [now apply IH|].
  destruct (tasks !! i) as [[u h]|] eqn:Ht; [|now apply IH].
  rewrite (Hstep i u h w0 Ht Hw0).
  destruct (IH (<[i := Ok []]> futures)
               (mkWorld (fs w0) (net w0) (slept w0) (log w0 ++ [cache_failure]))
               Hw0) as (k & Hsize & Hfs & Hnet & Hslept & Hlog & Hres).
  exists (S k). rewrite map_size_insert_None in Hsize by exact Hf.
  split; [lia|]. split; [exact Hfs|]. split; [exact Hnet|].
  split; [exact Hslept|]. split.
  - rewrite Hlog. cbn [log replicate]. now rewrite <- app_assoc.
  - intros j x Hj. destruct (Hres j x Hj) as [Hin| ->]; [|now right].
    destruct (decide (i = j)) as [<-|Hne].
    + rewrite lookup_insert_eq in Hin. right. now injection Hin as <-.
    + rewrite lookup_insert_ne in Hin by exact Hne. now left.
Qed.

Lemma run_pool_size_eq (tasks : list task) (sched : list nat) (w : World) :
  size (fst (run_pool E self sched tasks w)) = length tasks.
Proof.
  apply Nat.le_antisymm; [apply run_pool_size|].
  rewrite <- (size_dom (D := gset nat)).
  rewrite <- (size_set_seq (C := gset nat) 0 (length tasks)).
  apply subseteq_size. intros i Hi. apply elem_of_set_seq in Hi.
  apply elem_of_dom. apply run_pool_complete. lia.
Qed.

Lemma concat_nils {A} (n : nat) : concat (replicate n ([] : list A)) = [].
Proof. induction n as [|n IH]; [reflexivity|exact IH]. Qed.

(** X16. A cache that is full is of no use. When the manifest can be read
    and a file sits at the cache path of every entry, whatever the files
    hold and so also when each rehashes to its expected hash, the stream
    yields no batch at all and ends normally: every task raises
    AttributeError in the cache test. No transport is called, nothing is
    slept, no file changes, and the log gains one ERROR record per entry,
    the same for each, whatever the order of the tasks. *)
Theorem full_cache_streams_nothing (sched : list nat) (w : World) :
  submission_error self = None ->
  Forall (cached self w) (manifest_shards self) ->
  let st := stream_batches E self sched w in
  fst st = mkStream [] None
  /\ fs (snd st) = fs w
  /\ net (snd st) = net w
  /\ slept (snd st) = slept w
  /\ log (snd st)
     = (log w ++ replicate (length (manifest_shards self)) cache_failure)%list.
Proof.
  intros Hnone Hcached st. subst st.
  destruct (submission_error_none self Hnone) as (Hw & ds & Hds & Hit & Hsub).
  destruct (submit_all_tasks _ _ _ Hsub) as [Htasks Hlen].
  specialize (Hlen eq_refl).
  assert (forall i u h w0, submitted self !! i = Some (u, h) -> fs w0 = fs w ->
            _process_shard E self u h w0
            = (Ok [], mkWorld (fs w0) (net w0) (slept w0)
                              (log w0 ++ [cache_failure]))) as Hstep.
  { intros i u h w0 Ht Hw0.
    destruct (Htasks i u h Ht) as (shard & Hs & Hu & Hh).
    rewrite Forall_lookup in Hcached.
    exact (process_cached_shard w w0 shard u h (Hcached i shard Hs) Hu Hh Hw0). }
  destruct (run_sched_cached w (submitted self) Hstep
              (sched ++ seq 0 (length (submitted self)))%list ∅ w eq_refl)
    as (k & Hsize & Hfs & Hnet & Hslept & Hlog & Hres).
  fold (run_pool E self sched (submitted self) w) in Hsize, Hfs, Hnet, Hslept, Hlog, Hres.
  rewrite run_pool_size_eq, map_size_empty, Nat.add_0_l in Hsize. subst k.
  rewrite (stream_batches_eq E self sched w (submitted self) None Hw Hsub Hnone).
  cbn [fst snd]. rewrite <- Hlen.
  split; [|auto].
  assert (map (future_result (fst (run_pool E self sched (submitted self) w)))
              (seq 0 (length (submitted self)))
          = map Ok (replicate (length (submitted self)) [])) as ->.
  { apply list_eq. intros i. rewrite !lookup_map.
    destruct (Nat.lt_ge_cases i (length (submitted self))) as [Hlt|Hge].
    - rewrite lookup_seq_lt, lookup_replicate_2 by exact Hlt. cbn. f_equal.
      unfold future_result.
      destruct (fst (run_pool E self sched (submitted self) w) !! i) as [x|] eqn:Hx;
        [|reflexivity].
      destruct (Hres i x Hx) as [Hin| ->]; [|reflexivity].
      now rewrite lookup_empty in Hin.
    - rewrite lookup_seq_ge by exact Hge.
      now rewrite (proj1 (lookup_replicate_None _ _ _) Hge). }
  rewrite drain_all_ok. now rewrite concat_nils.
Qed.

(** One task leaves every file and directory that was there as it was. *)
Lemma process_keeps_nodes (u h : pyval) (w : World) (q : string) (n : node) :
  fs w !! q = Some n ->
  fs (snd (_process_shard E self u h w)) !! q = Some n.
Proof.
  intros Hq. destruct (process_shard_world E self u h w) as (-> & _).
  now apply fetch_keeps_nodes.
Qed.

Lemma run_starts_keeps (tasks : list task) (sched : list nat) :
  forall started w i x,
    started !! i = Some x ->
    run_starts E self sched tasks started w !! i = Some x.
Proof.
  induction sched as [|j rest IH]; intros started w i x Hi; [exact Hi|].
  cbn [run_starts].
  destruct (started !! j) as [wj|] eqn:Hj; [now apply IH|].
  destruct (tasks !! j) as [[u h]|]; [|now apply IH].
  apply IH. rewrite lookup_insert_ne; [exact Hi|]. congruence.
Qed.

(** A task starts in a world that still has every file and directory
    that the pool found. *)
Lemma run_starts_from (tasks : list task) (sched : list nat) :
  forall started w i w0,
    run_starts E self sched tasks started w !! i = Some w0 ->
    started !! i = Some w0
    \/ forall q n, fs w !! q = Some n -> fs w0 !! q = Some n.
Proof.
  induction sched as [|j rest IH]; intros started w i w0 Hi; [now left|].
  cbn [run_starts] in Hi.
  destruct (started !! j) as [wj|] eqn:Hj; [now apply (IH _ w)|].
  destruct (tasks !! j) as [[u h]|]; [|now apply (IH _ w)].
  destruct (IH _ _ _ _ Hi) as [Hin|Hkeep].
  - destruct (decide (j = i)) as [<-|Hne].
    + rewrite lookup_insert_eq in Hin. injection Hin as <-. right. auto.
    + rewrite lookup_insert_ne in Hin by exact Hne. now left.
  - right. intros q n Hq. apply Hkeep. now apply process_keeps_nodes.
Qed.

(** What a task leaves is still there when the pool is done. *)
Lemma run_sched_after (tasks : list task) (sched : list nat) :
  forall futures started w i w0 u h,
    (forall k, futures !! k = None <-> started !! k = None) ->
    started !! i = None ->
    run_starts E self sched tasks started w !! i = Some w0 ->
    tasks !! i = Some (u, h) ->
    forall q n,
      fs (snd (_process_shard E self u h w0)) !! q = Some n ->
      fs (snd (run_sched E self sched tasks futures w)) !! q = Some n.
Proof.
  induction sched as [|j rest IH]; intros futures started w i w0 u h Hinv Hi Hs Ht q n Hq.
  { cbn in Hs. congruence. }
  cbn [run_starts] in Hs. cbn [run_sched].
  destruct (started !! j) as [wj|] eqn:Hj.
  { destruct (futures !! j) as [r|] eqn:Hf;
      [|apply Hinv in Hf; congruence].
    now apply (IH futures started w i w0 u h). }
  rewrite (proj2 (Hinv j) Hj).
  destruct (tasks !! j) as [[uj hj]|] eqn:Htj;
    [|now apply (IH futures started w i w0 u h)].
  destruct (_process_shard E self uj hj w) as [r w'] eqn:Hp. cbn [snd] in Hs.
  destruct (decide (j = i)) as [->|Hne].
  - rewrite (run_starts_keeps tasks rest _ w' i w) in Hs
      by apply lookup_insert_eq.
    injection Hs as <-. rewrite Ht in Htj. injection Htj as <- <-.
    rewrite Hp in Hq. cbn [snd] in Hq.
    apply (run_sched_keeps_invariant E self (fun w1 => fs w1 !! q = Some n));
      [|exact Hq].
    intros k uk hk w1 _ Hw1. now apply process_keeps_nodes.
  - apply (IH (<[j := r]> futures) (<[j := w]> started) w' i w0 u h);
      try assumption.
    + intros k. destruct (decide (j = k)) as [<-|Hk].
      * rewrite !lookup_insert_eq. split; discriminate.
      * rewrite !lookup_insert_ne by exact Hk. apply Hinv.
    + now rewrite lookup_insert_ne.
Qed.

(** X17. A shard is delivered at most once. When a stream has yielded at
    least one batch for an entry, a second stream over the same manifest,
    started in the world the first one left and with any order of its
    own, yields no batch for that entry: the file that the first stream
    wrote is still at the cache path, and the cache test raises on it. *)
Theorem delivered_shard_is_not_delivered_again
    (sched1 sched2 : list nat) (w : World) (i : nat)
    (b : DataBatch) (bs : list DataBatch) :
  submission_error self = None ->
  stream_lists E self sched1 w !! i = Some (b :: bs) ->
  stream_lists E self sched2 (snd (stream_batches E self sched1 w)) !! i
  = Some [].
Proof.
  intros Hnone H1.
  destruct (submission_error_none self Hnone) as (Hw & _).
  assert (i < length (submitted self))%nat as Hlt.
  { apply lookup_lt_Some in H1. unfold stream_lists in H1.
    now rewrite length_map, length_seq in H1. }
  destruct (lookup_lt_is_Some_2 _ _ Hlt) as [[u h] Ht].
  rewrite (stream_lists_lookup E self sched1 w i u h Ht) in H1.
  injection H1 as H1.
  rewrite (stream_lists_lookup E self _ _ i u h Ht). f_equal.
  (* the first run: the world in which task [i] started *)
  assert (exists w0,
            run_starts E self (sched1 ++ seq 0 (length (submitted self)))
                       (submitted self) ∅ w !! i = Some w0
            /\ task_world E self sched1 w i = w0) as (w0 & Hs0 & Hw0).
  { destruct (run_pool_complete E self (submitted self) sched1 w i Hlt) as [r Hr].
    unfold run_pool in Hr.
    rewrite (run_sched_starts E self (submitted self) _ ∅ ∅ w) in Hr
      by (intros k; now rewrite !lookup_empty).
    unfold task_world.
    destruct (run_starts E self _ (submitted self) ∅ w !! i) as [w0|];
      [|discriminate].
    exists w0. auto. }
  rewrite Hw0 in H1. unfold shard_batches in H1.
  destruct (_fetch_shard E self u h w0) as [[p|e] wa] eqn:Hf; [|discriminate].
  destruct (fetch_ok_inv E self u h w0 wa p Hf)
    as (uri & data & -> & -> & Hfile & _).
  (* the file is there when the first stream is done *)
  assert (fs (snd (stream_batches E self sched1 w)) !! cache_path_of self uri
          = Some (File data)) as Hend.
  { rewrite stream_batches_world.
    replace (max_workers self <=? 0) with false by (symmetry; apply Z.leb_gt; lia).
    fold (submitted self). unfold run_pool.
    apply (run_sched_after (submitted self) _ ∅ ∅ w i w0 (PStr uri) h);
      try assumption.
    - intros k. now rewrite !lookup_empty.
    - apply lookup_empty.
    - destruct (process_shard_world E self (PStr uri) h w0) as (-> & _).
      now rewrite Hf. }
  (* ... and when the task of the second stream starts *)
  set (w1 := snd (stream_batches E self sched1 w)) in *.
  assert (fs (task_world E self sched2 w1 i) !! cache_path_of self uri
          = Some (File data)) as Hstart.
  { unfold task_world.
    destruct (run_starts E self (sched2 ++ seq 0 (length (submitted self)))
                         (submitted self) ∅ w1 !! i) as [w2|] eqn:Hs2;
      [|exact Hend].
    cbv [default id].
    destruct (run_starts_from _ _ _ _ _ _ Hs2) as [Hin|Hkeep];
      [now rewrite lookup_empty in Hin|now apply Hkeep]. }
  unfold shard_batches.
  now rewrite (fetch_shard_occupied E self uri h _ data Hstart).
Qed.

End CacheInTheStream.

(** ** Loading the manifest *)

Section LoadFacts.

Variable E : Env.

Lemma append_empty_r (s : string) : (s ++ "")%string = s.
Proof.
  induction s as [|c s IH]; [reflexivity|].
  change (String c (s ++ "") = String c s). now rewrite IH.
Qed.

Lemma append_snoc (s : string) (c : ascii) (t : string) :
  ((s ++ String c "") ++ t)%string = (s ++ String c t)%string.
Proof.
  induction s as [|a s IH]; [reflexivity|].
  change (String a ((s ++ String c "") ++ t) = String a (s ++ String c t)).
  now rewrite IH.
Qed.

Lemma split_aux_no_sep (sep : string) (s : string) : forall cur,
  str_contains sep s = false ->
  split_aux sep cur O s = [(cur ++ s)%string].
Proof.
  induction s as [|c rest IH]; intros cur Hc.
  - cbn [split_aux]. now rewrite append_empty_r.
  - cbn [str_contains] in Hc. apply orb_false_iff in Hc as [Hp Hr].
    cbn [split_aux]. rewrite Hp. rewrite (IH _ Hr). now rewrite append_snoc.
Qed.

Lemma split_no_sep (sep s : string) :
  str_contains sep s = false -> split s sep = [s].
Proof. intros H. unfold split. now rewrite split_aux_no_sep. Qed.

(** [uri.split("://")[1]] on a uri without "://". *)
Lemma after_scheme_bare (uri : string) :
  str_contains "://" uri = false ->
  after_scheme uri = Err (Raise IndexError "list index out of range").
Proof. intros H. unfold after_scheme. now rewrite split_no_sep. Qed.

Lemma prefix_empty (s : string) : String.prefix "" s = true.
Proof. now destruct s. Qed.

(** ... and on <scheme>://<rest>, for the two schemes of four letters. *)
Lemma after_scheme_file (rest : string) :
  str_contains "://" rest = false ->
  after_scheme ("file://" ++ rest) = Ok rest.
Proof.
  intros H. unfold after_scheme, split.
  change ("file://" ++ rest)%string
    with (String "f" (String "i" (String "l" (String "e"
            (String ":" (String "/" (String "/" rest))))))).
  cbn. rewrite prefix_empty. cbn.
  now rewrite split_aux_no_sep.
Qed.

Lemma after_scheme_ipfs (rest : string) :
  str_contains "://" rest = false ->
  after_scheme ("ipfs://" ++ rest) = Ok rest.
Proof.
  intros H. unfold after_scheme, split.
  change ("ipfs://" ++ rest)%string
    with (String "i" (String "p" (String "f" (String "s"
            (String ":" (String "/" (String "/" rest))))))).
  cbn. rewrite prefix_empty. cbn.
  now rewrite split_aux_no_sep.
Qed.

Lemma prefix_not_contained (p s : string) :
  str_contains p s = false -> String.prefix p s = false.
Proof.
  destruct s; cbn [str_contains]; intros H; now apply orb_false_iff in H as [? _].
Qed.

Lemma ipfs_has_scheme (s : string) :
  String.prefix "ipfs://" s = true -> str_contains "://" s = true.
Proof.
  intros H.
  repeat (destruct s as [|? s]; [discriminate H|];
          cbn [String.prefix] in H;
          match type of H with
          | (if ?d then _ else _) = true =>
              destruct d as [<-|]; [|discriminate H]
          end).
  cbn. rewrite prefix_empty. reflexivity.
Qed.

(** X18. Loading a manifest, from whatever transport and with whatever
    outcome, changes no file, calls no shard transport and does not
    sleep: all it leaves in the world is the one log record "Loading
    manifest from <uri>". *)
Theorem load_manifest_only_logs (self : SecureDataLoader) (w : World) :
  snd (_load_manifest E self w) = load_logged self w.
Proof.
  unfold _load_manifest, _load_ipfs_manifest, _load_http_manifest,
    _load_local_manifest. munfold. fold (load_logged self w).
  destruct (startswith (manifest_uri self) "ipfs://").
  - destruct (after_scheme (manifest_uri self)) as [cid|e]; [|reflexivity].
    destruct (session_get E _) as [[st body]|e]; [|reflexivity].
    cbn [fst snd]. destruct (negb _); reflexivity.
  - destruct (startswith (manifest_uri self) "http").
    + destruct (session_get E _) as [[st body]|e]; [|reflexivity].
      cbn [fst snd]. destruct (400 <=? st); reflexivity.
    + destruct (after_scheme (manifest_uri self)) as [rest|e]; [|reflexivity].
      cbn [fs load_logged].
      destruct (fs w !! PathLib.Path rest) as [[data|]|] eqn:Hfs;
        cbn [negb fs load_logged]; rewrite ?Hfs.
      * now destruct (_parse_manifest E _).
      * reflexivity.
      * now destruct (negb _ && _).
Qed.

(** X19. A manifest uri without "://" that does not begin with "http" (a
    plain path such as manifest.json) cannot be loaded: the local loader
    indexes past the end of [uri.split("://")] and [_load_manifest]
    raises IndexError, whether or not a file of that name exists. *)
Theorem bare_path_manifest_raises_index_error (self : SecureDataLoader) (w : World) :
  str_contains "://" (manifest_uri self) = false ->
  startswith (manifest_uri self) "http" = false ->
  _load_manifest E self w
  = (Err (Raise IndexError "list index out of range"), load_logged self w).
Proof.
  intros Hc Hh. unfold _load_manifest, _load_local_manifest. munfold.
  assert (startswith (manifest_uri self) "ipfs://" = false) as ->.
  { destruct (startswith (manifest_uri self) "ipfs://") eqn:Hi; [|reflexivity].
    apply ipfs_has_scheme in Hi. congruence. }
  rewrite Hh, (after_scheme_bare _ Hc). reflexivity.
Qed.

(** X20. A manifest at file://<path>, the path holding no further "://",
    is read from the normalised path: a file of plain text is parsed
    from what it holds, a directory raises IsADirectoryError, and a
    missing file raises FileNotFoundError("Manifest not found: <path>"),
    unless the path is too long for the system, when an error is raised
    all the same; neither the HTTP session nor a shard transport is
    consulted. *)
Theorem file_manifest_is_read_from_disk
    (self : SecureDataLoader) (w : World) (rest : string) :
  manifest_uri self = ("file://" ++ rest)%string ->
  str_contains "://" rest = false ->
  (forall data, fs w !! PathLib.Path rest = Some (File data) ->
                plain_text data = true) ->
  let r := fst (_load_manifest E self w) in
  match fs w !! PathLib.Path rest with
  | Some (File data) => r = _parse_manifest E (string_of_list_byte data)
  | Some Dir => exists e, r = Err e /\ cls e = IsADirectoryError
  | None =>
      if OS.too_long (PathLib.Path rest)
      then exists e, r = Err e
      else r = Err (Raise FileNotFoundError
                      ("Manifest not found: " ++ PathLib.Path rest))
  end.
Proof.
  intros Hu Hc _ r. subst r. unfold _load_manifest, _load_local_manifest. munfold.
  rewrite Hu. change (startswith ("file://" ++ rest) "ipfs://") with false.
  change (startswith ("file://" ++ rest) "http") with false.
  rewrite (after_scheme_file rest Hc). cbn [fs].
  destruct (fs w !! PathLib.Path rest) as [[data|]|] eqn:Hfs;
    cbn [negb fs fst]; rewrite ?Hfs.
  - reflexivity.
  - eexists. split; reflexivity.
  - destruct (OS.has_nul _); cbn [negb andb];
      [destruct (OS.too_long _); [eexists|]; reflexivity|].
    destruct (OS.too_long _); [|reflexivity].
    eexists. reflexivity.
Qed.

(** X21. A manifest at ipfs://<cid> is asked of the gateway at
    https://ipfs.io/ipfs/<cid>, and only the status 200 is accepted: any
    other status, 204 or a redirect among them, raises IOError("IPFS load
    failed: <status>") before the body is looked at. *)
Theorem ipfs_manifest_accepts_only_200
    (self : SecureDataLoader) (w : World) (cid body : string) (status : Z) :
  manifest_uri self = ("ipfs://" ++ cid)%string ->
  str_contains "://" cid = false ->
  session_get E ("https://ipfs.io/ipfs/" ++ cid) = Ok (status, body) ->
  fst (_load_manifest E self w)
  = if status =? 200 then _parse_manifest E body
    else Err (Raise IOError ("IPFS load failed: " ++ pretty status)).
Proof.
  intros Hu Hc Hs. unfold _load_manifest, _load_ipfs_manifest. munfold.
  rewrite Hu.
  assert (startswith ("ipfs://" ++ cid) "ipfs://" = true) as ->.
  { unfold startswith.
    change ("ipfs://" ++ cid)%string
      with (String "i" (String "p" (String "f" (String "s"
              (String ":" (String "/" (String "/" cid))))))).
    cbn. apply prefix_empty. }
  rewrite (after_scheme_ipfs cid Hc), Hs. cbn [fst snd].
  destruct (status =? 200); reflexivity.
Qed.

(** X22. An entry-checked manifest comes back as it was decoded: for a
    JSON object whose "datasets" member is an array of objects that all
    have a "hash" member, [_parse_manifest] returns the document itself,
    and the entries a loader holding it walks through are that array, in
    its length and order. *)
Theorem well_formed_manifest_loads_unchanged
    (self : SecureDataLoader) (raw : string)
    (d : list (string * pyval)) (shards : list pyval) :
  json_loads E raw = Some (PDict d) ->
  dict_get "datasets" d = Some (PList shards) ->
  Forall (has_key "hash") shards ->
  _parse_manifest E raw = Ok (PDict d)
  /\ manifest_shards (set_manifest self (PDict d)) = shards.
Proof.
  intros Hj Hd Hall. split; [now apply (parse_accepts E raw d shards)|].
  unfold manifest_shards. cbn [manifest set_manifest getitem]. now rewrite Hd.
Qed.

End LoadFacts.

(** ** HTTP shards, and streaming without a manifest *)

Section HttpAndInit.

Variable E : Env.
Variable self : SecureDataLoader.

Lemma http_is_not_ipfs (uri : string) :
  startswith uri "http" = true -> startswith uri "ipfs://" = false.
Proof.
  unfold startswith. destruct uri as [|c rest]; [discriminate|].
  cbn [String.prefix]. destruct (ascii_dec "h" c) as [<-|]; [|discriminate].
  reflexivity.
Qed.

Lemma http_error_status_raises (uri : string) (k : nat) (resp : Response) :
  startswith uri "http" = true ->
  requests_get E uri k = Ok resp ->
  400 <= status_code resp < 600 ->
  exists e, transport E uri k = Err e /\ cls e = HTTPError.
Proof.
  intros Hh Hr Hs. unfold transport, _download_http_shard, raise_for_status.
  rewrite (http_is_not_ipfs uri Hh), Hh, Hr. cbn [mbind result_bind].
  replace (400 <=? status_code resp) with true by (symmetry; apply Z.leb_le; lia).
  replace (status_code resp <? 600) with true by (symmetry; apply Z.ltb_lt; lia).
  destruct (status_code resp <? 500) eqn:H5; cbn [andb].
  - eexists. split; reflexivity.
  - replace (500 <=? status_code resp) with true
      by (symmetry; apply Z.leb_le; apply Z.ltb_ge in H5; lia).
    eexists. split; reflexivity.
Qed.

(** X23. A shard at an http(s) uri at whose cache path nothing is and
    whose server answers every request with an error status (400 to 599)
    is given up after exactly three requests and waits of 1, 2 and 4
    seconds: [_fetch_shard] raises its error naming the uri, and no body
    is ever hashed or written, so that the files are as they were. *)
Theorem persistent_http_error_exhausts_retries
    (uri : string) (h : pyval) (w : World) :
  startswith uri "http" = true ->
  (forall k, exists resp, requests_get E uri k = Ok resp
                          /\ 400 <= status_code resp < 600) ->
  cache_miss self w uri ->
  let r := _fetch_shard E self (PStr uri) h w in
  fst r = Err (unavailable uri)
  /\ net (snd r) = (net w ++ [uri; uri; uri])%list
  /\ slept (snd r) = (slept w ++ [1; 2; 4])%list
  /\ fs (snd r) = fs w.
Proof.
  intros Hh Hresp Hm r. subst r.
  assert (forall k, exists e, outcome E self uri h k = Raised e) as Ho.
  { intros k. destruct (Hresp k) as (resp & Hr & Hs). unfold outcome.
    destruct (http_error_status_raises uri k resp Hh Hr Hs) as (e & -> & _).
    eauto. }
  destruct (fetch_miss_summary E self uri h w Hm) as (Hr & _ & Hn & Hs).
  destruct (fetch_miss_world E self uri h w Hm) as (Hf & _).
  rewrite Hr, Hn, Hs, Hf.
  unfold fs_after_miss, first_verified, attempts_made, waits, attempt_failed,
    attempt_raised.
  destruct (Ho (length (net w))) as [e1 O1].
  destruct (Ho (S (length (net w)))) as [e2 O2].
  destruct (Ho (S (S (length (net w))))) as [e3 O3].
  rewrite O1, O2, O3. cbn [negb seq flat_map].
  rewrite ?Nat.add_0_r, ?Nat.add_1_r.
  replace (length (net w) + 2)%nat with (S (S (length (net w)))) by lia.
  rewrite O1, O2, O3. auto.
Qed.

(** X24. When loading fails, [initialize] hands the exception on and
    leaves the manifest attribute as it was; a loader that was never
    initialized with success then cannot stream: [stream_batches] raises
    TypeError("'NoneType' object is not subscriptable") before any shard
    is looked at. *)
Theorem failed_initialize_leaves_no_manifest_to_stream
    (w : World) (e : exn) (sched : list nat) :
  manifest self = PNone ->
  0 < max_workers self ->
  fst (_load_manifest E self w) = Err e ->
  let r := initialize E self w in
  let self' := snd (fst r) in
  fst (fst r) = Err e
  /\ manifest self' = PNone
  /\ stream_batches E self' sched (snd r)
     = (stopped (Raise TypeError "'NoneType' object is not subscriptable"), snd r).
Proof.
  intros Hm Hw Hl. cbv zeta. unfold initialize.
  destruct (_load_manifest E self w) as [[m|e'] w1]; cbn [fst] in Hl;
    [discriminate|]. injection Hl as ->.
  cbn [fst snd]. split; [reflexivity|]. split; [exact Hm|].
  unfold stream_batches.
  replace (max_workers self <=? 0) with false by (symmetry; apply Z.leb_gt; lia).
  now rewrite Hm.
Qed.

End HttpAndInit.

(** ** The further properties, run on concrete surroundings *)

Section FurtherRuns.

Import Demo Cases.

Lemma fetch_returns_verified_file_run :
  let r := _fetch_shard (env refused_twice) (loader PNone) (PStr uri_a)
                        (PStr (hex three)) empty_world in
  r = (Ok path_a, snd r)
  /\ exists uri data,
       PStr uri_a = PStr uri
       /\ path_a = cache_path_of (loader PNone) uri
       /\ fs (snd r) !! path_a = Some (File data)
       /\ PStr (hex three) = PStr (hex (sha3_256 (env refused_twice) data)).
Proof.
  intros r. split; [reflexivity|].
  exact (fetch_returns_verified_file (env refused_twice) (loader PNone)
           (PStr uri_a) (PStr (hex three)) empty_world (snd r) path_a eq_refl).
Defined.

Lemma fetched_shard_is_never_fetched_again_run :
  let E := env refused_twice in
  let r := _fetch_shard E (loader PNone) (PStr uri_a) (PStr (hex three))
                        empty_world in
  let r2 := _fetch_shard E (loader PNone) (PStr uri_a) (PStr (hex three)) (snd r) in
  r = (Ok path_a, snd r)
  /\ fs (snd r) !! path_a = Some (File three)
  /\ cls <$> (match fst r2 with Err e => Some e | Ok _ => None end)
     = Some AttributeError
  /\ snd r2 = snd r
  /\ fst (_process_shard E (loader PNone) (PStr uri_a) (PStr (hex three)) (snd r))
     = Ok [].
Proof.
  intros E r r2. split; [reflexivity|]. split; [reflexivity|].
  destruct (fetched_shard_is_never_fetched_again E (loader PNone)
              uri_a uri_a (PStr (hex three)) (PStr (hex three)) empty_world
              (snd r) path_a eq_refl eq_refl) as [Hfetch Hprocess].
  fold r2 in Hfetch. rewrite Hfetch, Hprocess. repeat split.
Defined.

Lemma stream_never_deletes_or_overwrites_run :
  let E := env (serves "file://a.bin") in
  fs stale_world !! path_a = Some (File corrupt)
  /\ fs (snd (stream_batches E (loader two_shards) [1; 0]%nat stale_world))
        !! path_a = Some (File corrupt).
Proof.
  intros E. split; [reflexivity|].
  exact (stream_never_deletes_or_overwrites E (loader two_shards) [1; 0]%nat
           stale_world path_a (File corrupt) eq_refl).
Defined.

Lemma fetch_touches_only_the_cache_path_run :
  let w := manifest_world good_text in
  fs (snd (_fetch_shard (env refused_twice) (loader PNone) (PStr uri_a)
                        (PStr (hex three)) w)) !! "/srv/manifest.json"
  = fs w !! "/srv/manifest.json".
Proof.
  intros w.
  apply (fetch_touches_only_the_cache_path (env refused_twice) (loader PNone)).
  intros uri [= <-] H. vm_compute in H. discriminate H.
Defined.

Lemma unfetchable_shard_is_dropped_without_download_run :
  fs dir_world !! cache_path_of (loader PNone) "" = Some Dir
  /\ exists e,
       _fetch_shard offline (loader PNone) (PStr "") (PStr (hex three)) dir_world
       = (Err e, dir_world)
       /\ (cls e = TypeError \/ cls e = IsADirectoryError)
       /\ _process_shard offline (loader PNone) (PStr "") (PStr (hex three)) dir_world
          = (Ok [], logged_failure dir_world e).
Proof.
  split; [reflexivity|].
  apply (unfetchable_shard_is_dropped_without_download offline (loader PNone)).
  intros uri [= <-]. reflexivity.
Defined.

Lemma raising_attempts_are_logged_run :
  cache_state_of empty_world path_a = Absent
  /\ log (snd (_process_shard offline (loader PNone) (PStr uri_a)
                              (PStr (hex three)) empty_world))
     = [(WARNING, "Attempt 1 failed: connection refused");
        (WARNING, "Attempt 2 failed: connection refused");
        (WARNING, "Attempt 3 failed: connection refused");
        (ERROR, "Shard processing failed: Failed to download shard after 3 attempts: https://h/a.bin")].
Proof.
  split; [reflexivity|].
  exact (proj2 (raising_attempts_are_logged offline (loader PNone) uri_a
                  (PStr (hex three)) empty_world eq_refl)
               eq_refl).
Defined.

Lemma batches_put_together_are_the_file_run :
  let self := loader PNone in
  let r := _load_and_batch self "data_cache/b.bin" warm_world in
  0 < batch_size self
  /\ fs warm_world !! "data_cache/b.bin" = Some (File five)
  /\ is_Some (match fst r with Ok bs => Some bs | Err _ => None end)
  /\ batch_bytes (match fst r with Ok bs => bs | Err _ => [] end) = five.
Proof.
  intros self r. split; [reflexivity|]. split; [reflexivity|].
  split; [vm_compute; eauto|].
  exact (proj1 (batches_put_together_are_the_file self "data_cache/b.bin"
                  warm_world (snd r)
                  (match fst r with Ok bs => bs | Err _ => [] end) five
                  eq_refl eq_refl eq_refl)).
Defined.

Lemma ragged_shard_is_dropped_whole_run :
  let E := env serves_ragged in
  let r := _fetch_shard E (loader PNone) (PStr uri_a) (PStr (hex ragged))
                        empty_world in
  r = (Ok path_a, snd r)
  /\ fs (snd r) !! path_a = Some (File ragged)
  /\ (length ragged mod 4 <> 0)%nat
  /\ exists e,
       cls e = ValueError
       /\ _process_shard E (loader PNone) (PStr uri_a) (PStr (hex ragged))
                         empty_world
          = (Ok [], logged_failure (snd r) e).
Proof.
  intros E r. split; [reflexivity|]. split; [reflexivity|].
  split; [discriminate|].
  apply (ragged_shard_is_dropped_whole E (loader PNone) (PStr uri_a)
           (PStr (hex ragged)) empty_world (snd r) path_a ragged eq_refl eq_refl).
  left. discriminate.
Defined.

Lemma stream_touches_only_cache_files_run :
  let w := manifest_world good_text in
  fs (snd (stream_batches served_b (loader two_shards) [1; 0]%nat w))
     !! "/srv/manifest.json"
  = fs w !! "/srv/manifest.json".
Proof.
  intros w.
  apply (stream_touches_only_cache_files served_b (loader two_shards)).
  intros sh uri Hin Hu.
  apply list_elem_of_In in Hin. cbn in Hin.
  destruct Hin as [<-|[<-|[]]]; injection Hu as <-; intros H;
    vm_compute in H; discriminate H.
Defined.

Lemma stream_raises_only_submission_errors_run :
  let d := PDict [("datasets",
                   PList [shard "file://b.bin" (hex five); PDict [("hash", PStr "00")]])] in
  let out := fst (stream_batches served_b (loader d) [] empty_world) in
  raised out = Some (Raise KeyError "'uri'")
  /\ yielded out = [].
Proof.
  intros d out. split; [reflexivity|].
  exact (proj1 (stream_raises_only_submission_errors served_b (loader d) []
                  empty_world (Raise KeyError "'uri'") eq_refl)).
Defined.

Lemma empty_manifest_streams_nothing_run :
  0 < max_workers (loader empty_manifest)
  /\ stream_batches served_b (loader empty_manifest) [3; 0]%nat empty_world
     = (mkStream [] None, empty_world).
Proof.
  split; [reflexivity|].
  exact (empty_manifest_streams_nothing served_b (loader empty_manifest)
           [3; 0]%nat empty_world (PList []) eq_refl eq_refl eq_refl).
Defined.

Lemma nonpositive_batch_size_streams_nothing_run :
  batch_size (loader_sized 0 two_shards) <= 0
  /\ yielded (fst (stream_batches offline (loader_sized 0 two_shards) []
                                  warm_world)) = [].
Proof.
  split; [discriminate|].
  apply (nonpositive_batch_size_streams_nothing offline (loader_sized 0 two_shards)).
  discriminate.
Defined.

Lemma full_cache_streams_nothing_run :
  let self := loader two_shards in
  let st := stream_batches served_b self [1; 0]%nat warm_world in
  submission_error self = None
  /\ fs warm_world !! "data_cache/a.bin" = Some (File three)
  /\ fs warm_world !! "data_cache/b.bin" = Some (File five)
  /\ fst st = mkStream [] None
  /\ net (snd st) = []
  /\ slept (snd st) = []
  /\ fs (snd st) = fs warm_world
  /\ log (snd st)
     = [(ERROR, "Shard processing failed: 'SecureDataLoader' object has no attribute '_generate_hash'");
        (ERROR, "Shard processing failed: 'SecureDataLoader' object has no attribute '_generate_hash'")].
Proof.
  intros self st. split; [reflexivity|]. split; [reflexivity|].
  split; [reflexivity|].
  assert (Forall (cached self warm_world) (manifest_shards self)) as Hcached.
  { repeat constructor.
    - exists "file://a.bin", (PStr (hex three)), three. repeat split.
    - exists "file://b.bin", (PStr (hex five)), five. repeat split. }
  destruct (full_cache_streams_nothing served_b self [1; 0]%nat warm_world
              eq_refl Hcached) as (Hst & Hf & Hn & Hs & Hl).
  fold st in Hst, Hf, Hn, Hs, Hl. repeat split; assumption.
Defined.

Lemma delivered_shard_is_not_delivered_again_run :
  let self := loader two_shards in
  let L := batches_of 2 (Np.chunk4 five) in
  let w1 := snd (stream_batches served_b self [1; 0]%nat empty_world) in
  submission_error self = None
  /\ stream_lists served_b self [1; 0]%nat empty_world !! 1%nat = Some L
  /\ length L = 3%nat
  /\ stream_lists served_b self [0; 1]%nat w1 !! 1%nat = Some [].
Proof.
  intros self L w1. split; [reflexivity|]. split; [reflexivity|].
  split; [reflexivity|].
  exact (delivered_shard_is_not_delivered_again served_b self
           [1; 0]%nat [0; 1]%nat empty_world 1%nat
           (default ∅ (head L)) (tail L) eq_refl eq_refl).
Defined.

Lemma bare_path_manifest_raises_index_error_run :
  let self := loader_at "manifest.json" in
  let w := mkWorld {[ "manifest.json" := File (list_byte_of_string good_text) ]}
                   [] [] [] in
  str_contains "://" (manifest_uri self) = false
  /\ fst (_load_manifest offline self w)
     = Err (Raise IndexError "list index out of range").
Proof.
  intros self w. split; [reflexivity|].
  now rewrite (bare_path_manifest_raises_index_error offline self w eq_refl eq_refl).
Defined.

Lemma file_manifest_is_read_from_disk_run :
  let self := loader PNone in
  let w := manifest_world good_text in
  manifest_uri self = ("file://" ++ "/srv/manifest.json")%string
  /\ fs w !! "/srv/manifest.json" = Some (File (list_byte_of_string good_text))
  /\ plain_text (list_byte_of_string good_text) = true
  /\ fst (_load_manifest offline self w)
     = Ok (PDict [("datasets", PList [shard "file://a.bin" (hex three)])]).
Proof.
  intros self w. split; [reflexivity|]. split; [reflexivity|].
  split; [reflexivity|].
  refine (file_manifest_is_read_from_disk offline self w "/srv/manifest.json"
            eq_refl eq_refl _).
  intros data Hd. vm_compute in Hd. injection Hd as <-. reflexivity.
Defined.

Lemma ipfs_manifest_accepts_only_200_run :
  let self := loader_at "ipfs://QmManifest" in
  session_get gateway_204 "https://ipfs.io/ipfs/QmManifest" = Ok (204, "")
  /\ fst (_load_manifest gateway_204 self empty_world)
     = Err (Raise IOError "IPFS load failed: 204").
Proof.
  intros self. split; [reflexivity|].
  now rewrite (ipfs_manifest_accepts_only_200 gateway_204 self empty_world
                 "QmManifest" "" 204 eq_refl eq_refl eq_refl).
Defined.

Lemma well_formed_manifest_loads_unchanged_run :
  let d := [("datasets", PList [shard "file://a.bin" (hex three)])] in
  json_loads offline good_text = Some (PDict d)
  /\ _parse_manifest offline good_text = Ok (PDict d)
  /\ manifest_shards (set_manifest (loader PNone) (PDict d))
     = [shard "file://a.bin" (hex three)].
Proof.
  intros d. split; [reflexivity|].
  refine (well_formed_manifest_loads_unchanged offline (loader PNone) good_text d
            [shard "file://a.bin" (hex three)] eq_refl eq_refl _).
  constructor; [|constructor].
  eexists. split; [reflexivity|]. eexists. reflexivity.
Defined.

Lemma persistent_http_error_exhausts_retries_run :
  let r := _fetch_shard server_404 (loader PNone) (PStr uri_a) (PStr (hex three))
                        empty_world in
  startswith uri_a "http" = true
  /\ cache_state_of empty_world path_a = Absent
  /\ log (snd r)
     = [(WARNING, "Attempt 1 failed: 404 Client Error: Not Found for url: https://h/a.bin");
        (WARNING, "Attempt 2 failed: 404 Client Error: Not Found for url: https://h/a.bin");
        (WARNING, "Attempt 3 failed: 404 Client Error: Not Found for url: https://h/a.bin")]
  /\ fst r = Err (unavailable uri_a)
  /\ net (snd r) = [uri_a; uri_a; uri_a]
  /\ slept (snd r) = [1; 2; 4]
  /\ fs (snd r) = fs empty_world.
Proof.
  intros r. split; [reflexivity|]. split; [reflexivity|]. split; [reflexivity|].
  apply (persistent_http_error_exhausts_retries server_404 (loader PNone) uri_a
           (PStr (hex three)) empty_world eq_refl).
  - intros k. exists (mkResponse 404 "Not Found" uri_a (Ok 0) []).
    split; [reflexivity|]. cbn. lia.
  - reflexivity.
Defined.

Lemma failed_initialize_leaves_no_manifest_to_stream_run :
  let self := loader_at "manifest.json" in
  let r := initialize offline self empty_world in
  manifest self = PNone
  /\ fst (_load_manifest offline self empty_world)
     = Err (Raise IndexError "list index out of range")
  /\ fst (fst r) = Err (Raise IndexError "list index out of range")
  /\ fst (stream_batches offline (snd (fst r)) [] (snd r))
     = stopped (Raise TypeError "'NoneType' object is not subscriptable").
Proof.
  intros self r. split; [reflexivity|]. split; [reflexivity|].
  destruct (failed_initialize_leaves_no_manifest_to_stream offline self
              empty_world (Raise IndexError "list index out of range") []
              eq_refl eq_refl eq_refl) as (H1 & _ & H3).
  fold r in H1, H3. split; [exact H1|]. now rewrite H3.
Defined.

End FurtherRuns.
